(** * MindMint: ledger, persistence and mint flow

    A shallow embedding of the TypeScript sources of MindMint:
    - [src/utils/index.ts]: [calculateClarityPoints], [calculateStreak],
      [validateJournalEntry];
    - [src/services/database/index.ts]: [DatabaseService.updateJournalEntry];
    - [src/services/solana/index.ts]: [mintJournalEntryAsNFT];
    - [src/contexts/AppContext.tsx], in its two versions: the SQLite-only
      provider and the provider with the PostgreSQL mirror, the wallet and
      the Solana service.

    Conventions.  A JS [number] holding an integer is a [Z]; a [Date] is its
    [getTime()] value, milliseconds since the epoch, as a [Z]; an optional
    field is an [option]; a thrown [Error] is [Err msg] carrying the
    message.  What an external collaborator answers (the chain, the SQLite
    engine, the PostgreSQL server) is an argument of the function that
    awaits it. *)

From Stdlib Require Import ZArith NArith List Lia Permutation Sorted Ascii.
From stdpp Require Import base option list strings gmap sorting pretty.

Local Open Scope Z_scope.

(** ** Results of fallible code *)

Inductive Result (A : Type) : Type :=
| Ok (a : A)
| Err (msg : string).
Arguments Ok {A} a.
Arguments Err {A} msg%_string.

Global Instance Result_ret : MRet Result := fun A a => Ok a.

Global Instance Result_bind : MBind Result := fun A B k r =>
  match r with
  | Ok a => k a
  | Err m => Err m
  end.

Definition isOk {A} (r : Result A) : bool :=
  match r with Ok _ => true | Err _ => false end.

(** ** Data model ([src/types/index.ts]) *)

Inductive MoodType :=
| happy | sad | calm | anxious | excited | tired | grateful | angry.

Inductive Theme := light | dark.

Module UserPreferences.
Record t := mk {
  enableNotifications : bool;
  notificationTime : string;
  theme : Theme;
  autoSync : bool;
}.
End UserPreferences.

Module User.
Record t := mk {
  id : string;
  walletAddress : option string;
  totalClarityPoints : Z;
  currentStreak : Z;
  longestStreak : Z;
  lastEntryDate : option Z;
  createdAt : Z;
  preferences : UserPreferences.t;
}.
End User.

(** The interface declares ten fields; the mint flow spreads two more keys
    ([nftTransactionSignature], [nftMetadataUri]) into the objects held in
    the React state, so the in-memory entry carries them as optional
    fields. *)
Module JournalEntry.
Record t := mk {
  id : string;
  userId : string;
  content : string;
  mood : MoodType;
  createdAt : Z;
  updatedAt : Z;
  isMinted : bool;
  nftAddress : option string;
  clarityPoints : Z;
  isSync : bool;
  nftTransactionSignature : option string;
  nftMetadataUri : option string;
}.
End JournalEntry.

(** [Partial<JournalEntry>], with the two extra keys of the mint flow: a key
    that is absent (or [undefined]) is [None]. *)
Module Partial.
Record t := mk {
  id : option string;
  userId : option string;
  content : option string;
  mood : option MoodType;
  createdAt : option Z;
  updatedAt : option Z;
  isMinted : option bool;
  nftAddress : option string;
  clarityPoints : option Z;
  isSync : option bool;
  nftTransactionSignature : option string;
  nftMetadataUri : option string;
}.

Definition empty : t :=
  mk None None None None None None None None None None None None.
End Partial.

(** A row of the SQLite table [journal_entries]; booleans are the integers
    0 and 1, timestamps are kept as their millisecond value. *)
Module DBJournalEntry.
Record t := mk {
  id : string;
  user_id : string;
  content : string;
  mood : MoodType;
  created_at : Z;
  updated_at : Z;
  is_minted : Z;
  nft_address : option string;
  clarity_points : Z;
  is_sync : Z;
}.
End DBJournalEntry.

Module ClarityPointsBreakdown.
Record t := mk {
  dailyEntry : Z;
  streakBonus : Z;
  moodTracking : Z;
  nftMinting : Z;
  total : Z;
}.
End ClarityPointsBreakdown.

(** ** [src/utils/index.ts] *)

Module Utils.

Module CLARITY_POINTS.
Definition DAILY_ENTRY : Z := 10.
Definition MOOD_TRACKING : Z := 5.
Definition NFT_MINTING : Z := 20.
Definition STREAK_3_DAYS : Z := 15.
Definition STREAK_7_DAYS : Z := 50.
Definition STREAK_30_DAYS : Z := 200.
End CLARITY_POINTS.

Definition calculateClarityPoints
    (entry : JournalEntry.t) (currentStreak : Z) (isMoodTracked : bool)
    : ClarityPointsBreakdown.t :=
  let dailyEntry := CLARITY_POINTS.DAILY_ENTRY in
  let moodTracking :=
    if isMoodTracked then CLARITY_POINTS.MOOD_TRACKING else 0 in
  let nftMinting :=
    if JournalEntry.isMinted entry then CLARITY_POINTS.NFT_MINTING else 0 in
  let streakBonus :=
    if 30 <=? currentStreak then CLARITY_POINTS.STREAK_30_DAYS
    else if 7 <=? currentStreak then CLARITY_POINTS.STREAK_7_DAYS
    else if 3 <=? currentStreak then CLARITY_POINTS.STREAK_3_DAYS
    else 0 in
  let total := dailyEntry + moodTracking + nftMinting + streakBonus in
  ClarityPointsBreakdown.mk dailyEntry streakBonus moodTracking nftMinting total.

(** *** Dates

    [setHours(0,0,0,0)] moves a date to the local midnight before it.  The
    local time zone is a fixed offset from UTC, [tz] milliseconds east (no
    daylight-saving change between the dates compared), so local midnights
    are [msPerDay] apart. *)

Definition msPerDay : Z := 1000 * 60 * 60 * 24.

Definition startOfDay (tz t : Z) : Z := (t + tz) / msPerDay * msPerDay - tz.

(** The comparator of [entries.sort]: [b.createdAt - a.createdAt], newest
    first. *)
Definition newestFirst (a b : JournalEntry.t) : Prop :=
  JournalEntry.createdAt b <= JournalEntry.createdAt a.

Global Instance newestFirst_dec a b : Decision (newestFirst a b).
Proof. unfold newestFirst. apply _. Defined.

(** [daysDiff] of the loop body, for the entry created at [t]. *)
Definition daysDiff (tz now t : Z) : Z :=
  (startOfDay tz now - startOfDay tz t) / msPerDay.

(** The [for] loop over the sorted entries, [streak] being the counter. *)
Fixpoint streakLoop (tz now : Z) (sortedEntries : list JournalEntry.t)
    (streak : Z) : Z :=
  match sortedEntries with
  | [] => streak
  | e :: rest =>
      let d := daysDiff tz now (JournalEntry.createdAt e) in
      if d =? streak then streakLoop tz now rest (streak + 1)
      else if streak <? d then streak
      else streakLoop tz now rest streak
  end.

(** [calculateStreak(entries, user)] evaluated at the instant [now] in the
    time zone [tz]. *)
Definition calculateStreak (tz now : Z)
    (entries : list JournalEntry.t) (user : User.t) : Z :=
  match entries with
  | [] => 0
  | _ =>
      let sortedEntries := merge_sort newestFirst entries in
      streakLoop tz now sortedEntries 0
  end.

(** *** Strings

    A JS string is its sequence of UTF-16 code units; [length] counts
    them.  [trim] removes the leading and trailing code units that are
    ECMAScript WhiteSpace or LineTerminator (all of them in the basic
    plane). *)

Abbreviation JSString := (list N).

Definition whiteSpaceUnits : list N :=
  [ 9; 10; 11; 12; 13; 32; 160; 5760; 8232; 8233; 8239; 8287; 12288;
    65279 ]%N.

Definition isWhiteSpace (c : N) : bool :=
  existsb (N.eqb c) whiteSpaceUnits || ((8192 <=? c) && (c <=? 8202))%N.

Fixpoint trimStart (s : JSString) : JSString :=
  match s with
  | [] => []
  | c :: rest => if isWhiteSpace c then trimStart rest else s
  end.

Definition trimEnd (s : JSString) : JSString := rev (trimStart (rev s)).

Definition trim (s : JSString) : JSString := trimEnd (trimStart s).

Module ValidationResult.
Record t := mk {
  isValid : bool;
  errors : list string;
}.
End ValidationResult.

Definition jsLength (s : JSString) : Z := Z.of_nat (length s).

(** [errors.push] appends; the three [if]s run in sequence. *)
Definition validateJournalEntry (content : JSString) : ValidationResult.t :=
  let errors : list string := [] in
  let errors :=
    if (jsLength content =? 0) || (jsLength (trim content) =? 0)
    then errors ++ ["Journal entry cannot be empty"%string] else errors in
  let errors :=
    if jsLength (trim content) <? 10
    then errors ++ ["Journal entry should be at least 10 characters long"%string]
    else errors in
  let errors :=
    if 5000 <? jsLength content
    then errors ++ ["Journal entry cannot exceed 5000 characters"%string]
    else errors in
  ValidationResult.mk (Nat.eqb (length errors) 0) errors.

End Utils.

(** ** [src/services/database/index.ts]: the SQLite store *)

Module DatabaseService.

Inductive Column :=
| c_id | c_user_id | c_content | c_mood | c_created_at | c_updated_at
| c_is_minted | c_nft_address | c_clarity_points | c_is_sync.

(** A bound parameter.  The flags are bound as the texts ['1'] and ['0']
    and the points as their decimal text; the INTEGER columns store them
    as the integers they denote, which is the value [VInt] carries. *)
Inductive SqlValue :=
| VText (s : string)
| VMood (m : MoodType)
| VTime (t : Z)
| VInt (z : Z).

Abbreviation Row := DBJournalEntry.t.

(** One [column = ?] of a SET clause applied to a row. *)
Definition setColumn (row : Row) (a : Column * SqlValue) : Row :=
  let '(DBJournalEntry.mk i u c m ca ua im na cp sy) := row in
  match a with
  | (c_id, VText s) => DBJournalEntry.mk s u c m ca ua im na cp sy
  | (c_user_id, VText s) => DBJournalEntry.mk i s c m ca ua im na cp sy
  | (c_content, VText s) => DBJournalEntry.mk i u s m ca ua im na cp sy
  | (c_mood, VMood x) => DBJournalEntry.mk i u c x ca ua im na cp sy
  | (c_created_at, VTime t) => DBJournalEntry.mk i u c m t ua im na cp sy
  | (c_updated_at, VTime t) => DBJournalEntry.mk i u c m ca t im na cp sy
  | (c_is_minted, VInt z) => DBJournalEntry.mk i u c m ca ua z na cp sy
  | (c_nft_address, VText s) => DBJournalEntry.mk i u c m ca ua im (Some s) cp sy
  | (c_clarity_points, VInt z) => DBJournalEntry.mk i u c m ca ua im na z sy
  | (c_is_sync, VInt z) => DBJournalEntry.mk i u c m ca ua im na cp z
  | _ => row
  end.

(** [UPDATE journal_entries SET ... WHERE id = ?]. *)
Definition runUpdate (setClause : list (Column * SqlValue)) (id : string)
    (rows : list Row) : list Row :=
  map (fun row =>
         if decide (DBJournalEntry.id row = id)
         then fold_left setColumn setClause row
         else row) rows.

Definition flag (b : bool) : SqlValue := VInt (if b then 1 else 0).

(** The SET clause [updateJournalEntry] builds: [updated_at] first, then
    one assignment per key of [updates] that is not [undefined]. *)
Definition setClauseOf (now : Z) (updates : Partial.t)
    : list (Column * SqlValue) :=
  let setClause := [(c_updated_at, VTime now)] in
  let setClause :=
    match Partial.content updates with
    | Some c => setClause ++ [(c_content, VText c)]
    | None => setClause
    end in
  let setClause :=
    match Partial.mood updates with
    | Some m => setClause ++ [(c_mood, VMood m)]
    | None => setClause
    end in
  let setClause :=
    match Partial.isMinted updates with
    | Some b => setClause ++ [(c_is_minted, flag b)]
    | None => setClause
    end in
  let setClause :=
    match Partial.nftAddress updates with
    | Some a => setClause ++ [(c_nft_address, VText a)]
    | None => setClause
    end in
  let setClause :=
    match Partial.clarityPoints updates with
    | Some p => setClause ++ [(c_clarity_points, VInt p)]
    | None => setClause
    end in
  match Partial.isSync updates with
  | Some b => setClause ++ [(c_is_sync, flag b)]
  | None => setClause
  end.

(** [updateJournalEntry(id, updates)] at the instant [now].  [db] is the
    handle [this.db] with the rows of [journal_entries] ([None] before
    [init]); [runAsync] is what the engine answers: [None] when the
    statement runs, [Some msg] when it rejects. *)
Definition updateJournalEntry (db : option (list Row))
    (runAsync : option string) (now : Z) (id : string)
    (updates : Partial.t) : Result (list Row) :=
  match db with
  | None => Err "Database not initialized"
  | Some rows =>
      match runAsync with
      | Some msg => Err msg
      | None => Ok (runUpdate (setClauseOf now updates) id rows)
      end
  end.

End DatabaseService.

(** ** [src/config/index.ts]

    The keys of [CONFIG] the core reads.  The operations below take the
    configuration as an argument; [CONFIG] is the object of the source. *)

Module Config.
Record t := mk {
  DATABASE_SQLITE_ENABLED : bool;
  DATABASE_POSTGRESQL_ENABLED : bool;
  SOLANA_ENABLED : bool;
  NFT_ENABLED : bool;
  CLARITY_POINTS_NFT_MINTING : Z;
}.
End Config.

Definition CONFIG : Config.t :=
  Config.mk true false true true 20.

(** ** [src/services/wallet/index.ts] *)

Module WalletAdapter.
Record t := mk {
  publicKey : option string;
  connected : bool;
}.
End WalletAdapter.

Module WalletService.
Record t := mk {
  currentWallet : option WalletAdapter.t;
  connectedKeypair : option string;
}.

(** [this.currentWallet?.connected === true && this.connectedKeypair !== null] *)
Definition isConnected (ws : t) : bool :=
  match currentWallet ws with
  | Some wallet => WalletAdapter.connected wallet
  | None => false
  end && bool_decide (is_Some (connectedKeypair ws)).
End WalletService.

(** ** [src/services/solana/index.ts] *)

Module NFTMintResult.
Record t := mk {
  nftAddress : string;
  transactionSignature : string;
  metadataUri : string;
}.
End NFTMintResult.

(** Of the metadata object, what is computed from the entry: the preview
    inside the description, the mood, the points, the word count and the
    owner's share.  The title and date texts come from the locale. *)
Module IPFSMetadata.
Record t := mk {
  description : string;
  moodAttribute : MoodType;
  clarityPointsAttribute : Z;
  wordCount : Z;
  creator : string;
}.
End IPFSMetadata.

(** What the chain answers to [createSimpleNFT] (createMint, createAccount,
    mintTo): a fresh mint address and the signature of the mintTo
    transaction, or a rejection. *)
Inductive ChainAnswer :=
| ChainMinted (mint signature : string)
| ChainRejected.

Module SolanaService.

(** [entry.content.split(' ').length]: one more than the number of spaces. *)
Fixpoint countSpaces (s : string) : Z :=
  match s with
  | EmptyString => 0
  | String c rest =>
      (if Ascii.eqb c " "%char then 1 else 0) + countSpaces rest
  end.

Definition entryPreview (content : string) : string :=
  if (100 <? Z.of_nat (String.length content))%Z
  then String.append (String.substring 0 100 content) "..."
  else content.

Definition createNFTMetadata (entry : JournalEntry.t) (userWallet : string)
    : IPFSMetadata.t :=
  IPFSMetadata.mk
    (entryPreview (JournalEntry.content entry))
    (JournalEntry.mood entry)
    (JournalEntry.clarityPoints entry)
    (countSpaces (JournalEntry.content entry) + 1)
    userWallet.

(** [getWalletKeypair()] *)
Definition getWalletKeypair (ws : WalletService.t) : Result string :=
  match WalletService.currentWallet ws with
  | None => Err "Wallet not connected"
  | Some _ =>
      match WalletService.connectedKeypair ws with
      | None => Err "Wallet keypair not available"
      | Some keypair => Ok keypair
      end
  end.

(** [createSimpleNFT(walletKeypair)]: [tokens] are the mint addresses that
    exist on the chain; every successful call adds one. *)
Definition createSimpleNFT (answer : ChainAnswer) (tokens : list string)
    : list string * Result (string * string) :=
  match answer with
  | ChainMinted mint signature => (mint :: tokens, Ok (mint, signature))
  | ChainRejected => (tokens, Err "Failed to create NFT")
  end.

(** The template [`Failed to mint NFT: ${error}`] for an [Error] object. *)
Definition wrapMintError (msg : string) : string :=
  String.append "Failed to mint NFT: Error: " msg.

(** [mintJournalEntryAsNFT(entry)].  [uri] is the address the (mock) IPFS
    upload returns, [answer] the chain's answer. *)
Definition mintJournalEntryAsNFT (cfg : Config.t) (ws : WalletService.t)
    (uri : string) (answer : ChainAnswer) (entry : JournalEntry.t)
    (tokens : list string) : list string * Result NFTMintResult.t :=
  if negb (Config.NFT_ENABLED cfg) then (tokens, Err "NFT minting is disabled")
  else
    match WalletService.currentWallet ws ≫= WalletAdapter.publicKey with
    | None => (tokens, Err "Wallet not connected")
    | Some publicKey =>
        let metadata := createNFTMetadata entry publicKey in
        let metadataUri := uri in
        match getWalletKeypair ws with
        | Err msg => (tokens, Err (wrapMintError msg))
        | Ok walletKeypair =>
            match createSimpleNFT answer tokens with
            | (tokens', Err msg) => (tokens', Err (wrapMintError msg))
            | (tokens', Ok (mint, signature)) =>
                (tokens', Ok (NFTMintResult.mk mint signature metadataUri))
            end
        end
    end.

End SolanaService.

(** ** [src/services/database/postgresql.ts]: the cloud mirror

    The server is a collaborator: the mirror is modelled by the statements
    it has accepted.  [server] is its answer to one statement, [None] when
    it runs and [Some msg] when it fails. *)

Module PostgreSQLService.

Inductive Statement :=
| Insert (values : JournalEntry.t)
| Update (id : string) (updates : Partial.t).

Record t := mk {
  isReactNative : bool;
  pool : option (list Statement);
}.

Definition query (server : option string) (stmt : Statement) (pg : t)
    : t * Result unit :=
  if isReactNative pg
  then (pg, Err "PostgreSQL operations not available in React Native")
  else
    match pool pg with
    | None => (pg, Err "Database not initialized")
    | Some accepted =>
        match server with
        | Some msg => (pg, Err msg)
        | None => (mk (isReactNative pg) (Some (accepted ++ [stmt])), Ok ())
        end
    end.

(** The values [createJournalEntry] binds to the ten columns of its
    INSERT, as an entry: the identifier and the instant are the ones the
    service draws ([id], [now]), whatever [entryData] carries under these
    names; [nft_address] is [entryData.nftAddress || null]; the other six
    are read from [entryData].  The two NFT fields that are no columns
    are absent. *)
Definition insertValues (id : string) (now : Z) (entryData : JournalEntry.t)
    : JournalEntry.t :=
  JournalEntry.mk id
    (JournalEntry.userId entryData)
    (JournalEntry.content entryData)
    (JournalEntry.mood entryData)
    now now
    (JournalEntry.isMinted entryData)
    (match JournalEntry.nftAddress entryData with
     | Some a => if bool_decide (a = ""%string) then None else Some a
     | None => None
     end)
    (JournalEntry.clarityPoints entryData)
    (JournalEntry.isSync entryData)
    None None.

(** [createJournalEntry(entryData)], with the identifier and the instant
    it draws. *)
Definition createJournalEntry (server : option string) (id : string) (now : Z)
    (entryData : JournalEntry.t) (pg : t) : t * Result unit :=
  query server (Insert (insertValues id now entryData)) pg.

(** [setClause.length <= 1]: no key of [updates] is written. *)
Definition onlyUpdatedAt (updates : Partial.t) : bool :=
  match Partial.content updates, Partial.mood updates,
        Partial.isMinted updates, Partial.nftAddress updates,
        Partial.clarityPoints updates, Partial.isSync updates with
  | None, None, None, None, None, None => true
  | _, _, _, _, _, _ => false
  end.

Definition updateJournalEntry (server : option string) (id : string)
    (updates : Partial.t) (pg : t) : t * Result unit :=
  if isReactNative pg
  then (pg, Err "PostgreSQL operations not available in React Native")
  else
    match pool pg with
    | None => (pg, Err "Database not initialized")
    | Some _ =>
        if onlyUpdatedAt updates then (pg, Ok ())
        else query server (Update id updates) pg
    end.

End PostgreSQLService.

(** ** The React state and its reducer ([appReducer])

    Of [AppState], the fields the callbacks below read or write: [loading],
    [syncStatus], [initialized] and [walletConnected] are display state that
    none of them consults. *)

Module AppState.
Record t := mk {
  user : option User.t;
  entries : list JournalEntry.t;
  error : option string;
}.
End AppState.

Inductive AppAction :=
| SET_USER (payload : User.t)
| SET_ENTRIES (payload : list JournalEntry.t)
| ADD_ENTRY (payload : JournalEntry.t)
| UPDATE_ENTRY (id : string) (updates : Partial.t)
| DELETE_ENTRY (payload : string)
| SET_ERROR (payload : option string).

(** The object spread [{ ...entry, ...updates }]. *)
Definition spread (entry : JournalEntry.t) (updates : Partial.t)
    : JournalEntry.t :=
  JournalEntry.mk
    (default (JournalEntry.id entry) (Partial.id updates))
    (default (JournalEntry.userId entry) (Partial.userId updates))
    (default (JournalEntry.content entry) (Partial.content updates))
    (default (JournalEntry.mood entry) (Partial.mood updates))
    (default (JournalEntry.createdAt entry) (Partial.createdAt updates))
    (default (JournalEntry.updatedAt entry) (Partial.updatedAt updates))
    (default (JournalEntry.isMinted entry) (Partial.isMinted updates))
    (match Partial.nftAddress updates with
     | Some a => Some a
     | None => JournalEntry.nftAddress entry
     end)
    (default (JournalEntry.clarityPoints entry) (Partial.clarityPoints updates))
    (default (JournalEntry.isSync entry) (Partial.isSync updates))
    (match Partial.nftTransactionSignature updates with
     | Some s => Some s
     | None => JournalEntry.nftTransactionSignature entry
     end)
    (match Partial.nftMetadataUri updates with
     | Some u => Some u
     | None => JournalEntry.nftMetadataUri entry
     end).

Definition appReducer (state : AppState.t) (action : AppAction) : AppState.t :=
  let '(AppState.mk user entries error) := state in
  match action with
  | SET_USER payload => AppState.mk (Some payload) entries error
  | SET_ENTRIES payload => AppState.mk user payload error
  | ADD_ENTRY payload => AppState.mk user (payload :: entries) error
  | UPDATE_ENTRY id updates =>
      AppState.mk user
        (map (fun entry =>
                if decide (JournalEntry.id entry = id)
                then spread entry updates
                else entry) entries)
        error
  | DELETE_ENTRY payload =>
      AppState.mk user
        (List.filter (fun entry =>
                        negb (bool_decide (JournalEntry.id entry = payload)))
                     entries)
        error
  | SET_ERROR payload => AppState.mk user entries payload
  end.

(** ** Everything the provider's callbacks read and write *)

Module World.
Record t := mk {
  state : AppState.t;
  sqlite : option (list DBJournalEntry.t);
  postgres : PostgreSQLService.t;
  wallet : WalletService.t;
  tokens : list string;
}.

Definition with_state (s : AppState.t) (w : t) : t :=
  mk s (sqlite w) (postgres w) (wallet w) (tokens w).
Definition with_sqlite (db : option (list DBJournalEntry.t)) (w : t) : t :=
  mk (state w) db (postgres w) (wallet w) (tokens w).
Definition with_postgres (pg : PostgreSQLService.t) (w : t) : t :=
  mk (state w) (sqlite w) pg (wallet w) (tokens w).
Definition with_tokens (ts : list string) (w : t) : t :=
  mk (state w) (sqlite w) (postgres w) (wallet w) ts.
End World.

(** An [async] callback: it changes the world and resolves or rejects.
    What it changed before rejecting stays changed. *)
Definition M (A : Type) : Type := World.t -> World.t * Result A.

Global Instance M_ret : MRet M := fun A a w => (w, Ok a).

Global Instance M_bind : MBind M := fun A B k m w =>
  match m w with
  | (w', Ok a) => k a w'
  | (w', Err msg) => (w', Err msg)
  end.

Definition throw {A} (msg : string) : M A := fun w => (w, Err msg).

Definition tryCatch {A} (body : M A) (handler : string -> M A) : M A :=
  fun w =>
    match body w with
    | (w', Ok a) => (w', Ok a)
    | (w', Err msg) => handler msg w'
    end.

Definition dispatch (action : AppAction) : M unit :=
  fun w => (World.with_state (appReducer (World.state w) action) w, Ok ()).

Definition when (b : bool) (m : M unit) : M unit :=
  if b then m else mret ().

(** [await databaseService.updateJournalEntry(id, updates)] *)
Definition sqliteUpdate (runAsync : option string) (now : Z) (id : string)
    (updates : Partial.t) : M unit :=
  fun w =>
    match DatabaseService.updateJournalEntry
            (World.sqlite w) runAsync now id updates with
    | Ok rows => (World.with_sqlite (Some rows) w, Ok ())
    | Err msg => (w, Err msg)
    end.

(** [await postgreSQLService.updateJournalEntry(id, updates)] *)
Definition postgresUpdate (server : option string) (id : string)
    (updates : Partial.t) : M unit :=
  fun w =>
    let '(pg, r) :=
      PostgreSQLService.updateJournalEntry server id updates (World.postgres w) in
    (World.with_postgres pg w, r).

(** [await postgreSQLService.createJournalEntry(entryData)] *)
Definition postgresCreate (server : option string) (id : string) (now : Z)
    (entryData : JournalEntry.t) : M unit :=
  fun w =>
    let '(pg, r) :=
      PostgreSQLService.createJournalEntry server id now entryData
                                           (World.postgres w) in
    (World.with_postgres pg w, r).

(** ** The provider with the cloud mirror and the wallet

    The callbacks read [state] as the render that created them saw it; a call
    reads it in the statements that run before its first [await].  Here the
    state read is the one of the world the call starts in. *)

Module AppProvider.

(** Answers of the stores to one [updateEntry]. *)
Module StoreEnv.
Record t := mk {
  postgres : option string;
  sqlite : option string;
  now : Z;
}.
End StoreEnv.

Definition updateEntry (cfg : Config.t) (env : StoreEnv.t) (id : string)
    (updates : Partial.t) : M unit :=
  tryCatch
    (when (Config.DATABASE_POSTGRESQL_ENABLED cfg)
          (postgresUpdate (StoreEnv.postgres env) id updates);;
     when (Config.DATABASE_SQLITE_ENABLED cfg)
          (sqliteUpdate (StoreEnv.sqlite env) (StoreEnv.now env) id updates);;
     dispatch (UPDATE_ENTRY id updates))
    (fun _ => dispatch (SET_ERROR (Some "Failed to update journal entry"%string))).

(** Answers of the collaborators to one [mintEntryAsNFT]. *)
Module MintEnv.
Record t := mk {
  uri : string;
  chain : ChainAnswer;
  stores : StoreEnv.t;
}.
End MintEnv.

(** [state.entries.find(e => e.id === entryId)] *)
Definition lookupEntry (entryId : string) (w : World.t)
    : option JournalEntry.t :=
  List.find (fun e => bool_decide (JournalEntry.id e = entryId))
            (AppState.entries (World.state w)).

(** The statements of [mintEntryAsNFT] before its [try]: they read the
    configuration, the wallet and [state.entries], and change nothing. *)
Definition mintPrecheck (cfg : Config.t) (entryId : string) (w : World.t)
    : Result JournalEntry.t :=
  if negb (Config.SOLANA_ENABLED cfg)
  then Err "Solana functionality is disabled"
  else if negb (WalletService.isConnected (World.wallet w))
  then Err "Wallet not connected"
  else
    match lookupEntry entryId w with
    | None => Err "Entry not found"
    | Some entry =>
        if JournalEntry.isMinted entry
        then Err "Entry already minted as NFT"
        else Ok entry
    end.

(** [await solanaService.mintJournalEntryAsNFT(entry)] *)
Definition solanaMint (cfg : Config.t) (env : MintEnv.t)
    (entry : JournalEntry.t) : M NFTMintResult.t :=
  fun w =>
    let '(tokens, r) :=
      SolanaService.mintJournalEntryAsNFT cfg (World.wallet w)
        (MintEnv.uri env) (MintEnv.chain env) entry (World.tokens w) in
    (World.with_tokens tokens w, r).

Definition mintUpdates (cfg : Config.t) (entry : JournalEntry.t)
    (nftResult : NFTMintResult.t) : Partial.t :=
  Partial.mk None None None None None None
    (Some true)
    (Some (NFTMintResult.nftAddress nftResult))
    (Some (JournalEntry.clarityPoints entry + Config.CLARITY_POINTS_NFT_MINTING cfg))
    None
    (Some (NFTMintResult.transactionSignature nftResult))
    (Some (NFTMintResult.metadataUri nftResult)).

(** The [try] block of [mintEntryAsNFT] with its [catch], for the [entry]
    the checks found: the part of a call that runs from its first [await]
    on. *)
Definition mintResume (cfg : Config.t) (env : MintEnv.t) (entryId : string)
    (entry : JournalEntry.t) : M string :=
  tryCatch
    (nftResult ← solanaMint cfg env entry;
     updateEntry cfg (MintEnv.stores env) entryId (mintUpdates cfg entry nftResult);;
     mret (NFTMintResult.nftAddress nftResult))
    (fun error =>
       dispatch (SET_ERROR (Some "Failed to mint NFT"%string));;
       throw error).

Definition mintEntryAsNFT (cfg : Config.t) (env : MintEnv.t)
    (entryId : string) : M string :=
  fun w =>
    match mintPrecheck cfg entryId w with
    | Err msg => (w, Err msg)
    | Ok entry => mintResume cfg env entryId entry w
    end.

(** Two calls for the same entry, the second made while the first is
    suspended at its first [await]: both run their checks on the same
    state, then the first resumes and completes, then the second. *)
Definition mintTwiceInFlight (cfg : Config.t) (env1 env2 : MintEnv.t)
    (entryId : string) (w : World.t)
    : World.t * (Result string * Result string) :=
  let check1 := mintPrecheck cfg entryId w in
  let check2 := mintPrecheck cfg entryId w in
  let '(w1, r1) :=
    match check1 with
    | Err msg => (w, Err msg)
    | Ok entry => mintResume cfg env1 entryId entry w
    end in
  let '(w2, r2) :=
    match check2 with
    | Err msg => (w1, Err msg)
    | Ok entry => mintResume cfg env2 entryId entry w1
    end in
  (w2, (r1, r2)).

(** Answers of the stores during one [syncToCloud], per entry written:
    what the server and the engine answer, the instant of the SQLite
    statement, and the identifier and instant the mirror draws for its
    row. *)
Module SyncEnv.
Record t := mk {
  postgres : JournalEntry.t -> option string;
  sqlite : JournalEntry.t -> option string;
  now : JournalEntry.t -> Z;
  postgresId : JournalEntry.t -> string;
  postgresNow : JournalEntry.t -> Z;
}.
End SyncEnv.

Definition markSynced (entry : JournalEntry.t) : JournalEntry.t :=
  spread entry
    (Partial.mk None None None None None None None None None (Some true)
                None None).

Definition onlyIsSync (b : bool) : Partial.t :=
  Partial.mk None None None None None None None None None (Some b) None None.

(** The body of the [for] loop, with its own [try]/[catch]. *)
Definition syncEntry (env : SyncEnv.t) (entry : JournalEntry.t) : M unit :=
  tryCatch
    (postgresCreate (SyncEnv.postgres env entry)
                    (SyncEnv.postgresId env entry) (SyncEnv.postgresNow env entry)
                    (markSynced entry);;
     sqliteUpdate (SyncEnv.sqlite env entry) (SyncEnv.now env entry)
                  (JournalEntry.id entry) (onlyIsSync true))
    (fun _ => mret ()).

Fixpoint forEach {A} (l : list A) (body : A -> M unit) : M unit :=
  match l with
  | [] => mret ()
  | x :: rest => body x;; forEach rest body
  end.

Definition unsyncedEntries (w : World.t) : list JournalEntry.t :=
  List.filter (fun entry => negb (JournalEntry.isSync entry))
              (AppState.entries (World.state w)).

Definition syncToCloud (cfg : Config.t) (env : SyncEnv.t) : M unit :=
  fun w =>
    if negb (Config.DATABASE_POSTGRESQL_ENABLED cfg)
       || negb (bool_decide (is_Some (AppState.user (World.state w))))
    then (w, Ok ())
    else
      tryCatch
        (forEach (unsyncedEntries w) (syncEntry env))
        (fun _ => dispatch (SET_ERROR (Some "Failed to sync data to cloud"%string)))
        w.

End AppProvider.

(** ** The SQLite-only provider (the other [AppContext.tsx]) *)

Module AppProviderLocal.

(** [updates.content || updates.mood]: a string is truthy when it is not
    empty, a mood always. *)
Definition contentOrMood (updates : Partial.t) : bool :=
  match Partial.content updates with
  | Some c => negb (bool_decide (c = ""%string))
  | None => false
  end || bool_decide (is_Some (Partial.mood updates)).

Definition setIsSync (b : bool) (updates : Partial.t) : Partial.t :=
  let '(Partial.mk i u c m ca ua im na cp _ ts mu) := updates in
  Partial.mk i u c m ca ua im na cp (Some b) ts mu.

(** [runAsync1], [now1] answer the first statement, [runAsync2], [now2] the
    one that clears the flag. *)
Definition updateEntry (cfg : Config.t)
    (runAsync1 runAsync2 : option string) (now1 now2 : Z)
    (id : string) (updates : Partial.t) : M unit :=
  tryCatch
    (updates' ←
       (if Config.DATABASE_SQLITE_ENABLED cfg
        then
          sqliteUpdate runAsync1 now1 id updates;;
          if contentOrMood updates
          then
            sqliteUpdate runAsync2 now2 id (AppProvider.onlyIsSync false);;
            mret (setIsSync false updates)
          else mret updates
        else mret updates);
     dispatch (UPDATE_ENTRY id updates'))
    (fun _ => dispatch (SET_ERROR (Some "Failed to update journal entry"%string))).

End AppProviderLocal.

(** * The rest of the code around the core *)

(** ** More of [src/utils/index.ts] *)

Module UtilsMore.
Import Utils.

(** [hasWrittenToday(entries)] at the instant [now]: some entry whose local
    midnight is today's. *)
Definition hasWrittenToday (tz now : Z) (entries : list JournalEntry.t) : bool :=
  let today := startOfDay tz now in
  existsb (fun entry =>
             let entryDate := startOfDay tz (JournalEntry.createdAt entry) in
             entryDate =? today)
          entries.

(** [cutoffDate.setDate(cutoffDate.getDate() - days)]: without a
    daylight-saving change in between, [days] whole days before [now]. *)
Definition getRecentEntries (now : Z) (entries : list JournalEntry.t)
    (days : Z) : list JournalEntry.t :=
  let cutoffDate := now - days * msPerDay in
  List.filter (fun entry => cutoffDate <=? JournalEntry.createdAt entry) entries.

(** [text.substring(0, end)]: [end] is clamped to [0 .. text.length]. *)
Definition substring0 (text : JSString) (end_ : Z) : JSString :=
  take (Z.to_nat end_) text.

Definition ellipsis : JSString := [46; 46; 46]%N.

Definition truncateText (text : JSString) (maxLength : Z) : JSString :=
  if jsLength text <=? maxLength then text
  else substring0 text maxLength ++ ellipsis.

(** [formatRelativeTime(date)] at the instant [now].  A number is printed
    in a template as its decimal numeral. *)
Definition plural (n : Z) : string := if 1 <? n then "s" else "".

Definition formatRelativeTime (now date : Z) : string :=
  let diffMs := now - date in
  let diffHours := diffMs / (1000 * 60 * 60) in
  let diffDays := diffHours / 24 in
  if 0 <? diffDays
  then pretty diffDays +:+ " day" +:+ plural diffDays +:+ " ago"
  else if 0 <? diffHours
  then pretty diffHours +:+ " hour" +:+ plural diffHours +:+ " ago"
  else
    let diffMinutes := diffMs / (1000 * 60) in
    pretty (Z.max 1 diffMinutes) +:+ " minute" +:+ plural diffMinutes +:+ " ago".

End UtilsMore.

Global Instance MoodType_eq_dec : EqDecision MoodType.
Proof. solve_decision. Defined.

Definition moodIndex (m : MoodType) : nat :=
  match m with
  | happy => 0 | sad => 1 | calm => 2 | anxious => 3
  | excited => 4 | tired => 5 | grateful => 6 | angry => 7
  end.

Definition moodOfIndex (n : nat) : option MoodType :=
  match n with
  | 0 => Some happy | 1 => Some sad | 2 => Some calm | 3 => Some anxious
  | 4 => Some excited | 5 => Some tired | 6 => Some grateful | 7 => Some angry
  | _ => None
  end%nat.

Global Instance MoodType_countable : Countable MoodType.
Proof.
  apply (inj_countable moodIndex moodOfIndex). intros []; reflexivity.
Defined.

Module MoodStats.

(** [getMoodDistribution(entries)]: the object keyed by mood, as a finite
    map; [(distribution[m] || 0) + 1] for every entry in turn. *)
Definition getMoodDistribution (entries : list JournalEntry.t)
    : gmap MoodType Z :=
  foldl (fun distribution entry =>
           <[JournalEntry.mood entry :=
               default 0 (distribution !! JournalEntry.mood entry) + 1]>
             distribution)
        ∅ entries.

End MoodStats.

(** ** More of [src/services/database/index.ts]: journal entries *)

(** [Omit<JournalEntry, 'id' | 'createdAt' | 'updatedAt'>] *)
Module EntryData.
Record t := mk {
  userId : string;
  content : string;
  mood : MoodType;
  isMinted : bool;
  nftAddress : option string;
  clarityPoints : Z;
  isSync : bool;
}.
End EntryData.

Module SQLiteEntries.

(** [x || null] and [x || undefined] for an optional string: the empty
    string is falsy. *)
Definition orNull (x : option string) : option string :=
  match x with
  | Some s => if bool_decide (s = ""%string) then None else Some s
  | None => None
  end.

(** [dbEntryToEntry] *)
Definition dbEntryToEntry (dbEntry : DBJournalEntry.t) : JournalEntry.t :=
  JournalEntry.mk
    (DBJournalEntry.id dbEntry)
    (DBJournalEntry.user_id dbEntry)
    (DBJournalEntry.content dbEntry)
    (DBJournalEntry.mood dbEntry)
    (DBJournalEntry.created_at dbEntry)
    (DBJournalEntry.updated_at dbEntry)
    (DBJournalEntry.is_minted dbEntry =? 1)
    (orNull (DBJournalEntry.nft_address dbEntry))
    (DBJournalEntry.clarity_points dbEntry)
    (DBJournalEntry.is_sync dbEntry =? 1)
    None None.

(** The object [{ id, createdAt, updatedAt, ...entryData }] that
    [createJournalEntry] returns. *)
Definition newEntry (id : string) (now : Z) (entryData : EntryData.t)
    : JournalEntry.t :=
  JournalEntry.mk id
    (EntryData.userId entryData)
    (EntryData.content entryData)
    (EntryData.mood entryData)
    now now
    (EntryData.isMinted entryData)
    (EntryData.nftAddress entryData)
    (EntryData.clarityPoints entryData)
    (EntryData.isSync entryData)
    None None.

(** The row of the INSERT statement. *)
Definition insertedRow (id : string) (now : Z) (entryData : EntryData.t)
    : DBJournalEntry.t :=
  DBJournalEntry.mk id
    (EntryData.userId entryData)
    (EntryData.content entryData)
    (EntryData.mood entryData)
    now now
    (if EntryData.isMinted entryData then 1 else 0)
    (orNull (EntryData.nftAddress entryData))
    (EntryData.clarityPoints entryData)
    (if EntryData.isSync entryData then 1 else 0).

(** [createJournalEntry(entryData)]: [id] is the identifier drawn from the
    clock and the random generator, [now] the instant; the result is the
    table after the INSERT and the entry returned. *)
Definition createJournalEntry (db : option (list DBJournalEntry.t))
    (runAsync : option string) (id : string) (now : Z)
    (entryData : EntryData.t)
    : Result (list DBJournalEntry.t * JournalEntry.t) :=
  match db with
  | None => Err "Database not initialized"
  | Some rows =>
      let entry := newEntry id now entryData in
      match runAsync with
      | Some msg => Err msg
      | None => Ok (rows ++ [insertedRow id now entryData], entry)
      end
  end.

(** [getJournalEntry(id)]: the first row of that id, or [null]. *)
Definition getJournalEntry (db : option (list DBJournalEntry.t))
    (getFirstAsync : option string) (id : string)
    : Result (option JournalEntry.t) :=
  match db with
  | None => Err "Database not initialized"
  | Some rows =>
      match getFirstAsync with
      | Some msg => Err msg
      | None =>
          Ok (dbEntryToEntry
                <$> List.find (fun row => bool_decide (DBJournalEntry.id row = id))
                              rows)
      end
  end.

(** [ORDER BY created_at DESC]: the ISO texts of the column order as the
    instants do.  Rows of one instant come in the order the sort leaves
    them; SQL fixes none. *)
Definition newestRowFirst (a b : DBJournalEntry.t) : Prop :=
  DBJournalEntry.created_at b <= DBJournalEntry.created_at a.

Global Instance newestRowFirst_dec a b : Decision (newestRowFirst a b).
Proof. unfold newestRowFirst. apply _. Defined.

(** [LIMIT n]: a negative [n] sets no bound. *)
Definition sqlLimit {A} (n : Z) (rows : list A) : list A :=
  if n <? 0 then rows else take (Z.to_nat n) rows.

(** [getJournalEntries(userId, limit)]: the LIMIT clause is written only
    for a truthy [limit]. *)
Definition getJournalEntries (db : option (list DBJournalEntry.t))
    (getAllAsync : option string) (userId : string) (limit : option Z)
    : Result (list JournalEntry.t) :=
  match db with
  | None => Err "Database not initialized"
  | Some rows =>
      match getAllAsync with
      | Some msg => Err msg
      | None =>
          let selected :=
            merge_sort newestRowFirst
              (List.filter (fun row => bool_decide (DBJournalEntry.user_id row = userId))
                           rows) in
          let results :=
            match limit with
            | Some n => if n =? 0 then selected else sqlLimit n selected
            | None => selected
            end in
          Ok (dbEntryToEntry <$> results)
      end
  end.

(** [deleteJournalEntry(id)] *)
Definition deleteJournalEntry (db : option (list DBJournalEntry.t))
    (runAsync : option string) (id : string) : Result (list DBJournalEntry.t) :=
  match db with
  | None => Err "Database not initialized"
  | Some rows =>
      match runAsync with
      | Some msg => Err msg
      | None =>
          Ok (List.filter (fun row => negb (bool_decide (DBJournalEntry.id row = id)))
                          rows)
      end
  end.

(** [getUnsyncedEntries(userId)] *)
Definition getUnsyncedEntries (db : option (list DBJournalEntry.t))
    (getAllAsync : option string) (userId : string)
    : Result (list JournalEntry.t) :=
  match db with
  | None => Err "Database not initialized"
  | Some rows =>
      match getAllAsync with
      | Some msg => Err msg
      | None =>
          Ok (dbEntryToEntry
                <$> List.filter
                      (fun row => bool_decide (DBJournalEntry.user_id row = userId)
                                  && (DBJournalEntry.is_sync row =? 0))
                      rows)
      end
  end.

End SQLiteEntries.

(** ** [checkOnlineStatus] of the provider with the mirror *)

Module SyncStatus.
Record t := mk {
  isOnline : bool;
  lastSyncTime : option Z;
  pendingSync : Z;
}.
End SyncStatus.

(** The payload [checkOnlineStatus] dispatches as SET_SYNC_STATUS;
    [lastSyncTime] is the one of the status in the state. *)
Definition checkOnlineStatus (lastSyncTime : option Z) (w : World.t)
    : SyncStatus.t :=
  SyncStatus.mk true lastSyncTime
    (Z.of_nat (length (List.filter (fun e => negb (JournalEntry.isSync e))
                                   (AppState.entries (World.state w))))).

(** ** More of [src/services/database/index.ts]: users *)

(** A row of the SQLite table [users]; [preferences] holds the JSON text
    of the preferences, kept here as the object it encodes. *)
Module DBUser.
Record t := mk {
  id : string;
  wallet_address : option string;
  total_clarity_points : Z;
  current_streak : Z;
  longest_streak : Z;
  last_entry_date : option Z;
  created_at : Z;
  preferences : UserPreferences.t;
}.
End DBUser.

(** [Partial<User>].  A key that is absent is [None].  For the two optional
    fields of [User] a key can also be present with the value [undefined]:
    that is [Some None]. *)
Module PartialUser.
Record t := mk {
  id : option string;
  walletAddress : option (option string);
  totalClarityPoints : option Z;
  currentStreak : option Z;
  longestStreak : option Z;
  lastEntryDate : option (option Z);
  createdAt : option Z;
  preferences : option UserPreferences.t;
}.

Definition empty : t := mk None None None None None None None None.
End PartialUser.

(** [Omit<User, 'id' | 'createdAt'>] *)
Module UserData.
Record t := mk {
  walletAddress : option string;
  totalClarityPoints : Z;
  currentStreak : Z;
  longestStreak : Z;
  lastEntryDate : option Z;
  preferences : UserPreferences.t;
}.
End UserData.

Module SQLiteUsers.

(** [dbUserToUser] *)
Definition dbUserToUser (dbUser : DBUser.t) : User.t :=
  User.mk
    (DBUser.id dbUser)
    (SQLiteEntries.orNull (DBUser.wallet_address dbUser))
    (DBUser.total_clarity_points dbUser)
    (DBUser.current_streak dbUser)
    (DBUser.longest_streak dbUser)
    (DBUser.last_entry_date dbUser)
    (DBUser.created_at dbUser)
    (DBUser.preferences dbUser).

(** [createUser(userData)] with the identifier and the instant drawn. *)
Definition createUser (db : option (list DBJournalEntry.t))
    (users : list DBUser.t) (runAsync : option string)
    (id : string) (createdAt : Z) (userData : UserData.t)
    : Result (list DBUser.t * User.t) :=
  match db with
  | None => Err "Database not initialized"
  | Some _ =>
      let user :=
        User.mk id
          (UserData.walletAddress userData)
          (UserData.totalClarityPoints userData)
          (UserData.currentStreak userData)
          (UserData.longestStreak userData)
          (UserData.lastEntryDate userData)
          createdAt
          (UserData.preferences userData) in
      match runAsync with
      | Some msg => Err msg
      | None =>
          Ok (users ++
                [DBUser.mk id
                   (SQLiteEntries.orNull (UserData.walletAddress userData))
                   (UserData.totalClarityPoints userData)
                   (UserData.currentStreak userData)
                   (UserData.longestStreak userData)
                   (UserData.lastEntryDate userData)
                   createdAt
                   (UserData.preferences userData)],
              user)
      end
  end.

(** [getUser(id)] *)
Definition getUser (db : option (list DBJournalEntry.t))
    (users : list DBUser.t) (getFirstAsync : option string) (id : string)
    : Result (option User.t) :=
  match db with
  | None => Err "Database not initialized"
  | Some _ =>
      match getFirstAsync with
      | Some msg => Err msg
      | None =>
          Ok (dbUserToUser
                <$> List.find (fun row => bool_decide (DBUser.id row = id)) users)
      end
  end.

(** One [column = ?] of the SET clause of [updateUser], with its value. *)
Inductive Assignment :=
| SetWalletAddress (a : string)
| SetTotalClarityPoints (p : Z)
| SetCurrentStreak (n : Z)
| SetLongestStreak (n : Z)
| SetLastEntryDate (d : Z)
| SetPreferences (p : UserPreferences.t).

Definition assign (row : DBUser.t) (a : Assignment) : DBUser.t :=
  let '(DBUser.mk i w t c l d ca p) := row in
  match a with
  | SetWalletAddress a => DBUser.mk i (Some a) t c l d ca p
  | SetTotalClarityPoints x => DBUser.mk i w x c l d ca p
  | SetCurrentStreak x => DBUser.mk i w t x l d ca p
  | SetLongestStreak x => DBUser.mk i w t c x d ca p
  | SetLastEntryDate x => DBUser.mk i w t c l (Some x) ca p
  | SetPreferences x => DBUser.mk i w t c l d ca x
  end.

(** The SET clause: one assignment per key whose value is not
    [undefined]. *)
Definition setClauseOf (updates : PartialUser.t) : list Assignment :=
  let setClause := [] in
  let setClause :=
    match PartialUser.walletAddress updates with
    | Some (Some a) => setClause ++ [SetWalletAddress a]
    | _ => setClause
    end in
  let setClause :=
    match PartialUser.totalClarityPoints updates with
    | Some p => setClause ++ [SetTotalClarityPoints p]
    | None => setClause
    end in
  let setClause :=
    match PartialUser.currentStreak updates with
    | Some n => setClause ++ [SetCurrentStreak n]
    | None => setClause
    end in
  let setClause :=
    match PartialUser.longestStreak updates with
    | Some n => setClause ++ [SetLongestStreak n]
    | None => setClause
    end in
  let setClause :=
    match PartialUser.lastEntryDate updates with
    | Some (Some d) => setClause ++ [SetLastEntryDate d]
    | _ => setClause
    end in
  match PartialUser.preferences updates with
  | Some p => setClause ++ [SetPreferences p]
  | None => setClause
  end.

(** [updateUser(id, updates)]: with an empty SET clause it returns before
    any statement. *)
Definition updateUser (db : option (list DBJournalEntry.t))
    (users : list DBUser.t) (runAsync : option string) (id : string)
    (updates : PartialUser.t) : Result (list DBUser.t) :=
  match db with
  | None => Err "Database not initialized"
  | Some _ =>
      let setClause := setClauseOf updates in
      if Nat.eqb (length setClause) 0 then Ok users
      else
        match runAsync with
        | Some msg => Err msg
        | None =>
            Ok (map (fun row =>
                       if decide (DBUser.id row = id)
                       then fold_left assign setClause row
                       else row) users)
        end
  end.

End SQLiteUsers.

(** ** More of the wallet service *)

Module WalletServiceMore.

(** [disconnectWallet()]: with a current wallet, [performDisconnect] drops
    the keypair and the wallet. *)
Definition disconnectWallet (ws : WalletService.t) : WalletService.t :=
  match WalletService.currentWallet ws with
  | Some _ => WalletService.mk None None
  | None => ws
  end.

(** [getWalletAddress()] *)
Definition getWalletAddress (ws : WalletService.t) : option string :=
  SQLiteEntries.orNull (WalletService.connectedKeypair ws).

End WalletServiceMore.

(** ** The world with the users

    The callbacks that follow also read and write the [users] table of
    SQLite (open exactly when the handle of the world is) and send
    statements on users to the mirror; [mirrorUsers] are the ones it
    accepted. *)

Module Store.
Record t := mk {
  world : World.t;
  users : list DBUser.t;
  mirrorUsers : list (string * PartialUser.t);
}.

Definition with_world (w : World.t) (s : t) : t :=
  mk w (users s) (mirrorUsers s).
Definition with_users (us : list DBUser.t) (s : t) : t :=
  mk (world s) us (mirrorUsers s).
Definition with_mirrorUsers (ms : list (string * PartialUser.t)) (s : t) : t :=
  mk (world s) (users s) ms.
End Store.

Definition MS (A : Type) : Type := Store.t -> Store.t * Result A.

Global Instance MS_ret : MRet MS := fun A a s => (s, Ok a).

Global Instance MS_bind : MBind MS := fun A B k m s =>
  match m s with
  | (s', Ok a) => k a s'
  | (s', Err msg) => (s', Err msg)
  end.

Definition throwS {A} (msg : string) : MS A := fun s => (s, Err msg).

Definition tryCatchS {A} (body : MS A) (handler : string -> MS A) : MS A :=
  fun s =>
    match body s with
    | (s', Ok a) => (s', Ok a)
    | (s', Err msg) => handler msg s'
    end.

Definition whenS (b : bool) (m : MS unit) : MS unit :=
  if b then m else mret ().

(** A callback on the world of entries run in the world with the users. *)
Definition liftW {A} (m : M A) : MS A :=
  fun s =>
    let '(w, r) := m (Store.world s) in
    (Store.with_world w s, r).

(** The object spread [{ ...state.user, ...payload }]. *)
Definition spreadUser (user : User.t) (payload : PartialUser.t) : User.t :=
  User.mk
    (default (User.id user) (PartialUser.id payload))
    (default (User.walletAddress user) (PartialUser.walletAddress payload))
    (default (User.totalClarityPoints user) (PartialUser.totalClarityPoints payload))
    (default (User.currentStreak user) (PartialUser.currentStreak payload))
    (default (User.longestStreak user) (PartialUser.longestStreak payload))
    (default (User.lastEntryDate user) (PartialUser.lastEntryDate payload))
    (default (User.createdAt user) (PartialUser.createdAt payload))
    (default (User.preferences user) (PartialUser.preferences payload)).

(** The case UPDATE_USER of [appReducer]. *)
Definition reduceUpdateUser (state : AppState.t) (payload : PartialUser.t)
    : AppState.t :=
  AppState.mk ((fun user => spreadUser user payload) <$> AppState.user state)
              (AppState.entries state) (AppState.error state).

Definition dispatchUpdateUser (payload : PartialUser.t) : MS unit :=
  fun s =>
    let w := Store.world s in
    (Store.with_world (World.with_state (reduceUpdateUser (World.state w) payload) w) s,
     Ok ()).

(** [await databaseService.updateUser(id, updates)] *)
Definition sqliteUpdateUser (runAsync : option string) (id : string)
    (updates : PartialUser.t) : MS unit :=
  fun s =>
    match SQLiteUsers.updateUser (World.sqlite (Store.world s)) (Store.users s)
                                 runAsync id updates with
    | Ok users => (Store.with_users users s, Ok ())
    | Err msg => (s, Err msg)
    end.

(** [await postgreSQLService.updateUser(id, updates)]: the same guards as
    the other operations of the mirror, the same SET clause as SQLite's,
    and no statement when it is empty. *)
Definition postgresUpdateUser (server : option string) (id : string)
    (updates : PartialUser.t) : MS unit :=
  fun s =>
    let pg := World.postgres (Store.world s) in
    if PostgreSQLService.isReactNative pg
    then (s, Err "PostgreSQL operations not available in React Native")
    else
      match PostgreSQLService.pool pg with
      | None => (s, Err "Database not initialized")
      | Some _ =>
          if Nat.eqb (length (SQLiteUsers.setClauseOf updates)) 0 then (s, Ok ())
          else
            match server with
            | Some msg => (s, Err msg)
            | None =>
                (Store.with_mirrorUsers (Store.mirrorUsers s ++ [(id, updates)]) s,
                 Ok ())
            end
      end.

(** ** More of the provider with the cloud mirror *)

Module AppProviderMore.

(** Answers of the stores to the user statements of one call, and the
    clock and time zone [calculateStreak] reads. *)
Module UserEnv.
Record t := mk {
  tz : Z;
  now : Z;
  postgres : option string;
  sqlite : option string;
}.
End UserEnv.

(** [updateUserStats(user, entries)].  [calculateStreak] sorts [entries] in
    place, so the [reduce] and [entries[0]] that follow read the sorted
    array. *)
Definition updateUserStats (cfg : Config.t) (env : UserEnv.t)
    (user : User.t) (entries : list JournalEntry.t) : MS unit :=
  let currentStreak :=
    Utils.calculateStreak (UserEnv.tz env) (UserEnv.now env) entries user in
  let entries := merge_sort Utils.newestFirst entries in
  let totalClarityPoints :=
    foldl (fun sum entry => sum + JournalEntry.clarityPoints entry) 0 entries in
  let longestStreak := Z.max (User.longestStreak user) currentStreak in
  let lastEntryDate := JournalEntry.createdAt <$> head entries in
  let updates :=
    PartialUser.mk None None (Some totalClarityPoints) (Some currentStreak)
                   (Some longestStreak) (Some lastEntryDate) None None in
  tryCatchS
    (whenS (Config.DATABASE_POSTGRESQL_ENABLED cfg)
           (postgresUpdateUser (UserEnv.postgres env) (User.id user) updates);;
     whenS (Config.DATABASE_SQLITE_ENABLED cfg)
           (sqliteUpdateUser (UserEnv.sqlite env) (User.id user) updates))
    (fun _ => mret ());;
  dispatchUpdateUser updates.

(** [disconnectWallet()] of the provider. *)
Definition disconnectWallet (cfg : Config.t) (env : UserEnv.t) : MS unit :=
  fun s =>
    match AppState.user (World.state (Store.world s)) with
    | None => (s, Ok ())
    | Some user =>
        tryCatchS
          (liftW (fun w =>
                    (World.mk (World.state w) (World.sqlite w) (World.postgres w)
                              (WalletServiceMore.disconnectWallet (World.wallet w))
                              (World.tokens w),
                     Ok ()));;
           let updates :=
             PartialUser.mk None (Some None) None None None None None None in
           whenS (Config.DATABASE_POSTGRESQL_ENABLED cfg)
                 (postgresUpdateUser (UserEnv.postgres env) (User.id user) updates);;
           whenS (Config.DATABASE_SQLITE_ENABLED cfg)
                 (sqliteUpdateUser (UserEnv.sqlite env) (User.id user) updates);;
           dispatchUpdateUser updates)
          (fun _ => liftW (dispatch (SET_ERROR (Some "Failed to disconnect wallet"%string))))
          s
    end.

(** Answers of the collaborators to one [createEntry]: the identifier and
    instant each store would draw, and the stores' answers. *)
Module CreateEnv.
Record t := mk {
  postgresId : string;
  postgresNow : Z;
  postgres : option string;
  sqliteId : string;
  sqliteNow : Z;
  sqlite : option string;
  stats : UserEnv.t;
}.
End CreateEnv.

(** [{ mood } as JournalEntry]: of this object [calculateClarityPoints]
    reads [isMinted], which is absent, hence falsy. *)
Definition moodOnly (mood : MoodType) : JournalEntry.t :=
  JournalEntry.mk "" "" "" mood 0 0 false None 0 false None None.

(** [await postgreSQLService.createJournalEntry(entryData)], returning the
    entry object [{ id, createdAt: now, updatedAt: now, ...entryData }]. *)
Definition postgresCreateEntry (server : option string) (id : string)
    (now : Z) (entryData : EntryData.t) : MS JournalEntry.t :=
  let entry := SQLiteEntries.newEntry id now entryData in
  liftW (postgresCreate server id now entry);; mret entry.

(** [await databaseService.createJournalEntry(entryData)] *)
Definition sqliteCreateEntry (runAsync : option string) (id : string)
    (now : Z) (entryData : EntryData.t) : MS JournalEntry.t :=
  fun s =>
    match SQLiteEntries.createJournalEntry (World.sqlite (Store.world s))
                                           runAsync id now entryData with
    | Ok (rows, entry) =>
        (Store.with_world (World.with_sqlite (Some rows) (Store.world s)) s, Ok entry)
    | Err msg => (s, Err msg)
    end.

Definition createEntry (cfg : Config.t) (env : CreateEnv.t)
    (content : string) (mood : MoodType) : MS JournalEntry.t :=
  fun s =>
    match AppState.user (World.state (Store.world s)) with
    | None => (s, Err "No user found")
    | Some user =>
        tryCatchS
          (let currentStreak := User.currentStreak user in
           let pointsBreakdown :=
             Utils.calculateClarityPoints (moodOnly mood) currentStreak true in
           let entryData :=
             EntryData.mk (User.id user) content mood false None
                          (ClarityPointsBreakdown.total pointsBreakdown) false in
           entry ←
             (if Config.DATABASE_POSTGRESQL_ENABLED cfg
              then
                tryCatchS
                  (postgresCreateEntry (CreateEnv.postgres env)
                     (CreateEnv.postgresId env) (CreateEnv.postgresNow env) entryData)
                  (fun _ =>
                     sqliteCreateEntry (CreateEnv.sqlite env)
                       (CreateEnv.sqliteId env) (CreateEnv.sqliteNow env) entryData)
              else
                sqliteCreateEntry (CreateEnv.sqlite env)
                  (CreateEnv.sqliteId env) (CreateEnv.sqliteNow env) entryData);
           liftW (dispatch (ADD_ENTRY entry));;
           let updatedEntries :=
             entry :: AppState.entries (World.state (Store.world s)) in
           updateUserStats cfg (CreateEnv.stats env) user updatedEntries;;
           mret entry)
          (fun error =>
             liftW (dispatch (SET_ERROR (Some "Failed to create journal entry"%string)));;
             throwS error)
          s
    end.

End AppProviderMore.

(** ** More of the SQLite-only provider *)

Module AppProviderLocalMore.

(** [deleteEntry(id)] *)
Definition deleteEntry (cfg : Config.t) (runAsync : option string)
    (id : string) : M unit :=
  tryCatch
    (when (Config.DATABASE_SQLITE_ENABLED cfg)
          (fun w =>
             match SQLiteEntries.deleteJournalEntry (World.sqlite w) runAsync id with
             | Ok rows => (World.with_sqlite (Some rows) w, Ok ())
             | Err msg => (w, Err msg)
             end);;
     dispatch (DELETE_ENTRY id))
    (fun _ => dispatch (SET_ERROR (Some "Failed to delete journal entry"%string))).

(** [!state.user?.walletAddress]: no user, no address, or the empty
    one. *)
Definition hasWalletAddress (w : World.t) : bool :=
  bool_decide (is_Some (SQLiteEntries.orNull
                          (AppState.user (World.state w) ≫= User.walletAddress))).

(** [mintEntryAsNFT(entryId)] of this provider: no chain is involved;
    [nftAddress] is the address made up from the clock and the random
    generator, and the two statements of [updateEntry] get the answers
    [runAsync1], [runAsync2]. *)
Definition mintEntryAsNFT (cfg : Config.t) (nftAddress : string)
    (runAsync1 runAsync2 : option string) (now1 now2 : Z)
    (entryId : string) : M string :=
  fun w =>
    if negb (Config.SOLANA_ENABLED cfg)
    then (w, Err "Solana functionality is disabled")
    else if negb (hasWalletAddress w)
    then (w, Err "Wallet not connected")
    else
      match AppProvider.lookupEntry entryId w with
      | None => (w, Err "Entry not found")
      | Some entry =>
          tryCatch
            (AppProviderLocal.updateEntry cfg runAsync1 runAsync2 now1 now2 entryId
               (Partial.mk None None None None None None
                  (Some true) (Some nftAddress)
                  (Some (JournalEntry.clarityPoints entry
                         + Config.CLARITY_POINTS_NFT_MINTING cfg))
                  None None None);;
             mret nftAddress)
            (fun error =>
               dispatch (SET_ERROR (Some "Failed to mint NFT"%string));;
               throw error)
            w
      end.

End AppProviderLocalMore.

(** ** Concrete data used by the examples below *)

Module Sample.

Definition prefs : UserPreferences.t :=
  UserPreferences.mk true "20:00" light true.

Definition user : User.t :=
  User.mk "u1" None 0 0 0 None 0 prefs.

(** An unminted, unsynced entry of [user] created at [t]. *)
Definition entryAt (id : string) (t : Z) : JournalEntry.t :=
  JournalEntry.mk id "u1" "I am grateful today" grateful t t
                  false None 30 false None None.

(** Noon (UTC) of day [d], days counted from the epoch. *)
Definition noon (d : Z) : Z := d * Utils.msPerDay + 12 * 60 * 60 * 1000.

End Sample.

(** ** Vocabulary of the statements about streaks *)

(** The local calendar day of an instant, days counted from the epoch. *)
Definition localDay (tz t : Z) : Z := (t + tz) / Utils.msPerDay.

(** Some entry was created [d] calendar days before the day of [now]. *)
Definition hasEntryOn (tz now : Z) (entries : list JournalEntry.t) (d : Z)
    : bool :=
  existsb (fun e => localDay tz (JournalEntry.createdAt e) =? localDay tz now - d)
          entries.

(** The loop of [calculateStreak] read on the day differences alone. *)
Fixpoint countFrom (diffs : list Z) (streak : Z) : Z :=
  match diffs with
  | [] => streak
  | d :: rest =>
      if d =? streak then countFrom rest (streak + 1)
      else if streak <? d then streak
      else countFrom rest streak
  end.

(** Ten letters followed by 4991 spaces: 5001 code units, 10 after [trim]. *)
Definition paddedContent : list N :=
  repeat 97%N 10 ++ repeat 32%N 4991.

Module SampleRows.

Definition rowOf (id : string) (sync : Z) : DBJournalEntry.t :=
  DBJournalEntry.mk id "u1" "I am grateful today" grateful 1000 1000
                    0 None 30 sync.

Definition table : list DBJournalEntry.t := [rowOf "e1" 1; rowOf "e2" 0].

Definition newContent : Partial.t :=
  Partial.mk None None (Some "A calmer evening than I expected"%string)
             None None None None None None None None None.

End SampleRows.

(** ** Vocabulary of the statements about the stores *)

(** Every store that [cfg] enables takes the statement of one [updateEntry]:
    the mirror is usable and answers without error, the SQLite handle is
    open and the engine runs the statement. *)
Definition storesAccept (cfg : Config.t) (env : AppProvider.StoreEnv.t)
    (w : World.t) : bool :=
  implb (Config.DATABASE_POSTGRESQL_ENABLED cfg)
        (bool_decide (AppProvider.StoreEnv.postgres env = None)
         && negb (PostgreSQLService.isReactNative (World.postgres w))
         && bool_decide (is_Some (PostgreSQLService.pool (World.postgres w))))
  && implb (Config.DATABASE_SQLITE_ENABLED cfg)
           (bool_decide (AppProvider.StoreEnv.sqlite env = None)
            && bool_decide (is_Some (World.sqlite w))).

(** The wallet service holds a wallet that shows its public key. *)
Definition walletHasKey (ws : WalletService.t) : bool :=
  bool_decide (is_Some (WalletService.currentWallet ws ≫= WalletAdapter.publicKey)).

Module SampleWorld.

Definition wallet : WalletService.t :=
  WalletService.mk (Some (WalletAdapter.mk (Some "walletPk"%string) true))
                   (Some "walletPk"%string).

(** One unminted entry, known to the state and to SQLite; the mirror is
    the one of the React Native build, which refuses every operation. *)
Definition world : World.t :=
  World.mk
    (AppState.mk (Some Sample.user) [Sample.entryAt "e1" 1000] None)
    (Some [SampleRows.rowOf "e1" 0])
    (PostgreSQLService.mk true None)
    wallet
    [].

Definition storesOk : AppProvider.StoreEnv.t :=
  AppProvider.StoreEnv.mk None None 2000.

Definition sqliteLocked : AppProvider.StoreEnv.t :=
  AppProvider.StoreEnv.mk None (Some "database is locked"%string) 2000.

Definition mintA (stores : AppProvider.StoreEnv.t) : AppProvider.MintEnv.t :=
  AppProvider.MintEnv.mk "https://mockipfs.com/metadata/a.json"
                         (ChainMinted "mintA" "sigA") stores.

Definition mintB (stores : AppProvider.StoreEnv.t) : AppProvider.MintEnv.t :=
  AppProvider.MintEnv.mk "https://mockipfs.com/metadata/b.json"
                         (ChainMinted "mintB" "sigB") stores.

Definition chainRejects : AppProvider.MintEnv.t :=
  AppProvider.MintEnv.mk "https://mockipfs.com/metadata/c.json"
                         ChainRejected storesOk.

(** The same entry once mirrored: the flag is set in the state and in
    SQLite. *)
Definition syncedEntry : JournalEntry.t :=
  JournalEntry.mk "e1" "u1" "I am grateful today" grateful 1000 1000
                  false None 30 true None None.

Definition syncedWorld : World.t :=
  World.mk
    (AppState.mk (Some Sample.user) [syncedEntry] None)
    (Some [SampleRows.rowOf "e1" 1])
    (PostgreSQLService.mk true None)
    wallet
    [].

End SampleWorld.

(** ** Vocabulary of the statements about the sweep *)

(** The mirror can be asked at all: not the React Native build, pool open. *)
Definition mirrorUsable (pg : PostgreSQLService.t) : bool :=
  negb (PostgreSQLService.isReactNative pg)
  && bool_decide (is_Some (PostgreSQLService.pool pg)).

(** The mirror write of entry [e] succeeds. *)
Definition mirrored (env : AppProvider.SyncEnv.t) (w : World.t)
    (e : JournalEntry.t) : bool :=
  mirrorUsable (World.postgres w)
  && bool_decide (AppProvider.SyncEnv.postgres env e = None).

(** The mirror write of [e] succeeds and then SQLite runs the statement
    that sets its flag. *)
Definition marked (env : AppProvider.SyncEnv.t) (w : World.t)
    (e : JournalEntry.t) : bool :=
  mirrored env w e
  && bool_decide (is_Some (World.sqlite w))
  && bool_decide (AppProvider.SyncEnv.sqlite env e = None).

(** The row the mirror holds for entry [e] once it took it: under the
    identifier and the instant the mirror drew, with the flag set and an
    empty NFT address stored as none; the other columns are [e]'s. *)
Definition mirrorRow (env : AppProvider.SyncEnv.t) (e : JournalEntry.t)
    : JournalEntry.t :=
  JournalEntry.mk
    (AppProvider.SyncEnv.postgresId env e)
    (JournalEntry.userId e)
    (JournalEntry.content e)
    (JournalEntry.mood e)
    (AppProvider.SyncEnv.postgresNow env e)
    (AppProvider.SyncEnv.postgresNow env e)
    (JournalEntry.isMinted e)
    (if bool_decide (JournalEntry.nftAddress e = Some ""%string)
     then None else JournalEntry.nftAddress e)
    (JournalEntry.clarityPoints e)
    true
    None None.

(** The entry waits for the sweep and the mirror write of it succeeds. *)
Definition pendingMirrored (env : AppProvider.SyncEnv.t) (w : World.t)
    (e : JournalEntry.t) : bool :=
  negb (JournalEntry.isSync e) && mirrored env w e.

(** The entry waits for the sweep, the mirror write of it succeeds and
    SQLite runs the statement that sets its flag. *)
Definition pendingMarked (env : AppProvider.SyncEnv.t) (w : World.t)
    (e : JournalEntry.t) : bool :=
  negb (JournalEntry.isSync e) && marked env w e.

(** [syncToCloud] gets past its first [if]. *)
Definition sweepRuns (cfg : Config.t) (w : World.t) : bool :=
  Config.DATABASE_POSTGRESQL_ENABLED cfg
  && bool_decide (is_Some (AppState.user (World.state w))).

(** Two rows agree on every column but [updated_at] and [is_sync]. *)
Definition sameButSyncStamp (row row' : DBJournalEntry.t) : Prop :=
  DBJournalEntry.id row' = DBJournalEntry.id row /\
  DBJournalEntry.user_id row' = DBJournalEntry.user_id row /\
  DBJournalEntry.content row' = DBJournalEntry.content row /\
  DBJournalEntry.mood row' = DBJournalEntry.mood row /\
  DBJournalEntry.created_at row' = DBJournalEntry.created_at row /\
  DBJournalEntry.is_minted row' = DBJournalEntry.is_minted row /\
  DBJournalEntry.nft_address row' = DBJournalEntry.nft_address row /\
  DBJournalEntry.clarity_points row' = DBJournalEntry.clarity_points row.

(** What one round of the loop of [syncToCloud] does to the rows. *)
Definition markRows (env : AppProvider.SyncEnv.t) (w : World.t)
    (db : option (list DBJournalEntry.t)) (e : JournalEntry.t)
    : option (list DBJournalEntry.t) :=
  if marked env w e
  then DatabaseService.runUpdate
         (DatabaseService.setClauseOf (AppProvider.SyncEnv.now env e)
                                      (AppProvider.onlyIsSync true))
         (JournalEntry.id e) <$> db
  else db.

Module SampleSync.

(** A mirror that can be asked, with nothing accepted yet. *)
Definition world : World.t :=
  World.mk
    (AppState.mk (Some Sample.user)
                 [Sample.entryAt "e1" 1000; Sample.entryAt "e2" 2000] None)
    (Some [SampleRows.rowOf "e1" 0; SampleRows.rowOf "e2" 0])
    (PostgreSQLService.mk false (Some []))
    SampleWorld.wallet
    [].

Definition cloudConfig : Config.t := Config.mk true true true true 20.

(** The server fails on entry e1 and accepts every other. *)
Definition failsOnFirst : AppProvider.SyncEnv.t :=
  AppProvider.SyncEnv.mk
    (fun e => if bool_decide (JournalEntry.id e = "e1"%string)
              then Some "connection reset"%string else None)
    (fun _ => None)
    (fun _ => 3000)
    (fun e => ("pg-" +:+ JournalEntry.id e)%string)
    (fun _ => 2900).

(** The server cannot be reached. *)
Definition unreachable : AppProvider.SyncEnv.t :=
  AppProvider.SyncEnv.mk (fun _ => Some "connect ETIMEDOUT"%string)
                         (fun _ => None) (fun _ => 3000)
                         (fun e => ("pg-" +:+ JournalEntry.id e)%string)
                         (fun _ => 2900).

End SampleSync.

(** ** Vocabulary of the statements about the mood statistics *)

(** The number of entries with mood [m]. *)
Definition countMood (m : MoodType) (entries : list JournalEntry.t) : Z :=
  Z.of_nat (length (List.filter (fun e => bool_decide (JournalEntry.mood e = m))
                                entries)).

Definition allMoods : list MoodType :=
  [happy; sad; calm; anxious; excited; tired; grateful; angry].

Module SampleMore.

Definition moodEntry (id : string) (m : MoodType) : JournalEntry.t :=
  JournalEntry.mk id "u1" "A quiet afternoon walk" m 1000 1000
                  false None 15 false None None.

End SampleMore.

Module SampleStore.

Definition draft : EntryData.t :=
  EntryData.mk "u1" "A quiet afternoon walk" calm false None 15 false.

(** Rows of two users, the older row of u1 first. *)
Definition table : list DBJournalEntry.t :=
  [ DBJournalEntry.mk "e1" "u1" "I am grateful today" grateful 1000 1000 0 None 30 1;
    DBJournalEntry.mk "e2" "u2" "Somebody else's day" happy 1500 1500 0 None 15 0;
    DBJournalEntry.mk "e3" "u1" "A quiet afternoon walk" calm 2000 2000 0 None 15 0 ].

End SampleStore.

(** A mirror and an engine that take everything. *)
Definition acceptingSync : AppProvider.SyncEnv.t :=
  AppProvider.SyncEnv.mk (fun _ => None) (fun _ => None) (fun _ => 3000)
                         (fun e => ("pg-" +:+ JournalEntry.id e)%string)
                         (fun _ => 2900).

(** ** Vocabulary of the statements about users *)

(** What a stored user reads as after the SET clause of [updates]. *)
Definition userAfter (updates : PartialUser.t) (user : User.t) : User.t :=
  User.mk
    (User.id user)
    (match PartialUser.walletAddress updates with
     | Some (Some a) => SQLiteEntries.orNull (Some a)
     | _ => User.walletAddress user
     end)
    (default (User.totalClarityPoints user) (PartialUser.totalClarityPoints updates))
    (default (User.currentStreak user) (PartialUser.currentStreak updates))
    (default (User.longestStreak user) (PartialUser.longestStreak updates))
    (match PartialUser.lastEntryDate updates with
     | Some (Some d) => Some d
     | _ => User.lastEntryDate user
     end)
    (User.createdAt user)
    (default (User.preferences user) (PartialUser.preferences updates)).

(** Some key of [updates] that [updateUser] writes holds a value, not
    [undefined]. *)
Definition carriesValue (updates : PartialUser.t) : bool :=
  bool_decide (is_Some (mjoin (PartialUser.walletAddress updates)))
  || bool_decide (is_Some (PartialUser.totalClarityPoints updates))
  || bool_decide (is_Some (PartialUser.currentStreak updates))
  || bool_decide (is_Some (PartialUser.longestStreak updates))
  || bool_decide (is_Some (mjoin (PartialUser.lastEntryDate updates)))
  || bool_decide (is_Some (PartialUser.preferences updates)).

Module SampleUsers.

Definition row : DBUser.t :=
  DBUser.mk "u1" (Some "walletPk"%string) 45 2 5 (Some 1000) 0 Sample.prefs.

Definition connectedUser : User.t :=
  User.mk "u1" (Some "walletPk"%string) 45 2 5 (Some 1000) 0 Sample.prefs.

Definition forgetWallet : PartialUser.t :=
  PartialUser.mk None (Some None) None None None None None None.

(** The sample world with a user whose wallet is connected, and the
    [users] table holding that user. *)
Definition store : Store.t :=
  Store.mk
    (World.mk
       (AppState.mk (Some connectedUser) [Sample.entryAt "e1" 1000] None)
       (Some [SampleRows.rowOf "e1" 0])
       (PostgreSQLService.mk true None)
       SampleWorld.wallet
       [])
    [row]
    [].

Definition userEnv : AppProviderMore.UserEnv.t :=
  AppProviderMore.UserEnv.mk 0 (Sample.noon 20000) None None.

End SampleUsers.

Module SampleLocal.

(** The SQLite-only provider's world: a user with a wallet address and one
    entry, in the state and in SQLite. *)
Definition world : World.t :=
  World.mk
    (AppState.mk (Some SampleUsers.connectedUser) [Sample.entryAt "e1" 1000] None)
    (Some [SampleRows.rowOf "e1" 0])
    (PostgreSQLService.mk true None)
    (WalletService.mk None None)
    [].

End SampleLocal.

(** The sum of the points of the entries. *)
Definition sumPoints (entries : list JournalEntry.t) : Z :=
  foldr Z.add 0 (JournalEntry.clarityPoints <$> entries).

(** The guards of the stores an operation on users passes through: the
    mirror, when enabled, can be asked, and SQLite, when enabled, is
    open. *)
Definition userGuardsPass (cfg : Config.t) (w : World.t) : bool :=
  implb (Config.DATABASE_POSTGRESQL_ENABLED cfg) (mirrorUsable (World.postgres w))
  && implb (Config.DATABASE_SQLITE_ENABLED cfg)
           (bool_decide (is_Some (World.sqlite w))).

(** The mirror is enabled, can be asked and takes the new entry. *)
Definition viaMirror (cfg : Config.t) (env : AppProviderMore.CreateEnv.t)
    (w : World.t) : bool :=
  Config.DATABASE_POSTGRESQL_ENABLED cfg
  && mirrorUsable (World.postgres w)
  && bool_decide (AppProviderMore.CreateEnv.postgres env = None).

Module SampleCreate.

Definition env : AppProviderMore.CreateEnv.t :=
  AppProviderMore.CreateEnv.mk "pg9" 5000 None "lite9" 5001 None
                               SampleUsers.userEnv.

End SampleCreate.

(** What SQLite answers to a statement: the guard's message when it is
    not open, else the engine's refusal, if any. *)
Definition sqliteRefusal (w : World.t) (runAsync : option string)
    : option string :=
  match World.sqlite w with
  | None => Some "Database not initialized"%string
  | Some _ => runAsync
  end.

(** ** Vocabulary of the statements about validation and storage *)

(** The UTF-16 code units of a content written with characters below
    256: one unit per character. *)
Definition codeUnits (content : string) : Utils.JSString :=
  N_of_ascii <$> String.list_ascii_of_string content.

(** A content of 5001 letters. *)
Definition longContent : string :=
  String.string_of_list_ascii (repeat "a"%char (Z.to_nat 5001)).

(** * Properties *)

(** ** The ledger: clarity points *)

Section ClarityPoints.
Import Utils.

(** C7.  An unminted entry with the mood tracked at streak 3 scores
    [{dailyEntry: 10, moodTracking: 5, streakBonus: 15, nftMinting: 0,
    total: 30}]; the streak bonus is a step function of the streak: 200 from
    30 days on, else 50 from 7 days on, else 15 from 3 days on, else 0. *)
Theorem calculateClarityPoints_streak_steps
    (entry : JournalEntry.t) (currentStreak : Z) (isMoodTracked : bool) :
  (JournalEntry.isMinted entry = false ->
   calculateClarityPoints entry 3 true = ClarityPointsBreakdown.mk 10 15 5 0 30) /\
  let bonus :=
    ClarityPointsBreakdown.streakBonus
      (calculateClarityPoints entry currentStreak isMoodTracked) in
  (30 <= currentStreak -> bonus = 200) /\
  (7 <= currentStreak < 30 -> bonus = 50) /\
  (3 <= currentStreak < 7 -> bonus = 15) /\
  (currentStreak < 3 -> bonus = 0).
Proof.
  split.
  - intros Hminted. unfold calculateClarityPoints. rewrite Hminted. reflexivity.
  - cbn -[Z.leb]. unfold CLARITY_POINTS.STREAK_30_DAYS,
      CLARITY_POINTS.STREAK_7_DAYS, CLARITY_POINTS.STREAK_3_DAYS.
    repeat split; intros Hs;
      destruct (Z.leb_spec 30 currentStreak);
      destruct (Z.leb_spec 7 currentStreak);
      destruct (Z.leb_spec 3 currentStreak); lia.
Qed.

Lemma calculateClarityPoints_streak_steps_witness :
  Utils.calculateClarityPoints (Sample.entryAt "e1" 0) 3 true
    = ClarityPointsBreakdown.mk 10 15 5 0 30 /\
  ClarityPointsBreakdown.streakBonus
    (Utils.calculateClarityPoints (Sample.entryAt "e1" 0) 30 true) = 200.
Proof.
  split.
  - apply (proj1 (calculateClarityPoints_streak_steps
                    (Sample.entryAt "e1" 0) 3 true)).
    reflexivity.
  - apply (proj1 (proj2 (calculateClarityPoints_streak_steps
                           (Sample.entryAt "e1" 0) 30 true))).
    lia.
Defined.

End ClarityPoints.

(** ** The ledger: streaks *)

Section Streak.
Import Utils.

Variables tz now : Z.

Local Abbreviation diffOf :=
  (fun e : JournalEntry.t => daysDiff tz now (JournalEntry.createdAt e)).

Lemma msPerDay_pos : 0 < msPerDay.
Proof. reflexivity. Qed.

Lemma startOfDay_localDay (t : Z) :
  startOfDay tz t = localDay tz t * msPerDay - tz.
Proof. reflexivity. Qed.

(** The difference of the two local midnights is a whole number of days. *)
Lemma daysDiff_localDay (t : Z) :
  daysDiff tz now t = localDay tz now - localDay tz t.
Proof.
  unfold daysDiff. rewrite !startOfDay_localDay.
  replace (localDay tz now * msPerDay - tz - (localDay tz t * msPerDay - tz))
    with ((localDay tz now - localDay tz t) * msPerDay) by lia.
  apply Z.div_mul. pose proof msPerDay_pos. lia.
Qed.

Lemma localDay_mono (t1 t2 : Z) : t1 <= t2 -> localDay tz t1 <= localDay tz t2.
Proof.
  intros Hle. unfold localDay.
  apply Z.div_le_mono; [apply msPerDay_pos | lia].
Qed.

Lemma streakLoop_countFrom (l : list JournalEntry.t) (streak : Z) :
  streakLoop tz now l streak = countFrom (diffOf <$> l) streak.
Proof.
  revert streak. induction l as [|e l IH]; intros streak; [reflexivity|].
  cbn [streakLoop fmap list_fmap countFrom].
  rewrite !IH. reflexivity.
Qed.

Lemma calculateStreak_countFrom (entries : list JournalEntry.t) (user : User.t) :
  calculateStreak tz now entries user
  = countFrom (diffOf <$> merge_sort newestFirst entries) 0.
Proof.
  unfold calculateStreak. rewrite <- streakLoop_countFrom.
  destruct entries; reflexivity.
Qed.

Global Instance newestFirst_total : Total newestFirst.
Proof. intros a b. unfold newestFirst. lia. Qed.

(** Newest first means day differences in ascending order. *)
Lemma sorted_diffs (entries : list JournalEntry.t) :
  Sorted Z.le (diffOf <$> merge_sort newestFirst entries).
Proof.
  apply (Sorted_fmap _ newestFirst Z.le).
  - intros a b Hab. rewrite !daysDiff_localDay.
    apply localDay_mono in Hab. lia.
  - apply Sorted_merge_sort; apply _.
Qed.

Lemma diffs_permutation (entries : list JournalEntry.t) :
  diffOf <$> merge_sort newestFirst entries ≡ₚ diffOf <$> entries.
Proof. apply fmap_Permutation, merge_sort_Permutation. Qed.

(** On ascending differences the loop stops at the first day, from [streak]
    on, that is missing. *)
Lemma countFrom_spec (diffs : list Z) :
  Sorted Z.le diffs ->
  forall streak,
    streak <= countFrom diffs streak /\
    (forall d, streak <= d < countFrom diffs streak -> d ∈ diffs) /\
    countFrom diffs streak ∉ diffs.
Proof.
  intros Hsorted. apply Sorted_StronglySorted in Hsorted; [|apply _].
  induction Hsorted as [|d rest Hrest IH Hall]; intros streak; cbn [countFrom].
  - split; [lia|]. split; [intros d Hd; lia | apply not_elem_of_nil].
  - destruct (Z.eqb_spec d streak) as [->|Hne].
    + destruct (IH (streak + 1)) as (Hle & Hin & Hout).
      split; [lia|]. split.
      * intros d Hd. destruct (decide (d = streak)) as [->|Hd'].
        -- apply list_elem_of_here.
        -- apply list_elem_of_further, Hin. lia.
      * rewrite not_elem_of_cons. split; [lia | exact Hout].
    + destruct (Z.ltb_spec streak d) as [Hlt|Hge].
      * split; [lia|]. split; [intros d' Hd'; lia|].
        rewrite not_elem_of_cons. split; [lia|].
        intros Hin. rewrite Forall_forall in Hall.
        specialize (Hall _ Hin). lia.
      * destruct (IH streak) as (Hle & Hin & Hout).
        split; [lia|]. split.
        -- intros d' Hd'. apply list_elem_of_further, Hin. lia.
        -- rewrite not_elem_of_cons. split; [lia | exact Hout].
Qed.

Lemma hasEntryOn_diffs (entries : list JournalEntry.t) (d : Z) :
  hasEntryOn tz now entries d = true <-> d ∈ diffOf <$> entries.
Proof.
  unfold hasEntryOn. rewrite existsb_exists, list_elem_of_fmap.
  split.
  - intros (e & Hin & Heq). exists e. split.
    + rewrite daysDiff_localDay. lia.
    + apply list_elem_of_In, Hin.
  - intros (e & Heq & Hin). exists e. split.
    + apply list_elem_of_In, Hin.
    + rewrite daysDiff_localDay in Heq. lia.
Qed.

Lemma hasEntryOn_sorted (entries : list JournalEntry.t) (d : Z) :
  d ∈ diffOf <$> merge_sort newestFirst entries
  <-> hasEntryOn tz now entries d = true.
Proof. rewrite hasEntryOn_diffs, diffs_permutation. reflexivity. Qed.

(** C2, as the code has it, in a time zone with the fixed UTC offset
    [tz] (no daylight saving).  The streak is the number of consecutive
    calendar days with an entry, walking backward from the day of [now] and
    starting at that day only: it holds an entry for each of the [n] days
    today, today-1, ..., today-(n-1) and none for day today-n, several
    entries of one day counting once.  So entries today and yesterday with
    none two days ago give 2 (whatever lies further back), and with no
    entry today the streak is 0, whatever yesterday holds. *)
Theorem calculateStreak_counts_back_from_today
    (entries : list JournalEntry.t) (user : User.t) :
  let n := calculateStreak tz now entries user in
  (0 <= n /\
   (forall d, 0 <= d < n -> hasEntryOn tz now entries d = true) /\
   hasEntryOn tz now entries n = false) /\
  (hasEntryOn tz now entries 0 = true ->
   hasEntryOn tz now entries 1 = true ->
   hasEntryOn tz now entries 2 = false -> n = 2) /\
  (hasEntryOn tz now entries 0 = false -> n = 0).
Proof.
  cbn zeta. rewrite calculateStreak_countFrom.
  destruct (countFrom_spec _ (sorted_diffs entries) 0) as (Hle & Hin & Hout).
  set (n := countFrom _ 0) in *.
  assert (Hdays : forall d, 0 <= d < n -> hasEntryOn tz now entries d = true).
  { intros d Hd. apply hasEntryOn_sorted, Hin, Hd. }
  assert (Hgap : hasEntryOn tz now entries n = false).
  { apply not_true_is_false. intros Hn. apply Hout, hasEntryOn_sorted, Hn. }
  split; [auto|]. split.
  - intros H0 H1 H2.
    destruct (Z.lt_trichotomy n 2) as [Hlt|[Heq|Hgt]]; [|exact Heq|].
    + assert (n = 0 \/ n = 1) as [E|E] by lia; rewrite E in Hgap; congruence.
    + rewrite Hdays in H2 by lia. discriminate.
  - intros H0. destruct (Z.eq_dec n 0) as [E|E]; [exact E|].
    rewrite Hdays in H0 by lia. discriminate.
Qed.

(** C8.  The total of a breakdown is the sum of its four components; the
    streak of no entries is 0; the streak does not depend on the order in
    which the entries are passed. *)
Theorem total_is_sum_and_streak_ignores_order
    (entry : JournalEntry.t) (currentStreak : Z) (isMoodTracked : bool)
    (user : User.t) (entries entries' : list JournalEntry.t) :
  (let b := calculateClarityPoints entry currentStreak isMoodTracked in
   ClarityPointsBreakdown.total b
   = ClarityPointsBreakdown.dailyEntry b + ClarityPointsBreakdown.moodTracking b
     + ClarityPointsBreakdown.streakBonus b + ClarityPointsBreakdown.nftMinting b) /\
  calculateStreak tz now [] user = 0 /\
  (entries ≡ₚ entries' ->
   calculateStreak tz now entries user = calculateStreak tz now entries' user).
Proof.
  split; [cbn; lia|]. split; [reflexivity|]. intros Hperm.
  rewrite !calculateStreak_countFrom. f_equal.
  apply (Sorted_unique Z.le); [apply sorted_diffs ..|].
  rewrite !diffs_permutation. apply fmap_Permutation, Hperm.
Qed.

End Streak.

(** Today (day 20000), yesterday and three days ago, with a gap two days
    ago: the streak is 2. *)
Lemma calculateStreak_counts_back_from_today_witness :
  Utils.calculateStreak 0 (Sample.noon 20000)
    [Sample.entryAt "a" (Sample.noon 19997);
     Sample.entryAt "b" (Sample.noon 20000);
     Sample.entryAt "c" (Sample.noon 19999)] Sample.user = 2.
Proof.
  apply (proj1 (proj2 (calculateStreak_counts_back_from_today
                         0 (Sample.noon 20000) _ Sample.user)));
    reflexivity.
Defined.

(** C2 as stated fails: the only entry was written yesterday, none today,
    and the streak is 0, not 1. *)
Lemma calculateStreak_yesterday_only_is_zero :
  hasEntryOn 0 (Sample.noon 20000) [Sample.entryAt "a" (Sample.noon 19999)] 1 = true /\
  hasEntryOn 0 (Sample.noon 20000) [Sample.entryAt "a" (Sample.noon 19999)] 0 = false /\
  Utils.calculateStreak 0 (Sample.noon 20000)
    [Sample.entryAt "a" (Sample.noon 19999)] Sample.user = 0.
Proof. repeat split; vm_compute; reflexivity. Qed.

Lemma total_is_sum_and_streak_ignores_order_witness :
  Utils.calculateStreak 0 (Sample.noon 20000)
    [Sample.entryAt "a" (Sample.noon 19999);
     Sample.entryAt "b" (Sample.noon 20000)] Sample.user
  = Utils.calculateStreak 0 (Sample.noon 20000)
    [Sample.entryAt "b" (Sample.noon 20000);
     Sample.entryAt "a" (Sample.noon 19999)] Sample.user.
Proof.
  apply (proj2 (proj2 (total_is_sum_and_streak_ignores_order
                         0 (Sample.noon 20000) (Sample.entryAt "a" 0) 3 true
                         Sample.user _ _))).
  apply perm_swap.
Defined.

(** ** Validation of the content *)

Section Validation.
Import Utils.

Lemma trimStart_length (s : JSString) : (length (trimStart s) <= length s)%nat.
Proof.
  induction s as [|c s IH]; cbn; [lia|].
  destruct (isWhiteSpace c); cbn; lia.
Qed.

Lemma trim_length (s : JSString) : jsLength (trim s) <= jsLength s.
Proof.
  unfold jsLength, trim, trimEnd. rewrite length_rev.
  pose proof (trimStart_length (rev (trimStart s))) as H1.
  rewrite length_rev in H1.
  pose proof (trimStart_length s). lia.
Qed.

(** C9, as the code has it.  A content is accepted exactly when it has at
    least 10 code units after trimming and at most 5000 before trimming;
    it is accepted exactly when the error list is empty; a content whose
    trimmed length is below 10 or above 5000 is rejected. *)
Theorem validateJournalEntry_accepts_iff (content : JSString) :
  let r := validateJournalEntry content in
  (ValidationResult.isValid r = true
   <-> 10 <= jsLength (trim content) /\ jsLength content <= 5000) /\
  (ValidationResult.isValid r = true <-> ValidationResult.errors r = []) /\
  (jsLength (trim content) < 10 \/ 5000 < jsLength (trim content) ->
   ValidationResult.isValid r = false).
Proof.
  pose proof (trim_length content) as Htrim.
  assert (Hnonneg : 0 <= jsLength (trim content)) by (unfold jsLength; lia).
  cbn zeta. unfold validateJournalEntry.
  destruct (Z.eqb_spec (jsLength content) 0) as [H0|H0];
    destruct (Z.eqb_spec (jsLength (trim content)) 0) as [H1|H1];
    destruct (Z.ltb_spec (jsLength (trim content)) 10) as [H2|H2];
    destruct (Z.ltb_spec 5000 (jsLength content)) as [H3|H3];
    cbn; (split; [|split]); try (split; intros); try intros [?|?];
    try discriminate; try reflexivity; lia.
Qed.

Lemma validateJournalEntry_accepts_iff_witness :
  ValidationResult.isValid (validateJournalEntry (repeat 97%N 10)) = true.
Proof.
  apply (proj2 (proj1 (validateJournalEntry_accepts_iff (repeat 97%N 10)))).
  split; vm_compute; discriminate.
Defined.

(** C9 as stated fails twice.  The trimmed length of [paddedContent] is
    10, within 10..5000, and the content is rejected for its 5001 code
    units.  And a content that is rejected is stored all the same: the
    trimmed length of [longContent] is 5001 and [validateJournalEntry]
    rejects it, yet [createEntry], which does not consult the validation,
    resolves with an entry of that content and SQLite holds it in a new
    row. *)
Lemma validateJournalEntry_rejects_padded_stores_rejected :
  (jsLength (trim paddedContent) = 10 /\
   jsLength paddedContent = 5001 /\
   validateJournalEntry paddedContent
   = ValidationResult.mk false
       ["Journal entry cannot exceed 5000 characters"%string]) /\
  (jsLength (trim (codeUnits longContent)) = 5001 /\
   validateJournalEntry (codeUnits longContent)
   = ValidationResult.mk false
       ["Journal entry cannot exceed 5000 characters"%string] /\
   exists s' entry,
     AppProviderMore.createEntry CONFIG SampleCreate.env longContent grateful
                                 SampleUsers.store = (s', Ok entry) /\
     JournalEntry.content entry = longContent /\
     DBJournalEntry.content <$> default [] (World.sqlite (Store.world s'))
     = ["I am grateful today"%string; longContent]).
Proof.
  split; [repeat split; vm_compute; reflexivity|].
  split; [vm_compute; reflexivity|]. split; [vm_compute; reflexivity|].
  eexists _, _. split; [vm_compute; reflexivity|].
  split; vm_compute; reflexivity.
Qed.

End Validation.

(** ** The SQLite store *)

Section Store.
Import DatabaseService.

Lemma runUpdate_lookup (setClause : list (Column * SqlValue)) (id : string)
    (rows : list Row) (i : nat) (row : Row) :
  rows !! i = Some row ->
  runUpdate setClause id rows !! i
  = Some (if decide (DBJournalEntry.id row = id)
          then fold_left setColumn setClause row else row).
Proof.
  intros Hrow. unfold runUpdate.
  change (map ?f rows) with (f <$> rows).
  rewrite list_lookup_fmap, Hrow. reflexivity.
Qed.

(** What the SET clause of [updateJournalEntry] does to one row. *)
Lemma setClauseOf_row (now : Z) (updates : Partial.t) (row : Row) :
  fold_left setColumn (setClauseOf now updates) row
  = DBJournalEntry.mk
      (DBJournalEntry.id row)
      (DBJournalEntry.user_id row)
      (default (DBJournalEntry.content row) (Partial.content updates))
      (default (DBJournalEntry.mood row) (Partial.mood updates))
      (DBJournalEntry.created_at row)
      now
      (from_option (fun b : bool => if b then 1 else 0)
                   (DBJournalEntry.is_minted row) (Partial.isMinted updates))
      (match Partial.nftAddress updates with
       | Some a => Some a
       | None => DBJournalEntry.nft_address row
       end)
      (default (DBJournalEntry.clarity_points row) (Partial.clarityPoints updates))
      (from_option (fun b : bool => if b then 1 else 0)
                   (DBJournalEntry.is_sync row) (Partial.isSync updates)).
Proof.
  destruct row, updates as [? ? c m ? ? im na cp sy ? ?].
  unfold setClauseOf; cbn [Partial.content Partial.mood Partial.isMinted
    Partial.nftAddress Partial.clarityPoints Partial.isSync].
  destruct c, m, im, na, cp, sy; reflexivity.
Qed.

(** C10.  A statement the engine runs writes, in the rows whose id is the
    one given, [updated_at] and the columns of the keys present in
    [updates], and nothing else: a column whose key is absent keeps its
    value, [id], [user_id] and [created_at] are never written, the rows of
    other ids are as they were, and no row is added or removed.  With no
    key present only [updated_at] changes. *)
Theorem updateJournalEntry_frame
    (rows rows' : list Row) (now : Z) (id : string) (updates : Partial.t)
    (i : nat) (row : Row) :
  updateJournalEntry (Some rows) None now id updates = Ok rows' ->
  rows !! i = Some row ->
  length rows' = length rows /\
  exists row',
    rows' !! i = Some row' /\
    (DBJournalEntry.id row <> id -> row' = row) /\
    (DBJournalEntry.id row = id ->
     DBJournalEntry.id row' = DBJournalEntry.id row /\
     DBJournalEntry.user_id row' = DBJournalEntry.user_id row /\
     DBJournalEntry.created_at row' = DBJournalEntry.created_at row /\
     DBJournalEntry.updated_at row' = now /\
     (Partial.content updates = None ->
      DBJournalEntry.content row' = DBJournalEntry.content row) /\
     (Partial.mood updates = None ->
      DBJournalEntry.mood row' = DBJournalEntry.mood row) /\
     (Partial.isMinted updates = None ->
      DBJournalEntry.is_minted row' = DBJournalEntry.is_minted row) /\
     (Partial.nftAddress updates = None ->
      DBJournalEntry.nft_address row' = DBJournalEntry.nft_address row) /\
     (Partial.clarityPoints updates = None ->
      DBJournalEntry.clarity_points row' = DBJournalEntry.clarity_points row) /\
     (Partial.isSync updates = None ->
      DBJournalEntry.is_sync row' = DBJournalEntry.is_sync row) /\
     (forall c, Partial.content updates = Some c ->
                DBJournalEntry.content row' = c) /\
     (forall m, Partial.mood updates = Some m ->
                DBJournalEntry.mood row' = m) /\
     (forall b : bool, Partial.isMinted updates = Some b ->
                DBJournalEntry.is_minted row' = if b then 1 else 0) /\
     (forall a, Partial.nftAddress updates = Some a ->
                DBJournalEntry.nft_address row' = Some a) /\
     (forall p, Partial.clarityPoints updates = Some p ->
                DBJournalEntry.clarity_points row' = p) /\
     (forall b : bool, Partial.isSync updates = Some b ->
                DBJournalEntry.is_sync row' = if b then 1 else 0)).
Proof.
  intros Hrun Hrow. cbn in Hrun. injection Hrun as <-.
  split; [apply length_map|].
  eexists. split; [apply runUpdate_lookup, Hrow|].
  destruct (decide (DBJournalEntry.id row = id)) as [Hid|Hid].
  - split; [intros Hne; contradiction|]. intros _.
    rewrite setClauseOf_row. cbn.
    repeat split; try (intros ? ->; reflexivity); intros ->; reflexivity.
  - split; [reflexivity | intros Heq; contradiction].
Qed.

(** Row 0 of the sample table is rewritten with a new content; its
    [is_sync] flag is not a key of the update and stays 1. *)
Lemma updateJournalEntry_frame_witness :
  exists row',
    runUpdate (setClauseOf 2000 SampleRows.newContent) "e1" SampleRows.table !! 0%nat
    = Some row' /\
    DBJournalEntry.is_sync row' = 1.
Proof.
  destruct (updateJournalEntry_frame
              SampleRows.table
              (runUpdate (setClauseOf 2000 SampleRows.newContent) "e1" SampleRows.table)
              2000 "e1" SampleRows.newContent 0 (SampleRows.rowOf "e1" 1)
              eq_refl eq_refl)
    as (_ & row' & Hlookup & _ & Hsame).
  exists row'. split; [exact Hlookup|].
  destruct (Hsame eq_refl) as (_ & _ & _ & _ & _ & _ & _ & _ & _ & Hsync & _).
  exact (Hsync eq_refl).
Defined.

End Store.

(** ** The mint flow *)

Section Mint.
Import AppProvider.

(** Unfolds the monadic glue of a callback down to its case analysis. *)
Ltac unfold_M :=
  unfold tryCatch, when, throw, dispatch, sqliteUpdate, postgresUpdate,
    postgresCreate, mbind, mret, M_bind, M_ret in *.

Ltac split_cases :=
  repeat (case_match; simplify_eq/=); simplify_eq/=.

Lemma lookupEntry_None (entryId : string) (w : World.t) :
  lookupEntry entryId w = None
  <-> forall e, e ∈ AppState.entries (World.state w) ->
                JournalEntry.id e <> entryId.
Proof.
  unfold lookupEntry. split.
  - intros Hnone e Hin Heq.
    apply list_elem_of_In in Hin.
    pose proof (find_none _ _ Hnone e Hin) as Hb. cbn in Hb.
    rewrite bool_decide_eq_false in Hb. contradiction.
  - intros Hall. destruct (List.find _ _) as [e|] eqn:Hfind; [|reflexivity].
    apply find_some in Hfind as [Hin Hb].
    apply bool_decide_eq_true in Hb.
    apply list_elem_of_In in Hin. destruct (Hall e Hin Hb).
Qed.

(** A [find] by id commutes with a [map] that keeps the ids. *)
Lemma find_id_map (f : JournalEntry.t -> JournalEntry.t) (entryId : string)
    (l : list JournalEntry.t) :
  (forall e, JournalEntry.id (f e) = JournalEntry.id e) ->
  List.find (fun e => bool_decide (JournalEntry.id e = entryId)) (map f l)
  = f <$> List.find (fun e => bool_decide (JournalEntry.id e = entryId)) l.
Proof.
  intros Hid. induction l as [|e l IH]; [reflexivity|].
  cbn. rewrite Hid. destruct (bool_decide _); [reflexivity | exact IH].
Qed.

(** [updateEntry] never rejects, and touches neither chain nor wallet. *)
Lemma updateEntry_resolves (cfg : Config.t) (env : StoreEnv.t) (id : string)
    (updates : Partial.t) (w : World.t) :
  exists w',
    updateEntry cfg env id updates w = (w', Ok ()) /\
    World.tokens w' = World.tokens w /\
    World.wallet w' = World.wallet w.
Proof.
  unfold updateEntry. unfold_M.
  unfold PostgreSQLService.updateJournalEntry, PostgreSQLService.query,
    DatabaseService.updateJournalEntry.
  destruct w as [st db [rn pool] ws ts]; cbn.
  split_cases; eauto.
Qed.

(** When the stores accept the statement the reducer applies the update. *)
Lemma updateEntry_accepted (cfg : Config.t) (env : StoreEnv.t) (id : string)
    (updates : Partial.t) (w : World.t) :
  storesAccept cfg env w = true ->
  exists w',
    updateEntry cfg env id updates w = (w', Ok ()) /\
    World.tokens w' = World.tokens w /\
    World.wallet w' = World.wallet w /\
    AppState.entries (World.state w')
    = map (fun entry =>
             if decide (JournalEntry.id entry = id)
             then spread entry updates else entry)
          (AppState.entries (World.state w)).
Proof.
  unfold storesAccept, updateEntry. unfold_M.
  unfold PostgreSQLService.updateJournalEntry, PostgreSQLService.query,
    DatabaseService.updateJournalEntry.
  destruct w as [[u es er] db [rn pool] ws ts], env as [pgAns liteAns t]; cbn.
  intros Hacc.
  destruct (Config.DATABASE_POSTGRESQL_ENABLED cfg),
    (Config.DATABASE_SQLITE_ENABLED cfg), pgAns, liteAns, rn, pool, db;
    cbn in Hacc; try discriminate;
    cbn; split_cases; eauto.
Qed.

(** With the wallet connected and its key shown, the chain call is made
    and its answer decides the result. *)
Lemma solanaMint_minted (cfg : Config.t) (env : MintEnv.t)
    (entry : JournalEntry.t) (w : World.t) (mint signature : string) :
  Config.NFT_ENABLED cfg = true ->
  WalletService.isConnected (World.wallet w) = true ->
  walletHasKey (World.wallet w) = true ->
  MintEnv.chain env = ChainMinted mint signature ->
  solanaMint cfg env entry w
  = (World.with_tokens (mint :: World.tokens w) w,
     Ok (NFTMintResult.mk mint signature (MintEnv.uri env))).
Proof.
  intros Hnft Hconn Hkey Hchain.
  unfold solanaMint, SolanaService.mintJournalEntryAsNFT,
    SolanaService.getWalletKeypair, SolanaService.createSimpleNFT,
    WalletService.isConnected, walletHasKey in *.
  rewrite Hnft, Hchain.
  destruct w as [st db pg [[[pk conn]|] kp] ts]; cbn in *;
    [|discriminate].
  destruct pk as [pk|]; [|discriminate].
  destruct kp as [kp|]; [reflexivity|].
  rewrite andb_comm in Hconn. discriminate.
Qed.

(** C4.  [mintEntryAsNFT] rejects at once, leaving the world as it was (no
    chain call, no write, no points), with ["Wallet not connected"] when the
    wallet is not connected, else ["Entry not found"] when the state holds
    no entry of that id, else ["Entry already minted as NFT"] when the entry
    is minted; the three messages differ.  A call that minted successfully
    with the stores accepting its update leaves an entry that every further
    call rejects as already minted, the world unchanged. *)
Theorem mintEntryAsNFT_preconditions
    (cfg : Config.t) (env : MintEnv.t) (entryId : string) (w : World.t) :
  Config.SOLANA_ENABLED cfg = true ->
  (WalletService.isConnected (World.wallet w) = false ->
   mintEntryAsNFT cfg env entryId w = (w, Err "Wallet not connected")) /\
  (WalletService.isConnected (World.wallet w) = true ->
   lookupEntry entryId w = None ->
   mintEntryAsNFT cfg env entryId w = (w, Err "Entry not found")) /\
  (WalletService.isConnected (World.wallet w) = true ->
   forall entry,
     lookupEntry entryId w = Some entry ->
     JournalEntry.isMinted entry = true ->
     mintEntryAsNFT cfg env entryId w = (w, Err "Entry already minted as NFT")) /\
  ("Wallet not connected" <> "Entry not found" /\
   "Wallet not connected" <> "Entry already minted as NFT" /\
   "Entry not found" <> "Entry already minted as NFT")%string /\
  (forall w' nftAddress env',
     storesAccept cfg (MintEnv.stores env) w = true ->
     mintEntryAsNFT cfg env entryId w = (w', Ok nftAddress) ->
     mintEntryAsNFT cfg env' entryId w' = (w', Err "Entry already minted as NFT")).
Proof.
  intros Hsol. unfold mintEntryAsNFT, mintPrecheck. rewrite Hsol. cbn [negb].
  split; [intros ->; reflexivity|].
  split; [intros -> ->; reflexivity|].
  split; [intros -> entry -> ->; reflexivity|].
  split; [repeat split; discriminate|].
  intros w' nftAddress env' Hacc Hrun.
  destruct (WalletService.isConnected (World.wallet w)) eqn:Hconn;
    [cbn [negb] in Hrun | discriminate].
  destruct (lookupEntry entryId w) as [entry|] eqn:Hfind; [|discriminate].
  destruct (JournalEntry.isMinted entry) eqn:Hminted; [discriminate|].
  unfold mintResume, tryCatch in Hrun.
  change (mbind ?k ?m) with (M_bind _ _ k m) in Hrun. unfold M_bind at 1 in Hrun.
  destruct (solanaMint cfg env entry w) as [w1 [nftResult|msg]] eqn:Hsolana;
    [|unfold_M; simplify_eq/=].
  assert (World.wallet w1 = World.wallet w /\ World.state w1 = World.state w
          /\ World.sqlite w1 = World.sqlite w
          /\ World.postgres w1 = World.postgres w) as (Hw & Hs & Hdb & Hpg).
  { unfold solanaMint in Hsolana.
    destruct (SolanaService.mintJournalEntryAsNFT _ _ _ _ _ _).
    simplify_eq/=. auto. }
  assert (Hacc1 : storesAccept cfg (MintEnv.stores env) w1 = true).
  { unfold storesAccept in *. rewrite Hdb, Hpg. exact Hacc. }
  destruct (updateEntry_accepted cfg (MintEnv.stores env) entryId
              (mintUpdates cfg entry nftResult) w1 Hacc1)
    as (w2 & Hupd & _ & Hw2 & Hentries).
  change (mbind ?k ?m) with (M_bind _ _ k m) in Hrun. unfold M_bind in Hrun.
  rewrite Hupd in Hrun. unfold mret, M_ret in Hrun. simplify_eq/=.
  rewrite Hw2, Hw, Hconn. cbn [negb].
  unfold lookupEntry in *. rewrite Hentries, Hs.
  rewrite find_id_map by (intros e; destruct (decide _); reflexivity).
  rewrite Hfind. cbn [fmap option_fmap option_map].
  apply find_some in Hfind as [_ Hid]. apply bool_decide_eq_true in Hid.
  destruct (decide (JournalEntry.id entry = entryId)); [reflexivity | contradiction].
Qed.

(** The sample entry is minted once; the second call is turned away. *)
Lemma mintEntryAsNFT_preconditions_witness :
  let w' := fst (mintEntryAsNFT CONFIG (SampleWorld.mintA SampleWorld.storesOk)
                                "e1" SampleWorld.world) in
  mintEntryAsNFT CONFIG (SampleWorld.mintB SampleWorld.storesOk) "e1" w'
  = (w', Err "Entry already minted as NFT").
Proof.
  apply (proj2 (proj2 (proj2 (proj2
           (mintEntryAsNFT_preconditions
              CONFIG (SampleWorld.mintA SampleWorld.storesOk) "e1"
              SampleWorld.world eq_refl)))) _ "mintA"%string);
    reflexivity.
Defined.

(** A call that passed the checks and is answered by the chain resolves
    with the mint address, whatever the stores answer. *)
Lemma mintResume_minted (cfg : Config.t) (env : MintEnv.t) (entryId : string)
    (entry : JournalEntry.t) (w : World.t) (mint signature : string) :
  Config.NFT_ENABLED cfg = true ->
  WalletService.isConnected (World.wallet w) = true ->
  walletHasKey (World.wallet w) = true ->
  MintEnv.chain env = ChainMinted mint signature ->
  exists w',
    mintResume cfg env entryId entry w = (w', Ok mint) /\
    World.tokens w' = mint :: World.tokens w /\
    World.wallet w' = World.wallet w.
Proof.
  intros Hnft Hconn Hkey Hchain.
  unfold mintResume, tryCatch, mbind, M_bind, mret, M_ret.
  rewrite (solanaMint_minted cfg env entry w mint signature) by assumption.
  destruct (updateEntry_resolves cfg (MintEnv.stores env) entryId
              (mintUpdates cfg entry (NFTMintResult.mk mint signature (MintEnv.uri env)))
              (World.with_tokens (mint :: World.tokens w) w))
    as (w' & Hupd & Hts & Hw).
  rewrite Hupd. exists w'. auto.
Qed.

(** C1, as the code has it.  [mintEntryAsNFT] keeps no mark of a call in
    flight: when a call has passed the checks, a second call for the same
    entry made before the first resumes passes them too, and with the
    chain answering both, each call returns the mint address it was given
    and the chain holds two more tokens. *)
Theorem mintEntryAsNFT_no_in_flight_guard
    (cfg : Config.t) (env1 env2 : MintEnv.t) (entryId : string) (w : World.t)
    (entry : JournalEntry.t) (mint1 sig1 mint2 sig2 : string) :
  mintPrecheck cfg entryId w = Ok entry ->
  Config.NFT_ENABLED cfg = true ->
  walletHasKey (World.wallet w) = true ->
  MintEnv.chain env1 = ChainMinted mint1 sig1 ->
  MintEnv.chain env2 = ChainMinted mint2 sig2 ->
  exists w2,
    mintTwiceInFlight cfg env1 env2 entryId w = (w2, (Ok mint1, Ok mint2)) /\
    World.tokens w2 = mint2 :: mint1 :: World.tokens w.
Proof.
  intros Hcheck Hnft Hkey Hchain1 Hchain2.
  assert (Hconn : WalletService.isConnected (World.wallet w) = true).
  { unfold mintPrecheck in Hcheck.
    destruct (Config.SOLANA_ENABLED cfg); [|discriminate].
    destruct (WalletService.isConnected _); [reflexivity | discriminate]. }
  unfold mintTwiceInFlight. rewrite Hcheck.
  destruct (mintResume_minted cfg env1 entryId entry w mint1 sig1)
    as (w1 & Hrun1 & Hts1 & Hw1); try assumption.
  rewrite Hrun1.
  destruct (mintResume_minted cfg env2 entryId entry w1 mint2 sig2)
    as (w2 & Hrun2 & Hts2 & Hw2); try (rewrite Hw1); try assumption.
  rewrite Hrun2. exists w2. split; [reflexivity|].
  rewrite Hts2, Hts1. reflexivity.
Qed.

Lemma mintEntryAsNFT_no_in_flight_guard_witness :
  exists w2,
    mintTwiceInFlight CONFIG (SampleWorld.mintA SampleWorld.storesOk)
      (SampleWorld.mintB SampleWorld.storesOk) "e1" SampleWorld.world
    = (w2, (Ok "mintA"%string, Ok "mintB"%string)) /\
    World.tokens w2 = ["mintB"; "mintA"]%string.
Proof.
  apply (mintEntryAsNFT_no_in_flight_guard
           CONFIG (SampleWorld.mintA SampleWorld.storesOk)
           (SampleWorld.mintB SampleWorld.storesOk) "e1" SampleWorld.world
           (Sample.entryAt "e1" 1000) "mintA" "sigA" "mintB" "sigB");
    reflexivity.
Defined.

(** C1 as stated fails: of two calls in flight for the unminted sample
    entry neither is rejected; both return a mint address and two tokens
    exist. *)
Lemma mintEntryAsNFT_twice_in_flight_mints_twice :
  let '(w2, (r1, r2)) :=
    mintTwiceInFlight CONFIG (SampleWorld.mintA SampleWorld.storesOk)
      (SampleWorld.mintB SampleWorld.storesOk) "e1" SampleWorld.world in
  r1 = Ok "mintA"%string /\ r2 = Ok "mintB"%string /\
  World.tokens w2 = ["mintB"; "mintA"]%string.
Proof. vm_compute. repeat split. Qed.

(** C3 at a failing input.  The chain mints the token, then the SQLite
    engine rejects the statement of [updateEntry]: the call still resolves
    with the mint address; the entry stays unminted in the state and in
    SQLite, the token exists, and the only trace of the failure is the
    error message of [updateEntry] in the state. *)
Lemma mintEntryAsNFT_swallows_persistence_failure :
  let '(w', r) :=
    mintEntryAsNFT CONFIG (SampleWorld.mintA SampleWorld.sqliteLocked)
                   "e1" SampleWorld.world in
  r = Ok "mintA"%string /\
  World.tokens w' = ["mintA"%string] /\
  AppState.entries (World.state w') = [Sample.entryAt "e1" 1000] /\
  World.sqlite w' = Some [SampleRows.rowOf "e1" 0] /\
  AppState.error (World.state w') = Some "Failed to update journal entry"%string.
Proof. vm_compute. repeat split. Qed.

(** A failure of the Solana service is raised: the call rejects with the
    service's error, the state records ["Failed to mint NFT"], and the
    entries of the state and both stores are as before. *)
Theorem mintEntryAsNFT_raises_service_failure
    (cfg : Config.t) (env : MintEnv.t) (entryId : string) (w w1 : World.t)
    (entry : JournalEntry.t) (msg : string) :
  mintPrecheck cfg entryId w = Ok entry ->
  solanaMint cfg env entry w = (w1, Err msg) ->
  exists w',
    mintEntryAsNFT cfg env entryId w = (w', Err msg) /\
    AppState.entries (World.state w') = AppState.entries (World.state w) /\
    AppState.error (World.state w') = Some "Failed to mint NFT"%string /\
    World.sqlite w' = World.sqlite w /\
    World.postgres w' = World.postgres w.
Proof.
  intros Hcheck Hsolana.
  unfold mintEntryAsNFT. rewrite Hcheck.
  unfold mintResume, tryCatch.
  change (mbind ?k ?m) with (M_bind _ _ k m). unfold M_bind at 1.
  rewrite Hsolana. unfold_M. eexists. split; [reflexivity|].
  unfold solanaMint in Hsolana.
  destruct (SolanaService.mintJournalEntryAsNFT _ _ _ _ _ _).
  simplify_eq/=. destruct w as [[? ? ?] ? ? ? ?]. auto.
Qed.

(** The chain rejects the mint of the sample entry. *)
Lemma mintEntryAsNFT_raises_service_failure_witness :
  exists w',
    mintEntryAsNFT CONFIG SampleWorld.chainRejects "e1" SampleWorld.world
    = (w', Err "Failed to mint NFT: Error: Failed to create NFT") /\
    AppState.entries (World.state w') = [Sample.entryAt "e1" 1000].
Proof.
  destruct (mintEntryAsNFT_raises_service_failure
              CONFIG SampleWorld.chainRejects "e1" SampleWorld.world
              SampleWorld.world (Sample.entryAt "e1" 1000)
              "Failed to mint NFT: Error: Failed to create NFT"
              eq_refl eq_refl)
    as (w' & Hrun & Hentries & _).
  exists w'. split; [exact Hrun | exact Hentries].
Defined.

(** A mint the chain answers and the stores accept: the call resolves
    with the mint address, and the entry a lookup then finds is the old one
    with [isMinted] set, the address, signature and metadata address of the
    mint, and the points raised by [NFT_MINTING]. *)
Theorem mintEntryAsNFT_success_marks_entry
    (cfg : Config.t) (env : MintEnv.t) (entryId : string) (w : World.t)
    (entry : JournalEntry.t) (mint signature : string) :
  mintPrecheck cfg entryId w = Ok entry ->
  Config.NFT_ENABLED cfg = true ->
  walletHasKey (World.wallet w) = true ->
  MintEnv.chain env = ChainMinted mint signature ->
  storesAccept cfg (MintEnv.stores env) w = true ->
  exists w' entry',
    mintEntryAsNFT cfg env entryId w = (w', Ok mint) /\
    lookupEntry entryId w' = Some entry' /\
    JournalEntry.isMinted entry' = true /\
    JournalEntry.nftAddress entry' = Some mint /\
    JournalEntry.nftTransactionSignature entry' = Some signature /\
    JournalEntry.nftMetadataUri entry' = Some (MintEnv.uri env) /\
    JournalEntry.clarityPoints entry'
    = JournalEntry.clarityPoints entry + Config.CLARITY_POINTS_NFT_MINTING cfg /\
    JournalEntry.content entry' = JournalEntry.content entry /\
    World.tokens w' = mint :: World.tokens w.
Proof.
  intros Hcheck Hnft Hkey Hchain Hacc.
  assert (Hconn : WalletService.isConnected (World.wallet w) = true
                  /\ lookupEntry entryId w = Some entry).
  { unfold mintPrecheck in Hcheck.
    destruct (Config.SOLANA_ENABLED cfg); [|discriminate].
    destruct (WalletService.isConnected _); [|discriminate].
    destruct (lookupEntry entryId w) as [e|]; [|discriminate].
    destruct (JournalEntry.isMinted e); [discriminate|].
    cbn in Hcheck. injection Hcheck as ->. auto. }
  destruct Hconn as [Hconn Hfind].
  unfold mintEntryAsNFT. rewrite Hcheck.
  unfold mintResume, tryCatch, mbind, M_bind, mret, M_ret.
  rewrite (solanaMint_minted cfg env entry w mint signature) by assumption.
  set (w1 := World.with_tokens (mint :: World.tokens w) w).
  set (updates := mintUpdates cfg entry _).
  destruct (updateEntry_accepted cfg (MintEnv.stores env) entryId updates w1)
    as (w' & Hupd & Hts & _ & Hentries); [exact Hacc|].
  rewrite Hupd. exists w', (spread entry updates).
  split; [reflexivity|]. split.
  - unfold lookupEntry in *. rewrite Hentries.
    rewrite find_id_map by (intros e; destruct (decide _); reflexivity).
    cbn [w1 World.with_tokens World.state]. rewrite Hfind.
    cbn [fmap option_fmap option_map].
    apply find_some in Hfind as [_ Hid]. apply bool_decide_eq_true in Hid.
    destruct (decide (JournalEntry.id entry = entryId)); [reflexivity | contradiction].
  - rewrite Hts. repeat split.
Qed.

Lemma mintEntryAsNFT_success_marks_entry_witness :
  exists w' entry',
    mintEntryAsNFT CONFIG (SampleWorld.mintA SampleWorld.storesOk) "e1"
                   SampleWorld.world = (w', Ok "mintA"%string) /\
    lookupEntry "e1" w' = Some entry' /\
    JournalEntry.isMinted entry' = true /\
    JournalEntry.clarityPoints entry' = 50.
Proof.
  destruct (mintEntryAsNFT_success_marks_entry
              CONFIG (SampleWorld.mintA SampleWorld.storesOk) "e1"
              SampleWorld.world (Sample.entryAt "e1" 1000) "mintA" "sigA"
              eq_refl eq_refl eq_refl eq_refl eq_refl)
    as (w' & entry' & Hrun & Hfind & Hminted & _ & _ & _ & Hpoints & _).
  exists w', entry'. auto.
Defined.

End Mint.

(** ** Editing a mirrored entry *)

Section Edit.

(** The SQLite-only provider: an update that carries a non-empty content
    or a mood, both statements running, leaves every entry of that id
    unsynced, in the state and in SQLite. *)
Theorem updateEntry_local_marks_unsynced
    (cfg : Config.t) (now1 now2 : Z) (id : string) (updates : Partial.t)
    (w : World.t) (rows : list DBJournalEntry.t) :
  Config.DATABASE_SQLITE_ENABLED cfg = true ->
  World.sqlite w = Some rows ->
  AppProviderLocal.contentOrMood updates = true ->
  exists w' rows',
    AppProviderLocal.updateEntry cfg None None now1 now2 id updates w
    = (w', Ok ()) /\
    World.sqlite w' = Some rows' /\
    (forall e, e ∈ AppState.entries (World.state w') ->
               JournalEntry.id e = id -> JournalEntry.isSync e = false) /\
    (forall row, row ∈ rows' ->
                 DBJournalEntry.id row = id -> DBJournalEntry.is_sync row = 0).
Proof.
  intros Hlite Hdb Hedit.
  unfold AppProviderLocal.updateEntry, tryCatch, sqliteUpdate, dispatch,
    mbind, mret, M_bind, M_ret, DatabaseService.updateJournalEntry.
  rewrite Hlite, Hdb, Hedit. cbn.
  destruct w as [[u es er] db pg ws ts]. cbn in *. subst db.
  eexists _, _. split; [reflexivity|]. split; [reflexivity|]. split.
  - intros e Hin Hid.
    change (map ?f es) with (f <$> es) in Hin.
    apply list_elem_of_fmap in Hin as (e0 & -> & _).
    destruct (decide (JournalEntry.id e0 = id)) as [_|Hne]; [|contradiction].
    destruct updates; reflexivity.
  - intros row Hin Hid. unfold DatabaseService.runUpdate in Hin.
    change (map ?f ?l) with (f <$> l) in Hin.
    apply list_elem_of_fmap in Hin as (row1 & -> & _).
    destruct (decide (DBJournalEntry.id row1 = id)) as [_|Hne]; [|contradiction].
    destruct row1; reflexivity.
Qed.

Lemma updateEntry_local_marks_unsynced_witness :
  exists w' rows',
    AppProviderLocal.updateEntry CONFIG None None 2000 2001 "e1"
                                 SampleRows.newContent SampleWorld.syncedWorld
    = (w', Ok ()) /\
    World.sqlite w' = Some rows' /\
    (forall row, row ∈ rows' ->
                 DBJournalEntry.id row = "e1"%string ->
                 DBJournalEntry.is_sync row = 0).
Proof.
  destruct (updateEntry_local_marks_unsynced
              CONFIG 2000 2001 "e1" SampleRows.newContent
              SampleWorld.syncedWorld [SampleRows.rowOf "e1" 1]
              eq_refl eq_refl eq_refl)
    as (w' & rows' & Hrun & Hdb & _ & Hrows).
  exists w', rows'. auto.
Defined.

End Edit.

(** C6 at a failing input.  The provider with the mirror edits the content
    of a mirrored entry: content and [updated_at] change, and the entry is
    still flagged as synced, in the state and in SQLite. *)
Lemma updateEntry_keeps_isSync_after_edit :
  let '(w', r) :=
    AppProvider.updateEntry CONFIG SampleWorld.storesOk "e1"
                            SampleRows.newContent SampleWorld.syncedWorld in
  r = Ok () /\
  (JournalEntry.content <$> AppState.entries (World.state w'))
  = ["A calmer evening than I expected"%string] /\
  (JournalEntry.isSync <$> AppState.entries (World.state w')) = [true] /\
  (DBJournalEntry.is_sync <$> default [] (World.sqlite w')) = [1].
Proof. vm_compute. repeat split. Qed.

(** The SQLite-only provider clears the flag on the same edit. *)
Lemma updateEntry_local_clears_isSync :
  let '(w', r) :=
    AppProviderLocal.updateEntry CONFIG None None 2000 2001 "e1"
                                 SampleRows.newContent SampleWorld.syncedWorld in
  r = Ok () /\
  (JournalEntry.isSync <$> AppState.entries (World.state w')) = [false] /\
  (DBJournalEntry.is_sync <$> default [] (World.sqlite w')) = [0].
Proof. vm_compute. repeat split. Qed.

(** ** The sweep to the mirror *)

Section Sync.
Import AppProvider.

Variable env : SyncEnv.t.

Ltac unfold_sync :=
  unfold syncEntry, tryCatch, postgresCreate, sqliteUpdate, mbind, mret,
    M_bind, M_ret, PostgreSQLService.createJournalEntry,
    PostgreSQLService.query, DatabaseService.updateJournalEntry,
    markRows, marked, mirrored, mirrorUsable in *.

(** What the service binds for [{ ...entry, isSync: true }]. *)
Lemma insertValues_markSynced (e : JournalEntry.t) :
  PostgreSQLService.insertValues (SyncEnv.postgresId env e)
                                 (SyncEnv.postgresNow env e) (markSynced e)
  = mirrorRow env e.
Proof.
  destruct e as [i u c m ca ua im [a|] cp sy ts mu];
    unfold mirrorRow, PostgreSQLService.insertValues; cbn; [|reflexivity].
  repeat case_bool_decide; simplify_eq; reflexivity.
Qed.

(** One round of the loop: it never rejects; the mirror takes the entry
    when it can, and only then is the row marked. *)
Lemma syncEntry_effect (e : JournalEntry.t) (w : World.t) :
  exists w1,
    syncEntry env e w = (w1, Ok ()) /\
    World.state w1 = World.state w /\
    PostgreSQLService.isReactNative (World.postgres w1)
    = PostgreSQLService.isReactNative (World.postgres w) /\
    mirrorUsable (World.postgres w1) = mirrorUsable (World.postgres w) /\
    bool_decide (is_Some (World.sqlite w1))
    = bool_decide (is_Some (World.sqlite w)) /\
    PostgreSQLService.pool (World.postgres w1)
    = (if mirrored env w e
       then (fun accepted => accepted ++ [PostgreSQLService.Insert (mirrorRow env e)])
              <$> PostgreSQLService.pool (World.postgres w)
       else PostgreSQLService.pool (World.postgres w)) /\
    World.sqlite w1 = markRows env w (World.sqlite w) e.
Proof.
  destruct w as [st db [rn pool] ws ts]. unfold_sync.
  rewrite insertValues_markSynced. cbn.
  destruct rn, pool as [accepted|], (SyncEnv.postgres env e),
    db as [rows|], (SyncEnv.sqlite env e); cbn; eauto 10.
Qed.

Lemma mirrored_stable (w w1 : World.t) (e : JournalEntry.t) :
  mirrorUsable (World.postgres w1) = mirrorUsable (World.postgres w) ->
  mirrored env w1 e = mirrored env w e.
Proof. intros H. unfold mirrored. rewrite H. reflexivity. Qed.

Lemma marked_stable (w w1 : World.t) (e : JournalEntry.t) :
  mirrorUsable (World.postgres w1) = mirrorUsable (World.postgres w) ->
  bool_decide (is_Some (World.sqlite w1))
  = bool_decide (is_Some (World.sqlite w)) ->
  marked env w1 e = marked env w e.
Proof.
  intros H1 H2. unfold marked. rewrite (mirrored_stable w w1 e H1), H2.
  reflexivity.
Qed.

Lemma fold_left_pointwise {A B} (f g : A -> B -> A) (l : list B) (a : A) :
  (forall a b, f a b = g a b) -> fold_left f l a = fold_left g l a.
Proof.
  intros Hfg. revert a. induction l as [|b l IH]; intros a; cbn; [reflexivity|].
  rewrite Hfg. apply IH.
Qed.

(** The whole loop: every entry of the list gets its round. *)
Lemma forEach_effect (l : list JournalEntry.t) :
  forall w,
  exists w',
    forEach l (syncEntry env) w = (w', Ok ()) /\
    World.state w' = World.state w /\
    PostgreSQLService.isReactNative (World.postgres w')
    = PostgreSQLService.isReactNative (World.postgres w) /\
    PostgreSQLService.pool (World.postgres w')
    = (fun accepted =>
         accepted ++ (PostgreSQLService.Insert ∘ mirrorRow env
                        <$> List.filter (mirrored env w) l))
        <$> PostgreSQLService.pool (World.postgres w) /\
    World.sqlite w' = fold_left (markRows env w) l (World.sqlite w).
Proof.
  induction l as [|e l IH]; intros w.
  - exists w. cbn. repeat split.
    destruct (PostgreSQLService.pool _); cbn; [rewrite app_nil_r|]; reflexivity.
  - destruct (syncEntry_effect e w)
      as (w1 & Hrun & Hst & Hrn & Huse & Hdb & Hpool & Hrows).
    destruct (IH w1) as (w' & Hrest & Hst' & Hrn' & Hpool' & Hrows').
    exists w'. cbn [forEach]. unfold mbind, M_bind. rewrite Hrun.
    split; [exact Hrest|]. split; [congruence|]. split; [congruence|]. split.
    + rewrite Hpool', Hpool.
      rewrite (filter_ext (mirrored env w1) (mirrored env w))
        by (intros; apply mirrored_stable, Huse).
      cbn [List.filter].
      destruct (mirrored env w e), (PostgreSQLService.pool (World.postgres w));
        cbn; rewrite <- ?app_assoc; reflexivity.
    + rewrite Hrows', Hrows. cbn [fold_left].
      apply fold_left_pointwise. intros db e'.
      unfold markRows. rewrite (marked_stable w w1 e' Huse Hdb). reflexivity.
Qed.

Lemma markRows_None (w : World.t) (l : list JournalEntry.t) :
  fold_left (markRows env w) l None = None.
Proof.
  induction l as [|e l IH]; cbn; [reflexivity|].
  unfold markRows at 2. destruct (marked env w e); exact IH.
Qed.

Lemma sameButSyncStamp_refl (row : DBJournalEntry.t) : sameButSyncStamp row row.
Proof. unfold sameButSyncStamp. tauto. Qed.

(** Row by row: a row ends up marked when some entry of the list with its
    id was taken by the mirror and the statement ran; otherwise its flag
    is the old one. *)
Lemma markRows_rows (w : World.t) (l : list JournalEntry.t) :
  forall rows,
  exists rows',
    fold_left (markRows env w) l (Some rows) = Some rows' /\
    length rows' = length rows /\
    forall (i : nat) (row : DBJournalEntry.t),
      rows !! i = Some row ->
      exists row',
        rows' !! i = Some row' /\
        sameButSyncStamp row row' /\
        DBJournalEntry.is_sync row'
        = if existsb (fun e => bool_decide (JournalEntry.id e = DBJournalEntry.id row)
                               && marked env w e) l
          then 1 else DBJournalEntry.is_sync row.
Proof.
  induction l as [|e l IH]; intros rows.
  - exists rows. cbn. repeat split. intros i row Hrow.
    exists row. auto using sameButSyncStamp_refl.
  - cbn [fold_left]. unfold markRows at 2.
    destruct (marked env w e) eqn:Hmarked.
    + cbn [fmap option_fmap option_map].
      set (rows1 := DatabaseService.runUpdate _ _ rows).
      destruct (IH rows1) as (rows' & Hfold & Hlen & Hrows).
      exists rows'. split; [exact Hfold|].
      split; [rewrite Hlen; apply length_map|].
      intros i row Hrow.
      pose proof (runUpdate_lookup
                    (DatabaseService.setClauseOf (SyncEnv.now env e) (onlyIsSync true))
                    (JournalEntry.id e) rows i row Hrow) as Hrow1.
      fold rows1 in Hrow1. rewrite setClauseOf_row in Hrow1.
      destruct (Hrows i _ Hrow1) as (row' & Hrow' & Hsame & Hsync).
      exists row'. split; [exact Hrow'|].
      cbn [existsb]. rewrite Hmarked, andb_true_r.
      destruct (decide (DBJournalEntry.id row = JournalEntry.id e)) as [Hid|Hid].
      * rewrite (bool_decide_eq_true_2 _ (eq_sym Hid)). cbn [orb].
        cbn in Hsame, Hsync. split; [exact Hsame|].
        rewrite Hsync. destruct (existsb _ l); reflexivity.
      * rewrite bool_decide_eq_false_2 by congruence. cbn [orb].
        split; [exact Hsame | exact Hsync].
    + destruct (IH rows) as (rows' & Hfold & Hlen & Hrows).
      exists rows'. split; [exact Hfold|]. split; [exact Hlen|].
      intros i row Hrow.
      destruct (Hrows i row Hrow) as (row' & Hrow' & Hsame & Hsync).
      exists row'. split; [exact Hrow'|]. split; [exact Hsame|].
      cbn [existsb]. rewrite Hmarked, andb_false_r. exact Hsync.
Qed.

Lemma markRows_unmarked (w : World.t) (l : list JournalEntry.t)
    (db : option (list DBJournalEntry.t)) :
  (forall e, e ∈ l -> mirrored env w e = false) ->
  fold_left (markRows env w) l db = db.
Proof.
  revert db. induction l as [|e l IH]; intros db Hall; [reflexivity|].
  cbn [fold_left]. unfold markRows at 2, marked.
  rewrite (Hall e) by apply list_elem_of_here. cbn.
  apply IH. intros e' He'. apply Hall, list_elem_of_further, He'.
Qed.

Lemma filter_unmirrored (w : World.t) (l : list JournalEntry.t) :
  (forall e, e ∈ l -> mirrored env w e = false) ->
  List.filter (mirrored env w) l = [].
Proof.
  induction l as [|e l IH]; intros Hall; [reflexivity|].
  cbn. rewrite (Hall e) by apply list_elem_of_here.
  apply IH. intros e' He'. apply Hall, list_elem_of_further, He'.
Qed.

Lemma filter_filter_pointwise {A} (p q g : A -> bool) (l : list A) :
  (forall x, g x = q x && p x) ->
  List.filter p (List.filter q l) = List.filter g l.
Proof.
  intros Hg. induction l as [|x l IH]; cbn; [reflexivity|].
  rewrite Hg. destruct (q x); cbn; [destruct (p x)|]; rewrite IH; reflexivity.
Qed.

Lemma existsb_filter_pointwise {A} (f q g : A -> bool) (l : list A) :
  (forall x, g x = q x && f x) ->
  existsb f (List.filter q l) = existsb g l.
Proof.
  intros Hg. induction l as [|x l IH]; cbn; [reflexivity|].
  rewrite Hg. destruct (q x); cbn; rewrite IH; reflexivity.
Qed.

(** C5.  [syncToCloud] always resolves and leaves the React state as it
    was.  Past its first [if] it offers every entry of [state.entries]
    whose [isSync] is false, and no other, to the mirror, in order and
    whatever happened to the ones before: the mirror ends with one more
    row for each of them whose write succeeded, under an identifier of its
    own and with the flag set.  A row of SQLite is marked ([is_sync] 1)
    exactly when it was marked already or such an entry of its id was
    taken by the mirror and the statement marking it ran, and apart from
    [updated_at] nothing else changes in it.  When the mirror takes none
    of these entries, SQLite and the mirror are as before: every flag
    stays as it was. *)
Theorem syncToCloud_marks_after_mirror_write (cfg : Config.t) (w : World.t) :
  exists w',
    syncToCloud cfg env w = (w', Ok ()) /\
    World.state w' = World.state w /\
    (sweepRuns cfg w = false -> w' = w) /\
    ((forall e, e ∈ AppState.entries (World.state w) ->
                JournalEntry.isSync e = false -> mirrored env w e = false) ->
     World.sqlite w' = World.sqlite w /\ World.postgres w' = World.postgres w) /\
    (sweepRuns cfg w = true ->
     PostgreSQLService.pool (World.postgres w')
     = (fun accepted =>
          accepted ++ (PostgreSQLService.Insert ∘ mirrorRow env
                         <$> List.filter (pendingMirrored env w)
                                         (AppState.entries (World.state w))))
         <$> PostgreSQLService.pool (World.postgres w)) /\
    match World.sqlite w with
    | None => World.sqlite w' = None
    | Some rows =>
        exists rows',
          World.sqlite w' = Some rows' /\
          length rows' = length rows /\
          forall (i : nat) (row : DBJournalEntry.t),
            rows !! i = Some row ->
            exists row',
              rows' !! i = Some row' /\
              sameButSyncStamp row row' /\
              DBJournalEntry.is_sync row'
              = if sweepRuns cfg w
                   && existsb (fun e =>
                                 bool_decide (JournalEntry.id e = DBJournalEntry.id row)
                                 && pendingMarked env w e)
                              (AppState.entries (World.state w))
                then 1 else DBJournalEntry.is_sync row
    end.
Proof.
  unfold syncToCloud, sweepRuns.
  destruct (Config.DATABASE_POSTGRESQL_ENABLED cfg);
    [destruct (bool_decide (is_Some (AppState.user (World.state w))))|];
    cbn [negb orb andb].
  2,3: exists w; repeat split; try discriminate;
       destruct (World.sqlite w) as [rows|]; [|reflexivity];
       exists rows; repeat split; intros i row Hrow; exists row;
       auto using sameButSyncStamp_refl.
  destruct (forEach_effect (unsyncedEntries w) w)
    as (w' & Hrun & Hst & Hrn & Hpool & Hrows).
  exists w'. unfold tryCatch. rewrite Hrun.
  split; [reflexivity|]. split; [exact Hst|]. split; [discriminate|].
  assert (Hpending : List.filter (mirrored env w) (unsyncedEntries w)
                     = List.filter (pendingMirrored env w)
                                   (AppState.entries (World.state w))).
  { apply filter_filter_pointwise. reflexivity. }
  split; [|split; [intros _; rewrite <- Hpending; exact Hpool|]].
  - intros Hnone.
    assert (Hall : forall e, e ∈ unsyncedEntries w -> mirrored env w e = false).
    { intros e He. apply list_elem_of_In, filter_In in He as [He Hflag].
      apply (Hnone e); [apply list_elem_of_In, He|].
      destruct (JournalEntry.isSync e); [discriminate | reflexivity]. }
    split.
    + rewrite Hrows. apply markRows_unmarked, Hall.
    + rewrite (filter_unmirrored w _ Hall) in Hpool.
      destruct (World.postgres w') as [rn' pool'],
        (World.postgres w) as [rn pool]; cbn in *.
      subst rn'. rewrite Hpool.
      destruct pool; cbn; [rewrite app_nil_r|]; reflexivity.
  - rewrite Hrows. destruct (World.sqlite w) as [rows|].
    + destruct (markRows_rows w (unsyncedEntries w) rows)
        as (rows' & Hfold & Hlen & Hmarks).
      exists rows'. split; [exact Hfold|]. split; [exact Hlen|].
      intros i row Hrow.
      destruct (Hmarks i row Hrow) as (row' & Hrow' & Hsame & Hsync).
      exists row'. split; [exact Hrow'|]. split; [exact Hsame|].
      rewrite Hsync. unfold unsyncedEntries.
      rewrite (existsb_filter_pointwise _ _
                 (fun e => bool_decide (JournalEntry.id e = DBJournalEntry.id row)
                           && pendingMarked env w e)); [reflexivity|].
      intros e. unfold pendingMarked.
      destruct (negb (JournalEntry.isSync e)), (bool_decide _); reflexivity.
    + apply markRows_None.
Qed.

End Sync.

(** The server fails on the first of two waiting entries and takes the
    second: the call resolves, the mirror holds one row, the second
    entry's under the mirror's own identifier, and of the two rows of
    SQLite only the second is marked.  When the server cannot be reached,
    the call resolves too and both stores are as before. *)
Lemma syncToCloud_marks_after_mirror_write_witness :
  (exists w' row1 row2,
     AppProvider.syncToCloud SampleSync.cloudConfig SampleSync.failsOnFirst
                             SampleSync.world = (w', Ok ()) /\
     PostgreSQLService.pool (World.postgres w')
     = Some [PostgreSQLService.Insert
               (JournalEntry.mk "pg-e2" "u1" "I am grateful today" grateful
                                2900 2900 false None 30 true None None)] /\
     World.sqlite w' = Some [row1; row2] /\
     DBJournalEntry.is_sync row1 = 0 /\
     DBJournalEntry.is_sync row2 = 1) /\
  (exists w',
     AppProvider.syncToCloud SampleSync.cloudConfig SampleSync.unreachable
                             SampleSync.world = (w', Ok ()) /\
     World.sqlite w' = World.sqlite SampleSync.world /\
     World.postgres w' = World.postgres SampleSync.world).
Proof.
  split.
  - destruct (syncToCloud_marks_after_mirror_write
                SampleSync.failsOnFirst SampleSync.cloudConfig SampleSync.world)
      as (w' & Hrun & _ & _ & _ & Hpool & rows' & Hrows & Hlen & Hmarks).
    destruct (Hmarks 0%nat _ eq_refl) as (row1 & Hrow1 & _ & Hsync1).
    destruct (Hmarks 1%nat _ eq_refl) as (row2 & Hrow2 & _ & Hsync2).
    exists w', row1, row2. split; [exact Hrun|].
    split; [exact (Hpool eq_refl)|]. split; [|split; [exact Hsync1 | exact Hsync2]].
    rewrite Hrows. f_equal.
    destruct rows' as [|r1 [|r2 [|r3 rest]]]; try discriminate Hlen.
    cbn in Hrow1, Hrow2. congruence.
  - destruct (syncToCloud_marks_after_mirror_write
                SampleSync.unreachable SampleSync.cloudConfig SampleSync.world)
      as (w' & Hrun & _ & _ & Hunreachable & _).
    exists w'. split; [exact Hrun|].
    apply Hunreachable. intros e _ _. reflexivity.
Defined.

(** The server fails on the first entry and takes the second: the sweep
    goes on, and only the second row is marked. *)
Lemma syncToCloud_continues_after_failure :
  let '(w', r) :=
    AppProvider.syncToCloud SampleSync.cloudConfig SampleSync.failsOnFirst
                            SampleSync.world in
  r = Ok () /\
  (DBJournalEntry.is_sync <$> default [] (World.sqlite w')) = [0; 1].
Proof. vm_compute. repeat split. Qed.

(** * Properties of the code around the core *)

(** ** Streaks, once more *)

Section StreakMore.
Import Utils UtilsMore.

Variables tz now : Z.

Lemma countFrom_bound (diffs : list Z) (streak : Z) :
  countFrom diffs streak <= streak + Z.of_nat (length diffs).
Proof.
  revert streak. induction diffs as [|d diffs IH]; intros streak; cbn [countFrom length].
  - lia.
  - destruct (d =? streak); [specialize (IH (streak + 1)); lia|].
    destruct (streak <? d); [lia | specialize (IH streak); lia].
Qed.

Lemma hasEntryOn_subseteq (entries entries' : list JournalEntry.t) (d : Z) :
  entries' ⊆ entries ->
  hasEntryOn tz now entries' d = true -> hasEntryOn tz now entries d = true.
Proof.
  intros Hsub. unfold hasEntryOn. rewrite !existsb_exists.
  intros (e & Hin & He). exists e. split; [|exact He].
  apply list_elem_of_In, Hsub, list_elem_of_In, Hin.
Qed.

(** What [calculateStreak] returns, in the vocabulary of days. *)
Lemma calculateStreak_days (entries : list JournalEntry.t) (user : User.t) :
  let n := calculateStreak tz now entries user in
  0 <= n /\
  (forall d, 0 <= d < n -> hasEntryOn tz now entries d = true) /\
  hasEntryOn tz now entries n = false.
Proof.
  cbn zeta. rewrite calculateStreak_countFrom.
  destruct (countFrom_spec _ (sorted_diffs tz now entries) 0) as (Hle & Hin & Hout).
  split; [exact Hle|]. split.
  - intros d Hd. apply hasEntryOn_sorted, Hin, Hd.
  - apply not_true_is_false. intros Hn. apply Hout, hasEntryOn_sorted, Hn.
Qed.

(** The streak is at most the number of entries, and taking entries away
    never raises it. *)
Theorem calculateStreak_bounded_and_monotone
    (entries entries' : list JournalEntry.t) (user user' : User.t) :
  calculateStreak tz now entries user <= Z.of_nat (length entries) /\
  (entries' ⊆ entries ->
   calculateStreak tz now entries' user' <= calculateStreak tz now entries user).
Proof.
  split.
  - rewrite calculateStreak_countFrom.
    pose proof (countFrom_bound
                  ((fun e => daysDiff tz now (JournalEntry.createdAt e))
                     <$> merge_sort newestFirst entries) 0) as Hb.
    rewrite length_fmap, (Permutation_length (merge_sort_Permutation _ entries)) in Hb.
    lia.
  - intros Hsub.
    destruct (calculateStreak_days entries user) as (Hn & _ & Hgap).
    destruct (calculateStreak_days entries' user') as (_ & Hdays' & _).
    destruct (Z.le_gt_cases (calculateStreak tz now entries' user')
                            (calculateStreak tz now entries user))
      as [Hle|Hgt]; [exact Hle|].
    rewrite (hasEntryOn_subseteq entries entries' _ Hsub) in Hgap;
      [discriminate | apply Hdays'; lia].
Qed.

Lemma existsb_pointwise {A} (f g : A -> bool) (l : list A) :
  (forall a, f a = g a) -> existsb f l = existsb g l.
Proof.
  intros Hfg. induction l as [|a l IH]; cbn; [reflexivity|].
  rewrite Hfg, IH. reflexivity.
Qed.

(** [hasWrittenToday] holds exactly when the streak is at least 1. *)
Theorem hasWrittenToday_iff_streak_positive
    (entries : list JournalEntry.t) (user : User.t) :
  hasWrittenToday tz now entries = true
  <-> 1 <= calculateStreak tz now entries user.
Proof.
  assert (Hsame : hasWrittenToday tz now entries = hasEntryOn tz now entries 0).
  { unfold hasWrittenToday, hasEntryOn. apply existsb_pointwise. intros e.
    rewrite !startOfDay_localDay. pose proof msPerDay_pos.
    destruct (Z.eqb_spec (localDay tz (JournalEntry.createdAt e)) (localDay tz now - 0));
      [apply Z.eqb_eq | apply Z.eqb_neq]; nia. }
  rewrite Hsame.
  destruct (calculateStreak_days entries user) as (Hn & Hdays & Hgap).
  split.
  - intros H0. destruct (Z.eq_dec (calculateStreak tz now entries user) 0) as [E|E];
      [rewrite E in Hgap; congruence | lia].
  - intros Hpos. apply Hdays. lia.
Qed.

End StreakMore.

Lemma calculateStreak_bounded_and_monotone_witness :
  Utils.calculateStreak 0 (Sample.noon 20000)
    [Sample.entryAt "b" (Sample.noon 20000)] Sample.user
  <= Utils.calculateStreak 0 (Sample.noon 20000)
       [Sample.entryAt "a" (Sample.noon 19999);
        Sample.entryAt "b" (Sample.noon 20000)] Sample.user.
Proof.
  apply (proj2 (calculateStreak_bounded_and_monotone
                  0 (Sample.noon 20000) _ _ Sample.user Sample.user)).
  intros e He. apply list_elem_of_further, He.
Defined.

(** ** Text helpers *)

Section Text.
Import Utils UtilsMore.

(** A text that fits is returned as it is; a longer one is cut to its
    first [maxLength] code units (none when [maxLength] is negative)
    followed by three dots, so the result is 3 units longer than the bound;
    truncating twice is truncating once. *)
Theorem truncateText_cuts_and_is_idempotent (text : JSString) (maxLength : Z) :
  (jsLength text <= maxLength -> truncateText text maxLength = text) /\
  (maxLength < jsLength text ->
   truncateText text maxLength = take (Z.to_nat maxLength) text ++ ellipsis /\
   jsLength (truncateText text maxLength) = Z.max 0 maxLength + 3) /\
  truncateText (truncateText text maxLength) maxLength
  = truncateText text maxLength.
Proof.
  unfold truncateText, substring0, jsLength.
  destruct (Z.leb_spec (Z.of_nat (length text)) maxLength) as [Hfit|Hlong].
  - split; [reflexivity|]. split; [lia|].
    destruct (Z.leb_spec (Z.of_nat (length text)) maxLength); [reflexivity | lia].
  - split; [lia|].
    assert (Hlen : length (take (Z.to_nat maxLength) text) = Z.to_nat maxLength).
    { rewrite length_take. lia. }
    split; [intros _; split; [reflexivity|]|].
    + rewrite length_app, Hlen. cbn. lia.
    + rewrite length_app, Hlen. cbn [ellipsis length].
      destruct (Z.leb_spec (Z.of_nat (Z.to_nat maxLength + 3)) maxLength); [lia|].
      rewrite take_app_length'; [reflexivity | symmetry; exact Hlen].
Qed.

Lemma truncateText_cuts_and_is_idempotent_witness :
  truncateText [104; 101; 108; 108; 111]%N 4 = [104; 101; 108; 108; 46; 46; 46]%N.
Proof.
  apply (proj1 (proj1 (proj2 (truncateText_cuts_and_is_idempotent
                                [104; 101; 108; 108; 111]%N 4)) eq_refl)).
Defined.

Lemma plural_max (n : Z) : plural (Z.max 1 n) = plural n.
Proof.
  unfold plural.
  destruct (Z.ltb_spec 1 n), (Z.ltb_spec 1 (Z.max 1 n)); try reflexivity; lia.
Qed.

(** The text always shows a count of at least 1, in days, hours or
    minutes, with the plural matching the count shown; a date less than
    two minutes back, or in the future, reads ["1 minute ago"]. *)
Theorem formatRelativeTime_shows_positive_count (now date : Z) :
  (exists (n : Z) (unit : string),
     1 <= n /\
     unit ∈ ["day"; "hour"; "minute"]%string /\
     formatRelativeTime now date
     = pretty n +:+ " " +:+ unit +:+ plural n +:+ " ago") /\
  (now - date < 2 * 60 * 1000 ->
   formatRelativeTime now date = "1 minute ago"%string).
Proof.
  unfold formatRelativeTime.
  set (diffMs := now - date).
  set (diffHours := diffMs / (1000 * 60 * 60)).
  set (diffDays := diffHours / 24).
  set (diffMinutes := diffMs / (1000 * 60)).
  split.
  - destruct (Z.ltb_spec 0 diffDays) as [Hd|Hd].
    { exists diffDays, "day"%string. split; [lia|]. split; [set_solver|].
      reflexivity. }
    destruct (Z.ltb_spec 0 diffHours) as [Hh|Hh].
    { exists diffHours, "hour"%string. split; [lia|]. split; [set_solver|].
      reflexivity. }
    exists (Z.max 1 diffMinutes), "minute"%string. split; [lia|].
    split; [set_solver|]. rewrite plural_max.
    reflexivity.
  - intros Hrecent.
    assert (Hhours : diffHours <= 0).
    { subst diffHours. apply Z.lt_succ_r.
      apply Z.div_lt_upper_bound; lia. }
    assert (Hdays : diffDays <= 0).
    { subst diffDays. apply Z.lt_succ_r.
      apply Z.div_lt_upper_bound; lia. }
    assert (Hmin : diffMinutes <= 1).
    { subst diffMinutes. apply Z.lt_succ_r.
      apply Z.div_lt_upper_bound; lia. }
    destruct (Z.ltb_spec 0 diffDays); [lia|].
    destruct (Z.ltb_spec 0 diffHours); [lia|].
    replace (Z.max 1 diffMinutes) with 1 by lia.
    unfold plural. destruct (Z.ltb_spec 1 diffMinutes); [lia | reflexivity].
Qed.

Lemma formatRelativeTime_shows_positive_count_witness :
  formatRelativeTime 1000 5000 = "1 minute ago"%string.
Proof.
  apply (proj2 (formatRelativeTime_shows_positive_count 1000 5000)). lia.
Defined.

End Text.

(** ** Mood statistics *)

Section Moods.
Import MoodStats.

Lemma countMood_cons (m : MoodType) (e : JournalEntry.t)
    (entries : list JournalEntry.t) :
  countMood m (e :: entries)
  = (if decide (JournalEntry.mood e = m) then 1 else 0) + countMood m entries.
Proof.
  unfold countMood. cbn [List.filter].
  destruct (decide (JournalEntry.mood e = m)) as [Heq|Hne].
  - rewrite bool_decide_eq_true_2 by exact Heq. cbn [length]. lia.
  - rewrite bool_decide_eq_false_2 by exact Hne. lia.
Qed.

Lemma countMood_nonneg (m : MoodType) (entries : list JournalEntry.t) :
  0 <= countMood m entries.
Proof. unfold countMood. lia. Qed.

(** The loop started on any distribution adds the counts to it. *)
Lemma foldl_distribution (entries : list JournalEntry.t) :
  forall (m : MoodType) (distribution : gmap MoodType Z),
    foldl (fun distribution entry =>
             <[JournalEntry.mood entry :=
                 default 0 (distribution !! JournalEntry.mood entry) + 1]>
               distribution)
          distribution entries !! m
    = if decide (countMood m entries = 0) then distribution !! m
      else Some (default 0 (distribution !! m) + countMood m entries).
Proof.
  induction entries as [|e entries IH]; intros m distribution; [reflexivity|].
  cbn [foldl]. rewrite IH, countMood_cons.
  pose proof (countMood_nonneg m entries) as Hc.
  destruct (decide (JournalEntry.mood e = m)) as [->|Hne].
  - rewrite lookup_insert_eq. cbn [default].
    destruct (decide (countMood m entries = 0)) as [E|E];
      destruct (decide (1 + countMood m entries = 0)); try lia;
      unfold id; f_equal; lia.
  - rewrite lookup_insert_ne by exact Hne.
    destruct (decide (countMood m entries = 0)) as [E|E];
      destruct (decide (0 + countMood m entries = 0)); try lia; reflexivity.
Qed.

Lemma countMood_total (entries : list JournalEntry.t) :
  foldr Z.add 0 ((fun m => countMood m entries) <$> allMoods)
  = Z.of_nat (length entries).
Proof.
  induction entries as [|e entries IH]; [reflexivity|].
  cbn [allMoods fmap list_fmap foldr] in *. rewrite !countMood_cons.
  cbn [length]. destruct (JournalEntry.mood e);
    repeat (case_decide; try done); lia.
Qed.

(** A mood is a key of the distribution exactly when some entry has it,
    and its value is then the number of these entries; the values add up
    to the number of entries. *)
Theorem getMoodDistribution_counts (entries : list JournalEntry.t) :
  (forall m,
     getMoodDistribution entries !! m
     = if decide (countMood m entries = 0) then None
       else Some (countMood m entries)) /\
  foldr Z.add 0 ((fun m => default 0 (getMoodDistribution entries !! m))
                   <$> allMoods)
  = Z.of_nat (length entries).
Proof.
  assert (Hlookup : forall m,
             getMoodDistribution entries !! m
             = if decide (countMood m entries = 0) then None
               else Some (countMood m entries)).
  { intros m. unfold getMoodDistribution. rewrite foldl_distribution.
    rewrite lookup_empty. reflexivity. }
  split; [exact Hlookup|].
  rewrite <- (countMood_total entries). f_equal.
  apply list_fmap_ext. intros _ m _. rewrite Hlookup.
  destruct (decide (countMood m entries = 0)) as [->|]; reflexivity.
Qed.

End Moods.

(** ** The SQLite store: entries *)

Section StoreEntries.
Import SQLiteEntries.

Lemma find_app_not_found {A} (p : A -> bool) (l1 l2 : list A) :
  List.find p l1 = None -> List.find p (l1 ++ l2) = List.find p l2.
Proof.
  induction l1 as [|a l1 IH]; cbn; [reflexivity|].
  destruct (p a); [discriminate | exact IH].
Qed.

Lemma find_app_found {A} (p : A -> bool) (l1 l2 : list A) (a : A) :
  List.find p l1 = Some a -> List.find p (l1 ++ l2) = Some a.
Proof.
  induction l1 as [|b l1 IH]; cbn; [discriminate|].
  destruct (p b); [auto | exact IH].
Qed.

Lemma find_row_fresh (rows : list DBJournalEntry.t) (id : string) :
  (forall row, row ∈ rows -> DBJournalEntry.id row <> id) ->
  List.find (fun row => bool_decide (DBJournalEntry.id row = id)) rows = None.
Proof.
  intros Hfresh. destruct (List.find _ rows) as [row|] eqn:Hfind; [|reflexivity].
  apply find_some in Hfind as [Hin Hid].
  apply bool_decide_eq_true in Hid. apply list_elem_of_In in Hin.
  destruct (Hfresh row Hin Hid).
Qed.

Lemma orNull_idem (x : option string) : orNull (orNull x) = orNull x.
Proof.
  destruct x as [s|]; [|reflexivity]. cbn.
  destruct (bool_decide (s = ""%string)) eqn:E; [reflexivity|].
  cbn. rewrite E. reflexivity.
Qed.

(** An entry created under an id no row has is read back under that id
    field for field as [createJournalEntry] returned it, but for an empty
    [nftAddress], which comes back absent; the other ids read as before. *)
Theorem createJournalEntry_then_getJournalEntry
    (rows rows' : list DBJournalEntry.t) (id : string) (now : Z)
    (entryData : EntryData.t) (entry : JournalEntry.t) :
  (forall row, row ∈ rows -> DBJournalEntry.id row <> id) ->
  createJournalEntry (Some rows) None id now entryData = Ok (rows', entry) ->
  getJournalEntry (Some rows') None id
  = Ok (Some (JournalEntry.mk
                (JournalEntry.id entry) (JournalEntry.userId entry)
                (JournalEntry.content entry) (JournalEntry.mood entry)
                (JournalEntry.createdAt entry) (JournalEntry.updatedAt entry)
                (JournalEntry.isMinted entry)
                (orNull (JournalEntry.nftAddress entry))
                (JournalEntry.clarityPoints entry) (JournalEntry.isSync entry)
                (JournalEntry.nftTransactionSignature entry)
                (JournalEntry.nftMetadataUri entry))) /\
  JournalEntry.id entry = id /\
  JournalEntry.createdAt entry = now /\
  JournalEntry.updatedAt entry = now /\
  (forall id', id' <> id ->
     getJournalEntry (Some rows') None id' = getJournalEntry (Some rows) None id').
Proof.
  intros Hfresh Hcreate. cbn in Hcreate. injection Hcreate as <- <-.
  unfold getJournalEntry. split; [|split; [reflexivity|split; [reflexivity|split; [reflexivity|]]]].
  - rewrite (find_app_not_found _ _ _ (find_row_fresh rows id Hfresh)).
    cbn. rewrite bool_decide_eq_true_2 by reflexivity. cbn.
    unfold dbEntryToEntry, insertedRow, newEntry. cbn. rewrite orNull_idem.
    destruct (EntryData.isMinted entryData), (EntryData.isSync entryData); reflexivity.
  - intros id' Hne. do 2 f_equal.
    destruct (List.find (fun row => bool_decide (DBJournalEntry.id row = id')) rows)
      as [row|] eqn:Hfind.
    + apply (find_app_found _ _ [insertedRow id now entryData]) in Hfind.
      exact Hfind.
    + rewrite (find_app_not_found _ _ _ Hfind). cbn.
      rewrite bool_decide_eq_false_2 by congruence. reflexivity.
Qed.

Lemma createJournalEntry_then_getJournalEntry_witness :
  getJournalEntry
    (Some (SampleStore.table ++ [insertedRow "e9" 3000 SampleStore.draft]))
    None "e9"
  = Ok (Some (newEntry "e9" 3000 SampleStore.draft)).
Proof.
  apply (proj1 (createJournalEntry_then_getJournalEntry
                  SampleStore.table _ "e9" 3000 SampleStore.draft _
                  ltac:(intros row Hrow Hid; vm_compute in Hrow;
                        repeat (apply elem_of_cons in Hrow as [->|Hrow];
                                [discriminate|]);
                        apply elem_of_nil in Hrow; exact Hrow)
                  eq_refl)).
Defined.

Global Instance newestRowFirst_total : Total newestRowFirst.
Proof. intros a b. unfold newestRowFirst. lia. Qed.

(** The entries of a user come newest first and are exactly the rows of
    that user; a limit of 0, like a negative one, limits nothing, and a
    positive limit keeps that many of the newest. *)
Theorem getJournalEntries_newest_first
    (rows : list DBJournalEntry.t) (userId : string) :
  exists entries,
    getJournalEntries (Some rows) None userId None = Ok entries /\
    Sorted Utils.newestFirst entries /\
    entries ≡ₚ dbEntryToEntry
                 <$> List.filter (fun row => bool_decide (DBJournalEntry.user_id row = userId))
                                 rows /\
    (forall e, e ∈ entries -> JournalEntry.userId e = userId) /\
    getJournalEntries (Some rows) None userId (Some 0) = Ok entries /\
    (forall n, n < 0 ->
               getJournalEntries (Some rows) None userId (Some n) = Ok entries) /\
    (forall n, 0 < n ->
               getJournalEntries (Some rows) None userId (Some n)
               = Ok (take (Z.to_nat n) entries)).
Proof.
  eexists. split; [reflexivity|]. cbn zeta.
  set (mine := List.filter _ rows).
  split; [|split; [|split; [|split; [reflexivity|split]]]].
  - apply (Sorted_fmap _ newestRowFirst Utils.newestFirst).
    + intros a b Hab. exact Hab.
    + apply Sorted_merge_sort; apply _.
  - apply fmap_Permutation, merge_sort_Permutation.
  - intros e He. apply list_elem_of_fmap in He as (row & -> & Hrow).
    rewrite merge_sort_Permutation in Hrow.
    apply list_elem_of_In, filter_In in Hrow as [_ Hu].
    apply bool_decide_eq_true in Hu. exact Hu.
  - intros n Hn. unfold getJournalEntries, sqlLimit.
    destruct (Z.eqb_spec n 0); [lia|].
    destruct (Z.ltb_spec n 0); [reflexivity | lia].
  - intros n Hn. unfold getJournalEntries, sqlLimit.
    destruct (Z.eqb_spec n 0); [lia|].
    destruct (Z.ltb_spec n 0); [lia|].
    rewrite fmap_take. reflexivity.
Qed.

Lemma filter_filter_neg {A} (p : A -> bool) (l : list A) :
  List.filter p (List.filter p l) = List.filter p l.
Proof.
  induction l as [|a l IH]; cbn; [reflexivity|].
  destruct (p a) eqn:E; cbn; rewrite ?E, IH; reflexivity.
Qed.

(** After a DELETE the engine ran, the id reads as [null] and every other
    id reads as before; deleting again, or deleting an id no row has,
    leaves the table as it is. *)
Theorem deleteJournalEntry_removes_only_that_id
    (rows rows' : list DBJournalEntry.t) (id : string) :
  deleteJournalEntry (Some rows) None id = Ok rows' ->
  getJournalEntry (Some rows') None id = Ok None /\
  (forall id', id' <> id ->
     getJournalEntry (Some rows') None id' = getJournalEntry (Some rows) None id') /\
  deleteJournalEntry (Some rows') None id = Ok rows' /\
  ((forall row, row ∈ rows -> DBJournalEntry.id row <> id) -> rows' = rows).
Proof.
  intros Hdel. cbn in Hdel. injection Hdel as <-.
  split; [|split; [|split]].
  - unfold getJournalEntry. do 2 f_equal.
    destruct (List.find _ _) as [row|] eqn:Hfind; [|reflexivity].
    apply find_some in Hfind as [Hin Hid].
    apply filter_In in Hin as [_ Hne]. rewrite Hid in Hne. discriminate.
  - intros id' Hne. unfold getJournalEntry. do 2 f_equal.
    induction rows as [|row rows IH]; [reflexivity|]. cbn.
    destruct (decide (DBJournalEntry.id row = id)) as [Heq|Hneq].
    + rewrite (bool_decide_eq_true_2 _ Heq). cbn.
      rewrite bool_decide_eq_false_2 by congruence. exact IH.
    + rewrite (bool_decide_eq_false_2 _ Hneq). cbn.
      destruct (bool_decide (DBJournalEntry.id row = id')); [reflexivity | exact IH].
  - unfold deleteJournalEntry. rewrite filter_filter_neg. reflexivity.
  - intros Hfresh. induction rows as [|row rows IH]; [reflexivity|]. cbn.
    rewrite bool_decide_eq_false_2 by (apply Hfresh, list_elem_of_here). cbn.
    f_equal. apply IH. intros r Hr. apply Hfresh, list_elem_of_further, Hr.
Qed.

Lemma deleteJournalEntry_removes_only_that_id_witness :
  getJournalEntry
    (Some (List.filter (fun row => negb (bool_decide (DBJournalEntry.id row = "e1"%string)))
                       SampleStore.table))
    None "e1"
  = Ok None.
Proof.
  apply (proj1 (deleteJournalEntry_removes_only_that_id
                  SampleStore.table _ "e1" eq_refl)).
Defined.

End StoreEntries.

(** ** The sweep, the store's view and the state's view *)

Section SweepViews.
Import AppProvider SQLiteEntries.

(** After a sweep in which the mirror took every offered entry and SQLite
    ran every marking statement, the store lists none of the offered
    entries as unsynced any more, while [checkOnlineStatus] still counts
    all of them as pending: the sweep does not touch the flags held in the
    state. *)
Theorem syncToCloud_store_synced_state_pending
    (cfg : Config.t) (env : SyncEnv.t) (w w' : World.t) (r : Result unit)
    (rows : list DBJournalEntry.t) (userId : string) (lastSyncTime : option Z) :
  sweepRuns cfg w = true ->
  World.sqlite w = Some rows ->
  (forall e, e ∈ unsyncedEntries w -> marked env w e = true) ->
  syncToCloud cfg env w = (w', r) ->
  (exists listed,
     getUnsyncedEntries (World.sqlite w') None userId = Ok listed /\
     forall e' e, e' ∈ listed -> e ∈ unsyncedEntries w ->
                  JournalEntry.id e' <> JournalEntry.id e) /\
  SyncStatus.pendingSync (checkOnlineStatus lastSyncTime w')
  = Z.of_nat (length (unsyncedEntries w)).
Proof.
  intros Hruns Hdb Hmarked Hsync.
  unfold sweepRuns in Hruns. apply andb_prop in Hruns as [Hpg Huser].
  unfold syncToCloud in Hsync. rewrite Hpg, Huser in Hsync. cbn [negb orb] in Hsync.
  destruct (forEach_effect env (unsyncedEntries w) w)
    as (w1 & Hrun & Hst & _ & _ & Hrows).
  unfold tryCatch in Hsync. rewrite Hrun in Hsync. injection Hsync as <- <-.
  rewrite Hdb in Hrows.
  destruct (markRows_rows env w (unsyncedEntries w) rows)
    as (rows' & Hfold & Hlen & Hrow).
  rewrite Hfold in Hrows. split.
  - rewrite Hrows. eexists. split; [reflexivity|].
    intros e' e He' He Hid.
    apply list_elem_of_fmap in He' as (row' & -> & Hin).
    apply list_elem_of_In, filter_In in Hin as [Hin Hflag].
    apply andb_prop in Hflag as [_ Hzero]. apply Z.eqb_eq in Hzero.
    apply list_elem_of_In, list_elem_of_lookup in Hin as [i Hi].
    destruct (rows !! i) as [row|] eqn:Hrowi.
    + destruct (Hrow i row Hrowi) as (row'' & Hi' & (Hsame & _) & Hsyncflag).
      rewrite Hi in Hi'. injection Hi' as <-.
      assert (Hex : existsb (fun e0 => bool_decide (JournalEntry.id e0 = DBJournalEntry.id row)
                                       && marked env w e0)
                            (unsyncedEntries w) = true).
      { apply existsb_exists. exists e. split; [apply list_elem_of_In, He|].
        rewrite (Hmarked e He), andb_true_r. apply bool_decide_eq_true.
        cbn in Hid. congruence. }
      rewrite Hex in Hsyncflag. lia.
    + apply lookup_ge_None in Hrowi. apply lookup_lt_Some in Hi. lia.
  - unfold checkOnlineStatus, unsyncedEntries. cbn. rewrite Hst. reflexivity.
Qed.

Lemma syncToCloud_store_synced_state_pending_witness :
  SyncStatus.pendingSync
    (checkOnlineStatus None
       (fst (syncToCloud SampleSync.cloudConfig acceptingSync
                         SampleSync.world)))
  = 2.
Proof.
  apply (proj2 (syncToCloud_store_synced_state_pending
                  SampleSync.cloudConfig acceptingSync SampleSync.world
                  _ _ _ "u1" None eq_refl eq_refl
                  ltac:(intros e _; reflexivity)
                  (surjective_pairing _))).
Defined.

End SweepViews.

(** ** The SQLite store: users *)

Section StoreUsers.
Import SQLiteUsers.

Lemma find_user_map (f : DBUser.t -> DBUser.t) (id : string)
    (users : list DBUser.t) :
  (forall row, DBUser.id (f row) = DBUser.id row) ->
  List.find (fun row => bool_decide (DBUser.id row = id)) (map f users)
  = f <$> List.find (fun row => bool_decide (DBUser.id row = id)) users.
Proof.
  intros Hid. induction users as [|row users IH]; [reflexivity|].
  cbn. rewrite Hid. destruct (bool_decide _); [reflexivity | exact IH].
Qed.

Lemma assign_id (setClause : list Assignment) (row : DBUser.t) :
  DBUser.id (fold_left assign setClause row) = DBUser.id row.
Proof.
  revert row. induction setClause as [|a setClause IH]; intros row; [reflexivity|].
  cbn [fold_left]. rewrite IH. destruct row, a; reflexivity.
Qed.

Lemma setClauseOf_user (updates : PartialUser.t) (row : DBUser.t) :
  dbUserToUser (fold_left assign (setClauseOf updates) row)
  = userAfter updates (dbUserToUser row).
Proof.
  destruct row, updates as [? w t c l d ? p].
  unfold setClauseOf; cbn [PartialUser.walletAddress PartialUser.totalClarityPoints
    PartialUser.currentStreak PartialUser.longestStreak PartialUser.lastEntryDate
    PartialUser.preferences].
  destruct w as [[?|]|], t, c, l, d as [[?|]|], p; reflexivity.
Qed.

(** [updateUser] sends a statement exactly when some key it writes
    carries a value: without one it resolves with the table as it is,
    whatever the engine would answer, and with one a refusal of the engine
    is raised. *)
Lemma updateUser_statement_sent
    (db : list DBJournalEntry.t) (users : list DBUser.t)
    (id : string) (updates : PartialUser.t) :
  (forall runAsync,
     carriesValue updates = false ->
     updateUser (Some db) users runAsync id updates = Ok users) /\
  (forall msg,
     carriesValue updates = true ->
     updateUser (Some db) users (Some msg) id updates = Err msg).
Proof.
  destruct updates as [i w t c l d ca p]. unfold updateUser, setClauseOf, carriesValue.
  cbn [PartialUser.walletAddress PartialUser.totalClarityPoints
       PartialUser.currentStreak PartialUser.longestStreak
       PartialUser.lastEntryDate PartialUser.preferences].
  split; intros x Hcarries;
    destruct w as [[?|]|], t, c, l, d as [[?|]|], p;
    try discriminate Hcarries; reflexivity.
Qed.

(** A user read back after an update the engine ran shows the new value
    for every key that carried one and the old value for the others: a key
    holding [undefined] (as [walletAddress] on disconnect) writes nothing,
    so a stored wallet address or last entry date cannot be cleared, and an
    empty wallet address reads back as absent.  Other users read as
    before.  When no key that is written carries a value, no statement is
    sent: the call resolves with the table as it is whatever the engine
    would answer, also a refusal; when one does, a refusal of the engine is
    raised. *)
Theorem updateUser_then_getUser
    (db : list DBJournalEntry.t) (users users' : list DBUser.t)
    (id : string) (updates : PartialUser.t) :
  updateUser (Some db) users None id updates = Ok users' ->
  getUser (Some db) users' None id
  = Ok (userAfter updates
          <$> List.find (fun u => bool_decide (User.id u = id))
                        (dbUserToUser <$> users)) /\
  (forall id', id' <> id ->
     getUser (Some db) users' None id' = getUser (Some db) users None id') /\
  (forall runAsync,
     carriesValue updates = false ->
     updateUser (Some db) users runAsync id updates = Ok users) /\
  (forall msg,
     carriesValue updates = true ->
     updateUser (Some db) users (Some msg) id updates = Err msg).
Proof.
  intros Hupd.
  cut ((getUser (Some db) users' None id
        = Ok (userAfter updates
                <$> List.find (fun u => bool_decide (User.id u = id))
                              (dbUserToUser <$> users))) /\
       (forall id', id' <> id ->
          getUser (Some db) users' None id' = getUser (Some db) users None id')).
  { pose proof (updateUser_statement_sent db users id updates). tauto. }
  unfold updateUser in Hupd. unfold getUser.
  assert (Hfind : forall (us : list DBUser.t) i,
             List.find (fun u => bool_decide (User.id u = i)) (dbUserToUser <$> us)
             = dbUserToUser <$> List.find (fun row => bool_decide (DBUser.id row = i)) us).
  { intros us i. induction us as [|row us IH]; [reflexivity|].
    cbn. destruct (bool_decide (DBUser.id row = i)); [reflexivity | exact IH]. }
  rewrite Hfind.
  destruct (Nat.eqb (length (setClauseOf updates)) 0) eqn:Hempty.
  - injection Hupd as <-. apply Nat.eqb_eq, length_zero_iff_nil in Hempty.
    split; [|reflexivity]. f_equal.
    destruct (List.find _ users) as [row|]; [|reflexivity]. cbn. f_equal.
    rewrite <- setClauseOf_user, Hempty. reflexivity.
  - injection Hupd as <-. split.
    + f_equal. rewrite find_user_map by (intros row; destruct (decide _);
        [apply assign_id | reflexivity]).
      destruct (List.find _ users) as [row|] eqn:Hrow; [|reflexivity]. cbn. f_equal.
      apply find_some in Hrow as [_ Hid]. apply bool_decide_eq_true in Hid.
      destruct (decide (DBUser.id row = id)); [|contradiction].
      apply setClauseOf_user.
    + intros id' Hne. f_equal.
      rewrite find_user_map by (intros row; destruct (decide _);
        [apply assign_id | reflexivity]).
      destruct (List.find _ users) as [row|] eqn:Hrow; [|reflexivity]. cbn. do 2 f_equal.
      apply find_some in Hrow as [_ Hid]. apply bool_decide_eq_true in Hid.
      destruct (decide (DBUser.id row = id)); [congruence | reflexivity].
Qed.

(** The stored wallet address survives an update whose [walletAddress] is
    [undefined]. *)
Lemma updateUser_then_getUser_witness :
  getUser (Some []) [SampleUsers.row] None "u1"
  = Ok (Some SampleUsers.connectedUser).
Proof.
  apply (proj1 (updateUser_then_getUser
                  [] [SampleUsers.row] [SampleUsers.row] "u1"
                  SampleUsers.forgetWallet eq_refl)).
Defined.

End StoreUsers.

(** ** The SQLite-only provider: deleting and minting *)

Section LocalProvider.
Import AppProviderLocalMore.

(** [deleteEntry] never rejects.  When SQLite runs the statement, no entry
    of that id is left in the state nor a row in the table, and the entries
    and rows of other ids stay; when it cannot, entries and rows stay and
    the state records the error.  Either way the user held in the state,
    with the points total and streak, is left as it was. *)
Theorem deleteEntry_local_removes_entry_keeps_user
    (cfg : Config.t) (runAsync : option string) (id : string) (w : World.t)
    (rows : list DBJournalEntry.t) :
  Config.DATABASE_SQLITE_ENABLED cfg = true ->
  World.sqlite w = Some rows ->
  exists w',
    deleteEntry cfg runAsync id w = (w', Ok ()) /\
    AppState.user (World.state w') = AppState.user (World.state w) /\
    (runAsync = None ->
     AppState.entries (World.state w')
     = List.filter (fun e => negb (bool_decide (JournalEntry.id e = id)))
                   (AppState.entries (World.state w)) /\
     World.sqlite w'
     = Some (List.filter (fun row => negb (bool_decide (DBJournalEntry.id row = id)))
                         rows) /\
     AppProvider.lookupEntry id w' = None) /\
    (forall msg, runAsync = Some msg ->
     AppState.entries (World.state w') = AppState.entries (World.state w) /\
     World.sqlite w' = World.sqlite w /\
     AppState.error (World.state w') = Some "Failed to delete journal entry"%string).
Proof.
  intros Hlite Hdb.
  unfold deleteEntry, tryCatch, when, dispatch, mbind, mret, M_bind, M_ret,
    SQLiteEntries.deleteJournalEntry.
  rewrite Hlite, Hdb. destruct w as [[u es er] db pg ws ts]. cbn in *.
  destruct runAsync as [msg|]; cbn; eexists; (split; [reflexivity|]);
    (split; [reflexivity|]); split; try discriminate.
  - intros msg' _. auto.
  - intros _. split; [reflexivity|]. split; [reflexivity|].
    unfold AppProvider.lookupEntry. cbn.
    destruct (List.find _ _) as [e|] eqn:Hfind; [|reflexivity].
    apply find_some in Hfind as [Hin Hid]. apply filter_In in Hin as [_ Hne].
    rewrite Hid in Hne. discriminate.
Qed.

Lemma deleteEntry_local_removes_entry_keeps_user_witness :
  exists w',
    deleteEntry CONFIG None "e1" SampleLocal.world = (w', Ok ()) /\
    AppState.user (World.state w') = Some SampleUsers.connectedUser.
Proof.
  destruct (deleteEntry_local_removes_entry_keeps_user
              CONFIG None "e1" SampleLocal.world _ eq_refl eq_refl)
    as (w' & Hrun & Huser & _).
  exists w'. split; [exact Hrun | exact Huser].
Defined.

(** One [mintEntryAsNFT] of the SQLite-only provider whose statement
    SQLite runs. *)
Lemma mintEntryAsNFT_local_once
    (cfg : Config.t) (nftAddress : string) (now1 now2 : Z) (r2 : option string)
    (entryId : string) (w : World.t) (entry : JournalEntry.t)
    (rows : list DBJournalEntry.t) :
  Config.SOLANA_ENABLED cfg = true ->
  Config.DATABASE_SQLITE_ENABLED cfg = true ->
  hasWalletAddress w = true ->
  World.sqlite w = Some rows ->
  AppProvider.lookupEntry entryId w = Some entry ->
  exists w' entry' rows',
    mintEntryAsNFT cfg nftAddress None r2 now1 now2 entryId w = (w', Ok nftAddress) /\
    hasWalletAddress w' = true /\
    World.sqlite w' = Some rows' /\
    AppProvider.lookupEntry entryId w' = Some entry' /\
    JournalEntry.isMinted entry' = true /\
    JournalEntry.nftAddress entry' = Some nftAddress /\
    JournalEntry.clarityPoints entry'
    = JournalEntry.clarityPoints entry + Config.CLARITY_POINTS_NFT_MINTING cfg.
Proof.
  intros Hsol Hlite Hwallet Hdb Hfind.
  unfold mintEntryAsNFT. rewrite Hsol, Hwallet, Hfind. cbn [negb].
  unfold tryCatch, AppProviderLocal.updateEntry, tryCatch, sqliteUpdate, dispatch,
    mbind, mret, M_bind, M_ret, DatabaseService.updateJournalEntry.
  rewrite Hlite, Hdb. cbn.
  destruct w as [[u es er] db pg ws ts]. cbn in *.
  eexists _, _, _. split; [reflexivity|]. split; [exact Hwallet|].
  split; [reflexivity|].
  unfold AppProvider.lookupEntry in *. cbn in *.
  rewrite find_id_map by (intros e; destruct (decide _); reflexivity).
  rewrite Hfind. cbn.
  apply find_some in Hfind as [_ Hid]. apply bool_decide_eq_true in Hid.
  destruct (decide (JournalEntry.id entry = entryId)); [|contradiction].
  repeat split.
Qed.

(** This provider does not look at [isMinted]: minting an entry again
    succeeds, replaces the address, and adds the minting points a second
    time. *)
Theorem mintEntryAsNFT_local_awards_points_again
    (cfg : Config.t) (address1 address2 : string) (now1 now2 now3 now4 : Z)
    (entryId : string) (w : World.t) (entry : JournalEntry.t)
    (rows : list DBJournalEntry.t) :
  Config.SOLANA_ENABLED cfg = true ->
  Config.DATABASE_SQLITE_ENABLED cfg = true ->
  hasWalletAddress w = true ->
  World.sqlite w = Some rows ->
  AppProvider.lookupEntry entryId w = Some entry ->
  exists w1 w2 entry2,
    mintEntryAsNFT cfg address1 None None now1 now2 entryId w = (w1, Ok address1) /\
    mintEntryAsNFT cfg address2 None None now3 now4 entryId w1 = (w2, Ok address2) /\
    AppProvider.lookupEntry entryId w2 = Some entry2 /\
    JournalEntry.isMinted entry2 = true /\
    JournalEntry.nftAddress entry2 = Some address2 /\
    JournalEntry.clarityPoints entry2
    = JournalEntry.clarityPoints entry + 2 * Config.CLARITY_POINTS_NFT_MINTING cfg.
Proof.
  intros Hsol Hlite Hwallet Hdb Hfind.
  destruct (mintEntryAsNFT_local_once cfg address1 now1 now2 None entryId w entry rows)
    as (w1 & entry1 & rows1 & Hrun1 & Hwallet1 & Hdb1 & Hfind1 & _ & _ & Hpoints1);
    try assumption.
  destruct (mintEntryAsNFT_local_once cfg address2 now3 now4 None entryId w1 entry1 rows1)
    as (w2 & entry2 & rows2 & Hrun2 & _ & _ & Hfind2 & Hminted2 & Haddr2 & Hpoints2);
    try assumption.
  exists w1, w2, entry2. repeat split; try assumption. lia.
Qed.

Lemma mintEntryAsNFT_local_awards_points_again_witness :
  exists w1 w2 entry2,
    mintEntryAsNFT CONFIG "nft_1" None None 2000 2001 "e1" SampleLocal.world
    = (w1, Ok "nft_1"%string) /\
    mintEntryAsNFT CONFIG "nft_2" None None 3000 3001 "e1" w1
    = (w2, Ok "nft_2"%string) /\
    AppProvider.lookupEntry "e1" w2 = Some entry2 /\
    JournalEntry.clarityPoints entry2 = 70.
Proof.
  destruct (mintEntryAsNFT_local_awards_points_again
              CONFIG "nft_1" "nft_2" 2000 2001 3000 3001 "e1" SampleLocal.world
              (Sample.entryAt "e1" 1000) [SampleRows.rowOf "e1" 0]
              eq_refl eq_refl eq_refl eq_refl eq_refl)
    as (w1 & w2 & entry2 & H1 & H2 & Hfind & _ & _ & Hpoints).
  exists w1, w2, entry2. auto.
Defined.

End LocalProvider.

(** ** The provider with the mirror: user statistics and the wallet *)

Section UserStats.
Import AppProviderMore.

Ltac unfold_MS :=
  unfold tryCatchS, whenS, throwS, liftW, dispatchUpdateUser, sqliteUpdateUser,
    postgresUpdateUser, mbind, mret, MS_bind, MS_ret in *.

(** The statements on users change the [users] table and the mirror's
    record of them, and nothing of the world of entries. *)
Lemma userStatements_world (cfg : Config.t) (env : UserEnv.t) (id : string)
    (updates : PartialUser.t) (s : Store.t) :
  exists s',
    tryCatchS
      (whenS (Config.DATABASE_POSTGRESQL_ENABLED cfg)
             (postgresUpdateUser (UserEnv.postgres env) id updates);;
       whenS (Config.DATABASE_SQLITE_ENABLED cfg)
             (sqliteUpdateUser (UserEnv.sqlite env) id updates))
      (fun _ => mret ()) s = (s', Ok ()) /\
    Store.world s' = Store.world s.
Proof.
  unfold_MS. unfold SQLiteUsers.updateUser.
  destruct s as [[st db [rn pool] ws ts] us ms]. cbn.
  repeat (case_match; simplify_eq/=); eauto.
Qed.

Lemma foldl_points (entries : list JournalEntry.t) (sum : Z) :
  foldl (fun sum entry => sum + JournalEntry.clarityPoints entry) sum entries
  = sum + sumPoints entries.
Proof.
  revert sum. induction entries as [|e entries IH]; intros sum; cbn.
  - unfold sumPoints. cbn. lia.
  - rewrite IH. unfold sumPoints. cbn. lia.
Qed.

Lemma sumPoints_perm (l1 l2 : list JournalEntry.t) :
  l1 ≡ₚ l2 -> sumPoints l1 = sumPoints l2.
Proof.
  unfold sumPoints. induction 1; cbn in *; lia.
Qed.

Global Instance newestFirst_trans : Transitive Utils.newestFirst.
Proof. intros a b c. unfold Utils.newestFirst. lia. Qed.

(** The head of a newest-first list is a newest entry. *)
Lemma head_sorted_newest (l : list JournalEntry.t) (e0 : JournalEntry.t) :
  Sorted Utils.newestFirst l -> head l = Some e0 ->
  forall e, e ∈ l -> JournalEntry.createdAt e <= JournalEntry.createdAt e0.
Proof.
  intros Hsorted Hhead e He.
  apply Sorted_StronglySorted in Hsorted; [|apply _].
  destruct l as [|x l]; [discriminate|]. injection Hhead as ->.
  apply StronglySorted_inv in Hsorted as [_ Hall].
  apply elem_of_cons in He as [->|He]; [lia|].
  rewrite Forall_forall in Hall. exact (Hall e He).
Qed.

(** [updateUserStats] never rejects and, of the world of entries, changes
    the user of the state only. *)
Lemma updateUserStats_world (cfg : Config.t) (env : UserEnv.t) (user : User.t)
    (entries : list JournalEntry.t) (s : Store.t) :
  exists s' payload,
    updateUserStats cfg env user entries s = (s', Ok ()) /\
    Store.world s'
    = World.with_state (reduceUpdateUser (World.state (Store.world s)) payload)
                       (Store.world s).
Proof.
  unfold updateUserStats.
  set (updates := PartialUser.mk _ _ _ _ _ _ _ _).
  destruct (userStatements_world cfg env (User.id user) updates s)
    as (s1 & Hrun & Hworld).
  change (mbind ?k ?m) with (MS_bind _ _ k m). unfold MS_bind at 1.
  rewrite Hrun. unfold dispatchUpdateUser. rewrite Hworld.
  eexists _, updates. split; reflexivity.
Qed.

(** [updateUserStats] never rejects, whatever the stores answer, and the
    user it leaves in the state has: the streak of [entries]; the sum of
    their points as total; a longest streak that is the larger of the old
    one and the streak, hence never below the streak; as last entry date
    the creation time of a newest entry whatever the order of [entries]
    (none when there are no entries); identity, wallet address and
    preferences as before. *)
Theorem updateUserStats_sets_consistent_stats
    (cfg : Config.t) (env : UserEnv.t) (user : User.t)
    (entries : list JournalEntry.t) (s : Store.t) (u0 : User.t) :
  AppState.user (World.state (Store.world s)) = Some u0 ->
  exists s' u',
    updateUserStats cfg env user entries s = (s', Ok ()) /\
    AppState.user (World.state (Store.world s')) = Some u' /\
    AppState.entries (World.state (Store.world s'))
    = AppState.entries (World.state (Store.world s)) /\
    User.currentStreak u'
    = Utils.calculateStreak (UserEnv.tz env) (UserEnv.now env) entries user /\
    User.totalClarityPoints u' = sumPoints entries /\
    User.longestStreak u' = Z.max (User.longestStreak user) (User.currentStreak u') /\
    User.currentStreak u' <= User.longestStreak u' /\
    (entries = [] <-> User.lastEntryDate u' = None) /\
    (forall d, User.lastEntryDate u' = Some d ->
       (exists e, e ∈ entries /\ JournalEntry.createdAt e = d) /\
       (forall e, e ∈ entries -> JournalEntry.createdAt e <= d)) /\
    User.id u' = User.id u0 /\
    User.walletAddress u' = User.walletAddress u0 /\
    User.createdAt u' = User.createdAt u0 /\
    User.preferences u' = User.preferences u0.
Proof.
  intros Huser. unfold updateUserStats.
  set (updates := PartialUser.mk _ _ _ _ _ _ _ _).
  destruct (userStatements_world cfg env (User.id user) updates s)
    as (s1 & Hrun & Hworld).
  change (mbind ?k ?m) with (MS_bind _ _ k m). unfold MS_bind at 1.
  rewrite Hrun. unfold dispatchUpdateUser. rewrite Hworld.
  eexists _, _. split; [reflexivity|]. subst updates.
  cbn -[merge_sort foldl Utils.calculateStreak Z.max head]. rewrite Huser.
  split; [reflexivity|].
  unfold spreadUser, default, id.
  cbn -[merge_sort foldl Utils.calculateStreak Z.max head].
  split; [reflexivity|]. split; [reflexivity|].
  pose proof (merge_sort_Permutation Utils.newestFirst entries) as Hperm.
  split; [rewrite foldl_points, (sumPoints_perm _ _ Hperm); lia|].
  split; [reflexivity|]. split; [lia|].
  pose proof (Sorted_merge_sort Utils.newestFirst entries) as Hsorted.
  destruct (merge_sort Utils.newestFirst entries) as [|e0 sorted] eqn:Hsort.
  - apply Permutation_nil in Hperm. subst entries. cbn.
    split; [tauto|]. split; [discriminate|]. auto.
  - cbn. split.
    + split; [intros ->; apply Permutation_nil_r in Hperm; discriminate | discriminate].
    + split; [|auto]. intros d Hd. injection Hd as <-. split.
      * exists e0. split; [|reflexivity]. rewrite <- Hperm. apply list_elem_of_here.
      * intros e He. rewrite <- Hperm in He.
        exact (head_sorted_newest (e0 :: sorted) e0 Hsorted eq_refl e He).
Qed.

Lemma updateUserStats_sets_consistent_stats_witness :
  exists s' u',
    updateUserStats CONFIG SampleUsers.userEnv SampleUsers.connectedUser
      [Sample.entryAt "a" (Sample.noon 19999);
       Sample.entryAt "b" (Sample.noon 20000)] SampleUsers.store = (s', Ok ()) /\
    AppState.user (World.state (Store.world s')) = Some u' /\
    User.currentStreak u' <= User.longestStreak u'.
Proof.
  destruct (updateUserStats_sets_consistent_stats
              CONFIG SampleUsers.userEnv SampleUsers.connectedUser
              [Sample.entryAt "a" (Sample.noon 19999);
               Sample.entryAt "b" (Sample.noon 20000)]
              SampleUsers.store SampleUsers.connectedUser eq_refl)
    as (s' & u' & Hrun & Huser & _ & _ & _ & _ & Hle & _).
  exists s', u'. auto.
Defined.

End UserStats.

Section WalletAndEntries.
Import AppProviderMore.

Ltac unfold_MS' :=
  unfold tryCatchS, whenS, throwS, liftW, dispatchUpdateUser, sqliteUpdateUser,
    postgresUpdateUser, mbind, mret, MS_bind, MS_ret in *.

(** [disconnectWallet] of a provider that holds a user never rejects and
    disconnects the wallet service, so that minting is then refused with
    ["Wallet not connected"].  It sends no statement to either store: the
    [users] table and the mirror are as before, and the stored user keeps
    the wallet address.  When the guards of the enabled stores pass, the
    user in the state loses the address; when one does not, the state
    keeps it and records ["Failed to disconnect wallet"]. *)
Theorem disconnectWallet_keeps_stored_address
    (cfg : Config.t) (env : UserEnv.t) (s : Store.t) (u : User.t) :
  AppState.user (World.state (Store.world s)) = Some u ->
  exists s',
    disconnectWallet cfg env s = (s', Ok ()) /\
    Store.users s' = Store.users s /\
    Store.mirrorUsers s' = Store.mirrorUsers s /\
    World.sqlite (Store.world s') = World.sqlite (Store.world s) /\
    World.postgres (Store.world s') = World.postgres (Store.world s) /\
    WalletService.isConnected (World.wallet (Store.world s')) = false /\
    (forall cfg' menv entryId,
       Config.SOLANA_ENABLED cfg' = true ->
       AppProvider.mintEntryAsNFT cfg' menv entryId (Store.world s')
       = (Store.world s', Err "Wallet not connected")) /\
    (userGuardsPass cfg (Store.world s) = true ->
     User.walletAddress <$> AppState.user (World.state (Store.world s')) = Some None) /\
    (userGuardsPass cfg (Store.world s) = false ->
     AppState.user (World.state (Store.world s')) = Some u /\
     AppState.error (World.state (Store.world s'))
     = Some "Failed to disconnect wallet"%string).
Proof.
  intros Huser. unfold disconnectWallet. rewrite Huser.
  assert (Hdisc : forall ws, WalletService.isConnected
                               (WalletServiceMore.disconnectWallet ws) = false).
  { intros [[wallet|] kp]; reflexivity. }
  unfold_MS'. unfold SQLiteUsers.updateUser, dispatch, userGuardsPass, mirrorUsable.
  destruct s as [[[u' es er] db [rn pool] ws ts] us ms]. cbn in *.
  subst u'.
  destruct (Config.DATABASE_POSTGRESQL_ENABLED cfg),
    (Config.DATABASE_SQLITE_ENABLED cfg), rn, pool as [accepted|], db as [rows|];
    cbn; eexists; (split; [reflexivity|]); cbn;
    repeat (split; [first [reflexivity | apply Hdisc]|]);
    (split; [intros cfg' menv entryId Hsol;
             unfold AppProvider.mintEntryAsNFT, AppProvider.mintPrecheck;
             cbn; rewrite Hsol, Hdisc; reflexivity|]);
    split; intros Hguard; try discriminate; auto.
Qed.

Lemma disconnectWallet_keeps_stored_address_witness :
  exists s',
    disconnectWallet CONFIG SampleUsers.userEnv SampleUsers.store = (s', Ok ()) /\
    Store.users s' = [SampleUsers.row] /\
    User.walletAddress <$> AppState.user (World.state (Store.world s')) = Some None.
Proof.
  destruct (disconnectWallet_keeps_stored_address
              CONFIG SampleUsers.userEnv SampleUsers.store
              SampleUsers.connectedUser eq_refl)
    as (s' & Hrun & Husers & _ & _ & _ & _ & _ & Hstate & _).
  exists s'. split; [exact Hrun|]. split; [exact Husers|].
  apply Hstate. reflexivity.
Defined.

(** [createEntry] of a provider that holds a user, with SQLite open and
    taking the INSERT, resolves with an entry that is put in front of the
    entries of the state and is written to exactly one store.  The entry
    has the content, the mood and the user's id, is neither minted nor
    synced, and carries the points [calculateClarityPoints] gives it for
    the user's streak before the entry.  When the mirror is enabled, can be
    asked and takes the entry, the mirror holds it and SQLite is as
    before; otherwise SQLite has one more row, the entry's, and the mirror
    is as before. *)
Theorem createEntry_writes_one_store
    (cfg : Config.t) (env : CreateEnv.t) (content : string) (mood : MoodType)
    (s : Store.t) (u : User.t) (rows : list DBJournalEntry.t) :
  AppState.user (World.state (Store.world s)) = Some u ->
  World.sqlite (Store.world s) = Some rows ->
  CreateEnv.sqlite env = None ->
  exists s' entry,
    createEntry cfg env content mood s = (s', Ok entry) /\
    AppState.entries (World.state (Store.world s'))
    = entry :: AppState.entries (World.state (Store.world s)) /\
    JournalEntry.content entry = content /\
    JournalEntry.mood entry = mood /\
    JournalEntry.userId entry = User.id u /\
    JournalEntry.isMinted entry = false /\
    JournalEntry.isSync entry = false /\
    JournalEntry.clarityPoints entry
    = ClarityPointsBreakdown.total
        (Utils.calculateClarityPoints entry (User.currentStreak u) true) /\
    (viaMirror cfg env (Store.world s) = true ->
     JournalEntry.id entry = CreateEnv.postgresId env /\
     World.sqlite (Store.world s') = Some rows /\
     PostgreSQLService.pool (World.postgres (Store.world s'))
     = (fun accepted => accepted ++ [PostgreSQLService.Insert entry])
         <$> PostgreSQLService.pool (World.postgres (Store.world s))) /\
    (viaMirror cfg env (Store.world s) = false ->
     JournalEntry.id entry = CreateEnv.sqliteId env /\
     World.postgres (Store.world s') = World.postgres (Store.world s) /\
     exists row,
       World.sqlite (Store.world s') = Some (rows ++ [row]) /\
       SQLiteEntries.dbEntryToEntry row = entry).
Proof.
  intros Huser Hdb Hlite. unfold createEntry. rewrite Huser.
  set (entryData := EntryData.mk _ _ _ _ _ _ _).
  unfold viaMirror, mirrorUsable.
  destruct s as [[st db [rn pool] ws ts] us ms]. cbn in Huser, Hdb. subst db.
  destruct st as [user0 entries0 error0]. cbn in Huser. subst user0.
  set (st := AppState.mk (Some u) entries0 error0).
  destruct env as [pgId pgNow pgAnswer liteId liteNow liteAnswer stats].
  cbn in Hlite. subst liteAnswer.
  unfold tryCatchS at 1.
  change (mbind ?k ?m) with (MS_bind _ _ k m). unfold MS_bind at 1.
  cbn [CreateEnv.postgres CreateEnv.postgresId CreateEnv.postgresNow
       CreateEnv.sqlite CreateEnv.sqliteId CreateEnv.sqliteNow CreateEnv.stats
       Store.world World.postgres World.sqlite World.state
       PostgreSQLService.isReactNative PostgreSQLService.pool].
  assert (Hstore : exists s1 entry,
    (if Config.DATABASE_POSTGRESQL_ENABLED cfg
     then
       tryCatchS
         (postgresCreateEntry pgAnswer pgId pgNow entryData)
         (fun _ => sqliteCreateEntry None liteId liteNow entryData)
     else sqliteCreateEntry None liteId liteNow entryData)
      (Store.mk (World.mk st (Some rows) (PostgreSQLService.mk rn pool) ws ts) us ms)
    = (s1, Ok entry) /\
    World.state (Store.world s1) = st /\
    (exists id now, entry = SQLiteEntries.newEntry id now entryData /\
       ((Config.DATABASE_POSTGRESQL_ENABLED cfg && (negb rn && bool_decide (is_Some pool))
         && bool_decide (pgAnswer = None) = true ->
         id = pgId /\ World.sqlite (Store.world s1) = Some rows /\
         PostgreSQLService.pool (World.postgres (Store.world s1))
         = (fun accepted => accepted ++ [PostgreSQLService.Insert entry]) <$> pool) /\
        (Config.DATABASE_POSTGRESQL_ENABLED cfg && (negb rn && bool_decide (is_Some pool))
         && bool_decide (pgAnswer = None) = false ->
         id = liteId /\
         World.postgres (Store.world s1) = PostgreSQLService.mk rn pool /\
         World.sqlite (Store.world s1)
         = Some (rows ++ [SQLiteEntries.insertedRow id now entryData]))))).
  { unfold tryCatchS, postgresCreateEntry, sqliteCreateEntry, liftW, postgresCreate,
      PostgreSQLService.createJournalEntry, PostgreSQLService.query,
      SQLiteEntries.createJournalEntry, mbind, mret, MS_bind, MS_ret.
    destruct (Config.DATABASE_POSTGRESQL_ENABLED cfg), rn, pool as [accepted|],
      pgAnswer as [msg|]; cbn;
      eexists _, _; (split; [reflexivity|]); (split; [reflexivity|]);
      eexists _, _; (split; [reflexivity|]); cbn;
      split; intros Hvia; try discriminate; auto. }
  destruct Hstore as (s1 & entry & -> & Hst & id & now & Hentry & Hmirror & Hlocal).
  cbn -[updateUserStats].
  unfold mbind, mret, MS_bind, MS_ret, liftW, dispatch.
  cbn -[updateUserStats].
  match goal with
  | |- context [updateUserStats ?c ?e ?us ?es ?s0] =>
      destruct (updateUserStats_world c e us es s0) as (s2 & payload & -> & Hworld)
  end.
  exists s2, entry. split; [reflexivity|].
  rewrite Hworld. cbn. rewrite Hst. subst st. cbn.
  split; [reflexivity|].
  subst entry entryData. cbn.
  repeat (split; [reflexivity|]).
  split; [intros Hvia; apply Hmirror in Hvia; tauto|].
  intros Hvia. apply Hlocal in Hvia as (-> & Hpg & Hrows).
  split; [reflexivity|]. split; [exact Hpg|].
  eexists. split; [exact Hrows|]. reflexivity.
Qed.

Lemma createEntry_writes_one_store_witness :
  exists s' entry,
    createEntry CONFIG SampleCreate.env "A quiet walk by the river"
                happy SampleUsers.store = (s', Ok entry) /\
    JournalEntry.id entry = "lite9"%string /\
    JournalEntry.clarityPoints entry = 15.
Proof.
  destruct (createEntry_writes_one_store
              CONFIG SampleCreate.env "A quiet walk by the river" happy
              SampleUsers.store SampleUsers.connectedUser
              [SampleRows.rowOf "e1" 0] eq_refl eq_refl eq_refl)
    as (s' & entry & Hrun & _ & _ & _ & _ & Hminted & _ & Hpoints & _ & Hlocal).
  exists s', entry. split; [exact Hrun|].
  split; [apply Hlocal; reflexivity|].
  rewrite Hpoints. unfold Utils.calculateClarityPoints. rewrite Hminted.
  reflexivity.
Defined.

(** When neither store takes the new entry, [createEntry] rejects with
    SQLite's error (the mirror's is dropped by the fallback), records
    ["Failed to create journal entry"], and leaves the entries and the user
    of the state, both stores and the [users] table as they were. *)
Theorem createEntry_rejects_with_sqlite_error
    (cfg : Config.t) (env : CreateEnv.t) (content : string) (mood : MoodType)
    (s : Store.t) (u : User.t) (msg : string) :
  AppState.user (World.state (Store.world s)) = Some u ->
  viaMirror cfg env (Store.world s) = false ->
  sqliteRefusal (Store.world s) (CreateEnv.sqlite env) = Some msg ->
  exists s',
    createEntry cfg env content mood s = (s', Err msg) /\
    AppState.error (World.state (Store.world s'))
    = Some "Failed to create journal entry"%string /\
    AppState.entries (World.state (Store.world s'))
    = AppState.entries (World.state (Store.world s)) /\
    AppState.user (World.state (Store.world s')) = Some u /\
    World.sqlite (Store.world s') = World.sqlite (Store.world s) /\
    World.postgres (Store.world s') = World.postgres (Store.world s) /\
    Store.users s' = Store.users s /\
    Store.mirrorUsers s' = Store.mirrorUsers s.
Proof.
  intros Huser Hvia Hlite. unfold createEntry. rewrite Huser.
  unfold viaMirror, mirrorUsable, sqliteRefusal in *.
  destruct s as [[[user0 entries0 error0] db [rn pool] ws ts] us ms].
  destruct env as [pgId pgNow pgAnswer liteId liteNow liteAnswer stats].
  cbn in Huser, Hvia, Hlite. subst user0.
  unfold tryCatchS, postgresCreateEntry, sqliteCreateEntry, liftW, postgresCreate,
    PostgreSQLService.createJournalEntry, PostgreSQLService.query,
    SQLiteEntries.createJournalEntry, throwS, dispatch, mbind, mret, MS_bind, MS_ret.
  destruct (Config.DATABASE_POSTGRESQL_ENABLED cfg), rn, pool as [accepted|],
    pgAnswer as [pgMsg|], db as [rows|];
    cbn in Hvia, Hlite |- *; try discriminate; subst;
    try (injection Hlite as <-);
    eexists; (split; [reflexivity|]); cbn; repeat split.
Qed.

Lemma createEntry_rejects_with_sqlite_error_witness :
  exists s',
    createEntry CONFIG
      (CreateEnv.mk "pg9" 5000 None "lite9" 5001
                    (Some "database is locked"%string) SampleUsers.userEnv)
      "A quiet walk by the river" happy SampleUsers.store
    = (s', Err "database is locked") /\
    AppState.entries (World.state (Store.world s'))
    = [Sample.entryAt "e1" 1000].
Proof.
  destruct (createEntry_rejects_with_sqlite_error
              CONFIG
              (CreateEnv.mk "pg9" 5000 None "lite9" 5001
                            (Some "database is locked"%string) SampleUsers.userEnv)
              "A quiet walk by the river" happy SampleUsers.store
              SampleUsers.connectedUser "database is locked"
              eq_refl eq_refl eq_refl)
    as (s' & Hrun & _ & Hentries & _).
  exists s'. split; [exact Hrun|exact Hentries].
Defined.

End WalletAndEntries.

Section Recent.
Import Utils UtilsMore.

Lemma startOfDay_bounds (tz t : Z) :
  startOfDay tz t <= t < startOfDay tz t + msPerDay.
Proof.
  unfold startOfDay. pose proof msPerDay_pos as Hpos.
  pose proof (Z.mul_div_le (t + tz) msPerDay Hpos).
  pose proof (Z.mul_succ_div_gt (t + tz) msPerDay Hpos). lia.
Qed.

(** [getRecentEntries] keeps, in their order, exactly the entries created
    no more than [days] days before now, so a longer window keeps at least
    the entries of a shorter one; and a window of one day or more is not
    empty when [hasWrittenToday] holds. *)
Theorem getRecentEntries_window
    (tz now days days' : Z) (entries : list JournalEntry.t) :
  days <= days' ->
  (forall e, e ∈ getRecentEntries now entries days'
             <-> e ∈ entries /\ now - JournalEntry.createdAt e <= days' * msPerDay) /\
  getRecentEntries now entries days `sublist_of` getRecentEntries now entries days' /\
  getRecentEntries now entries days' `sublist_of` entries /\
  (1 <= days -> hasWrittenToday tz now entries = true ->
   getRecentEntries now entries days <> []).
Proof.
  intros Hdays. pose proof msPerDay_pos as Hpos. unfold getRecentEntries.
  split; [|split; [|split]].
  - intros e. rewrite list_elem_of_In, filter_In, <- list_elem_of_In, Z.leb_le. intuition lia.
  - induction entries as [|e entries IH]; cbn; [constructor|].
    destruct (Z.leb_spec (now - days * msPerDay) (JournalEntry.createdAt e)) as [Hin|Hout].
    + rewrite (proj2 (Z.leb_le _ _)) by nia. constructor. exact IH.
    + destruct (_ <=? _); [constructor|]; exact IH.
  - induction entries as [|e entries IH]; cbn; [constructor|].
    destruct (_ <=? _); constructor; exact IH.
  - intros Hone Htoday. unfold hasWrittenToday in Htoday.
    apply existsb_exists in Htoday as (e & He & Hsame). apply Z.eqb_eq in Hsame.
    intros Hnil.
    assert (Hin : In e (List.filter
                          (fun entry => now - days * msPerDay <=? JournalEntry.createdAt entry)
                          entries)).
    { apply filter_In. split; [exact He|]. apply Z.leb_le.
      pose proof (startOfDay_bounds tz (JournalEntry.createdAt e)).
      pose proof (startOfDay_bounds tz now). nia. }
    rewrite Hnil in Hin. exact Hin.
Qed.

Lemma getRecentEntries_window_witness :
  getRecentEntries (Sample.noon 20000)
    [Sample.entryAt "a" (Sample.noon 19990); Sample.entryAt "b" (Sample.noon 20000)] 1
  `sublist_of`
  getRecentEntries (Sample.noon 20000)
    [Sample.entryAt "a" (Sample.noon 19990); Sample.entryAt "b" (Sample.noon 20000)] 30.
Proof.
  apply (getRecentEntries_window 0 (Sample.noon 20000) 1 30
           [Sample.entryAt "a" (Sample.noon 19990);
            Sample.entryAt "b" (Sample.noon 20000)]).
  lia.
Defined.

End Recent.

Section UsersAndWallet.
Import SQLiteEntries SQLiteUsers.

Lemma find_user_fresh (users : list DBUser.t) (id : string) :
  (forall row, row ∈ users -> DBUser.id row <> id) ->
  List.find (fun row => bool_decide (DBUser.id row = id)) users = None.
Proof.
  intros Hfresh. destruct (List.find _ users) as [row|] eqn:Hfind; [|reflexivity].
  apply find_some in Hfind as [Hin Hid].
  apply bool_decide_eq_true in Hid. apply list_elem_of_In in Hin.
  destruct (Hfresh row Hin Hid).
Qed.

(** A user created under an id no row has is read back under that id as
    [createUser] returned it, but for an empty wallet address, which comes
    back absent; the other ids read as before. *)
Theorem createUser_then_getUser
    (db : list DBJournalEntry.t) (users users' : list DBUser.t) (id : string)
    (createdAt : Z) (userData : UserData.t) (user : User.t) :
  (forall row, row ∈ users -> DBUser.id row <> id) ->
  createUser (Some db) users None id createdAt userData = Ok (users', user) ->
  getUser (Some db) users' None id
  = Ok (Some (User.mk (User.id user) (orNull (User.walletAddress user))
                      (User.totalClarityPoints user) (User.currentStreak user)
                      (User.longestStreak user) (User.lastEntryDate user)
                      (User.createdAt user) (User.preferences user))) /\
  User.id user = id /\
  User.createdAt user = createdAt /\
  (forall id', id' <> id ->
     getUser (Some db) users' None id' = getUser (Some db) users None id').
Proof.
  intros Hfresh Hcreate. cbn in Hcreate. injection Hcreate as <- <-.
  unfold getUser. split; [|split; [reflexivity|split; [reflexivity|]]].
  - rewrite (find_app_not_found _ _ _ (find_user_fresh users id Hfresh)).
    cbn. rewrite bool_decide_eq_true_2 by reflexivity. cbn.
    unfold dbUserToUser. cbn. rewrite orNull_idem. reflexivity.
  - intros id' Hne. do 2 f_equal.
    destruct (List.find (fun row => bool_decide (DBUser.id row = id')) users)
      as [row|] eqn:Hfind.
    + eapply find_app_found in Hfind. exact Hfind.
    + rewrite (find_app_not_found _ _ _ Hfind). cbn.
      rewrite bool_decide_eq_false_2 by congruence. reflexivity.
Qed.

Lemma createUser_then_getUser_witness :
  getUser (Some [])
    ([SampleUsers.row]
     ++ [DBUser.mk "u2" None 0 0 0 None 7000 Sample.prefs]) None "u2"
  = Ok (Some (User.mk "u2" None 0 0 0 None 7000 Sample.prefs)).
Proof.
  apply (proj1 (createUser_then_getUser
                  [] [SampleUsers.row] _ "u2" 7000
                  (UserData.mk (Some ""%string) 0 0 0 None Sample.prefs) _
                  ltac:(intros row Hrow Hid;
                        apply list_elem_of_singleton in Hrow; subst row;
                        discriminate)
                  eq_refl)).
Defined.

(** After [disconnectWallet] the wallet service is not connected, whatever
    it held; when it was connected, it has no wallet address left; and a
    second [disconnectWallet] changes nothing. *)
Theorem disconnectWallet_service_forgets_wallet (ws : WalletService.t) :
  WalletService.isConnected (WalletServiceMore.disconnectWallet ws) = false /\
  (WalletService.isConnected ws = true ->
   WalletServiceMore.getWalletAddress (WalletServiceMore.disconnectWallet ws) = None) /\
  WalletServiceMore.disconnectWallet (WalletServiceMore.disconnectWallet ws)
  = WalletServiceMore.disconnectWallet ws.
Proof.
  destruct ws as [[wallet|] keypair]; cbn; auto.
  split; [reflexivity|]. split; [discriminate | reflexivity].
Qed.

End UsersAndWallet.
